(** * QR code generation, artifact cache and dual-cloud replication

    A shallow embedding of the Python backend:
    - [backend/services/qr_generator.py]   ([QRCodeGenerator]),
    - [backend/services/storage_manager.py] ([MultiCloudStorageManager]),
    - [backend/services/health_checker.py]  ([HealthChecker]),
    - [backend/main.py]                      (the HTTP handlers and the
      background upload task).

    Python values are modelled as follows: [str] is [string] (its case
    mappings, which follow the Unicode tables of the interpreter, are an
    interface), [bytes] is
    [list byte], [int] is [Z], the result of [len] is [nat], a [dict] keyed
    by strings is a [gmap string _], [None]-or-value is [option].  A call
    that can raise returns a [result]; code that also mutates an object
    runs in a state-and-exception monad in which the state reached before
    a [raise] is kept, as in Python.  An [await] is the call it waits for:
    one call of a handler or of a task is followed from its start to its
    end.  The third-party libraries (qrcode and
    Pillow, boto3, azure-storage-blob) are interfaces, given as type
    classes; the theorems hold for every implementation of them.  Where a
    theorem needs to know what a library call does, that is a law of the
    interface, stated with it. *)

From Stdlib Require Import ZArith NArith Lia List Bool.
From Stdlib Require Import Strings.Ascii Strings.String Strings.Byte.
From Stdlib Require QArith.
From stdpp Require Import base option gmap strings pretty list fin_maps.

Local Open Scope string_scope.

(** ** Exceptions and results *)

(** The exception classes that the modelled code raises, catches or lets
    through.  [ClientError] and [BotoCoreError] are the two disjoint roots
    of botocore's hierarchy; [AzureError] is azure-core's root. *)
Inductive exn : Type :=
  | DataOverflowError                      (* qrcode.exceptions *)
  | ValueError (msg : string)
  | ValidationError (field : string)       (* pydantic, a ValueError *)
  | FileNotFoundError (msg : string)
  | ClientError (code : string)            (* botocore.exceptions *)
  | BotoCoreError (what : string)          (* e.g. EndpointConnectionError *)
  | AzureError (msg : string)              (* azure.core.exceptions *)
  | HTTPException (status_code : Z) (detail : string)
  | OtherException (cls : string).

Inductive result (A : Type) : Type :=
  | Ok (a : A)
  | Raise (e : exn).
Arguments Ok {A} a.
Arguments Raise {A} e.

Definition is_ok {A} (r : result A) : bool :=
  match r with Ok _ => true | Raise _ => false end.

(** [isinstance(e, ClientError)] *)
Definition is_ClientError (e : exn) : bool :=
  match e with ClientError _ => true | _ => false end.

(** [isinstance(e, AzureError)] *)
Definition is_AzureError (e : exn) : bool :=
  match e with AzureError _ => true | _ => false end.

(** [isinstance(e, FileNotFoundError)] *)
Definition is_FileNotFoundError (e : exn) : bool :=
  match e with FileNotFoundError _ => true | _ => false end.

(** [str(e)] as far as the handlers use it: only to build log lines and
    the [detail] of an [HTTPException]. *)
Definition str_of_exn (e : exn) : string :=
  match e with
  | DataOverflowError => ""
  | ValueError m => m
  | ValidationError f => "1 validation error: " ++ f ++ " field required"
  | FileNotFoundError m => m
  | ClientError c => c
  | BotoCoreError w => w
  | AzureError m => m
  | HTTPException _ d => d
  | OtherException c => c
  end.

(** ** Python [str] case mappings

    [str.upper] and [str.lower] follow the Unicode tables of the
    interpreter, which are no part of the program: ["ſvg".upper()] is
    ["SVG"].  They are taken as an interface.  What is known of them is
    what they do on ASCII text, where they map the letters and leave
    every other character as it is. *)

Module PyStr.

Definition upper_ascii (c : ascii) : ascii :=
  let n := N_of_ascii c in
  if ((97 <=? n) && (n <=? 122))%N then ascii_of_N (n - 32) else c.

Definition lower_ascii (c : ascii) : ascii :=
  let n := N_of_ascii c in
  if ((65 <=? n) && (n <=? 90))%N then ascii_of_N (n + 32) else c.

(** [s.upper()] on ASCII text *)
Fixpoint ascii_upper (s : string) : string :=
  match s with
  | EmptyString => EmptyString
  | String c r => String (upper_ascii c) (ascii_upper r)
  end.

(** [s.lower()] on ASCII text *)
Fixpoint ascii_lower (s : string) : string :=
  match s with
  | EmptyString => EmptyString
  | String c r => String (lower_ascii c) (ascii_lower r)
  end.

(** [s.isascii()] *)
Fixpoint isascii (s : string) : bool :=
  match s with
  | EmptyString => true
  | String c r => (N_of_ascii c <? 128)%N && isascii r
  end.

(** [s.upper()] and [s.lower()] *)
Class Case : Type := {
  upper : string -> string;
  lower : string -> string;
  upper_isascii : forall s, isascii s = true -> upper s = ascii_upper s;
  lower_isascii : forall s, isascii s = true -> lower s = ascii_lower s
}.

(** [len(s)] *)
Definition len (s : string) : nat := String.length s.

End PyStr.

(** ** [base64.b64encode] (RFC 4648, standard alphabet, with padding) *)

Module Base64.

Definition alphabet : string :=
  "ABCDEFGHIJKLMNOPQRSTUVWXYZabcdefghijklmnopqrstuvwxyz0123456789+/".

Definition pad : ascii := "="%char.

(** The character of a 6-bit value. *)
Definition enc6 (v : N) : ascii :=
  match String.get (N.to_nat v) alphabet with
  | Some c => c
  | None => pad
  end.

Fixpoint index_from (i : N) (c : ascii) (s : string) : option N :=
  match s with
  | EmptyString => None
  | String d r => if Ascii.eqb c d then Some i else index_from (N.succ i) c r
  end.

(** The 6-bit value of a character of the alphabet. *)
Definition dec6 (c : ascii) : option N := index_from 0 c alphabet.

Definition byte_of (n : N) : option byte := Byte.of_N n.

(** Three octets are four sextets; a tail of one or two octets is
    padded with [=]. *)
Fixpoint b64encode (bs : list byte) : string :=
  match bs with
  | [] => EmptyString
  | [a] =>
      let x := Byte.to_N a in
      String (enc6 (x / 4)) (String (enc6 ((x mod 4) * 16))
        (String pad (String pad EmptyString)))
  | [a; b] =>
      let x := Byte.to_N a in
      let y := Byte.to_N b in
      String (enc6 (x / 4)) (String (enc6 ((x mod 4) * 16 + y / 16))
        (String (enc6 ((y mod 16) * 4)) (String pad EmptyString)))
  | a :: b :: c :: rest =>
      let x := Byte.to_N a in
      let y := Byte.to_N b in
      let z := Byte.to_N c in
      String (enc6 (x / 4)) (String (enc6 ((x mod 4) * 16 + y / 16))
        (String (enc6 ((y mod 16) * 4 + z / 64)) (String (enc6 (z mod 64))
          (b64encode rest))))
  end%N.

(** A strict decoder for the same alphabet: the inverse direction of
    the transcoding, used to say what a preview stands for. *)
Fixpoint b64decode (s : string) : option (list byte) :=
  match s with
  | EmptyString => Some []
  | String c0 (String c1 (String c2 (String c3 rest))) =>
      if Ascii.eqb c3 pad then
        match rest with
        | EmptyString =>
            if Ascii.eqb c2 pad then
              v0 ← dec6 c0; v1 ← dec6 c1;
              a ← byte_of (v0 * 4 + v1 / 16);
              Some [a]
            else
              v0 ← dec6 c0; v1 ← dec6 c1; v2 ← dec6 c2;
              a ← byte_of (v0 * 4 + v1 / 16);
              b ← byte_of ((v1 mod 16) * 16 + v2 / 4);
              Some [a; b]
        | String _ _ => None
        end
      else
        v0 ← dec6 c0; v1 ← dec6 c1; v2 ← dec6 c2; v3 ← dec6 c3;
        a ← byte_of (v0 * 4 + v1 / 16);
        b ← byte_of ((v1 mod 16) * 16 + v2 / 4);
        c ← byte_of ((v2 mod 4) * 64 + v3);
        tl ← b64decode rest;
        Some (a :: b :: c :: tl)
  | _ => None
  end%N.

(** All 6-bit values. *)
Definition sextets : list N := map N.of_nat (seq 0 64).

End Base64.

(** ** State and exceptions *)

(** A computation over a mutable state [S] that returns or raises.  The
    state is returned in both cases: what a Python function did to an
    object before it raised stays done. *)
Definition M (S A : Type) : Type := S -> result A * S.

Definition ret {S A} (a : A) : M S A := fun s => (Ok a, s).

Definition raise {S A} (e : exn) : M S A := fun s => (Raise e, s).

Definition bind {S A B} (m : M S A) (k : A -> M S B) : M S B :=
  fun s =>
    match m s with
    | (Ok a, s') => k a s'
    | (Raise e, s') => (Raise e, s')
    end.

(** A call that raises or returns without touching the state. *)
Definition lift {S A} (r : result A) : M S A := fun s => (r, s).

Definition gets {S A} (f : S -> A) : M S A := fun s => (Ok (f s), s).

Definition modify {S} (f : S -> S) : M S unit := fun s => (Ok tt, f s).

(** [try: body except C as e: handler e], where [catches e] is
    [isinstance(e, C)]; an exception of another class passes through. *)
Definition try_except {S A} (body : M S A) (catches : exn -> bool)
    (handler : exn -> M S A) : M S A :=
  fun s =>
    match body s with
    | (Ok a, s') => (Ok a, s')
    | (Raise e, s') => if catches e then handler e s' else (Raise e, s')
    end.

(** [except Exception] *)
Definition any_Exception (e : exn) : bool := true.

#[global] Instance M_ret S : MRet (M S) := fun A a => ret a.
#[global] Instance M_bind S : MBind (M S) := fun A B k m => bind m k.

#[global] Instance result_ret : MRet result := fun A a => Ok a.
#[global] Instance result_bind : MBind result :=
  fun A B k r => match r with Ok a => k a | Raise e => Raise e end.

(** ** The qrcode and Pillow interface

    [qrcode.QRCode], its [add_data], [make] and [make_image], and the
    [save] of the image it returns, belong to the qrcode and Pillow
    packages.  The generator only calls them; each call returns or
    raises.  [add_data] and [make] mutate the [QRCode] object: here they
    return the object they leave behind. *)

Inductive ErrorCorrection : Type :=
  | ERROR_CORRECT_L | ERROR_CORRECT_M | ERROR_CORRECT_Q | ERROR_CORRECT_H.

Inductive ImageFactory : Type :=
  | PilImage            (* make_image's default factory *)
  | StyledPilImage
  | SvgPathImage.

Inductive ModuleDrawer : Type :=
  | RoundedModuleDrawer
  | CircleModuleDrawer.

Class QRLib : Type := {
  QRCode : Type;
  Image : Type;
  (** [qrcode.QRCode(version, error_correction, box_size, border)] *)
  QRCode_new : Z -> ErrorCorrection -> Z -> Z -> result QRCode;
  (** [qr.add_data(data)] *)
  add_data : QRCode -> string -> result QRCode;
  (** [qr.make(fit)] *)
  make : QRCode -> bool -> result QRCode;
  (** [qr.make_image(image_factory, module_drawer, fill_color, back_color)] *)
  make_image : QRCode -> ImageFactory -> option ModuleDrawer ->
               string -> string -> result Image;
  (** [img.save(buffer, format, optimize)] then [buffer.getvalue()] *)
  save : Image -> option string -> bool -> result (list byte)
}.

(** What python-qrcode does with the data it is given, as far as a
    property of the generator depends on it.  A [QRCode] object holds the
    data added to it and the level it was constructed with; [make] keeps
    both; and [make(fit=True)] raises when the data does not fit a symbol
    of version 40, the largest, at that level. *)
Class QRContent (L : QRLib) : Type := {
  (** what [add_data] has collected *)
  data_of : QRCode -> string;
  (** [qr.error_correction] *)
  level_of : QRCode -> ErrorCorrection;
  (** the data fits a symbol of version 40 at the level *)
  fits : ErrorCorrection -> string -> bool;
  QRCode_new_data : forall version ec box_size border qr,
    QRCode_new version ec box_size border = Ok qr ->
    data_of qr = "" /\ level_of qr = ec;
  add_data_data : forall qr data qr',
    add_data qr data = Ok qr' ->
    data_of qr' = data_of qr ++ data /\ level_of qr' = level_of qr;
  make_data : forall qr fit qr',
    make qr fit = Ok qr' ->
    data_of qr' = data_of qr /\ level_of qr' = level_of qr;
  make_overflow : forall qr,
    fits (level_of qr) (data_of qr) = false -> is_ok (make qr true) = false
}.

(** ** The process environment: [uuid.uuid4] and [datetime.utcnow] *)

(** The n-th identifier drawn and the n-th reading of the clock (seconds);
    [isoformat] prints a reading. *)
Class World : Type := {
  uuid4 : nat -> string;
  utcnow : nat -> Z;
  isoformat : Z -> string
}.

(** ** [services/qr_generator.py] *)

Module QRCodeGenerator.

(** The dict that [generate_qr_code] returns and caches; its keys are
    ["id"], ["data"], ["format"], ["size"], ["file_data"],
    ["base64_data"], ["created_at"] and ["file_size"]. *)
Record QRResult : Type := {
  res_id : string;
  res_data : string;
  res_format : string;
  res_size : Z;
  file_data : list byte;
  base64_data : string;
  created_at : string;
  file_size : nat
}.

(** [self]: the cache, and how often the environment was asked. *)
Record t : Type := {
  cache : gmap string QRResult;
  uuid_calls : nat;
  clock_reads : nat
}.

(** [__init__] *)
Definition init : t :=
  {| cache := ∅; uuid_calls := 0; clock_reads := 0 |}.

Definition set_cache (f : gmap string QRResult -> gmap string QRResult)
    (self : t) : t :=
  {| cache := f (cache self); uuid_calls := uuid_calls self;
     clock_reads := clock_reads self |}.

(** [self.cache[qr_id] = result] *)
Definition cache_put (qr_id : string) (result : QRResult) (self : t) : t :=
  set_cache (insert qr_id result) self.

Definition error_correction_levels : gmap string ErrorCorrection :=
  {[ "L" := ERROR_CORRECT_L; "M" := ERROR_CORRECT_M;
     "Q" := ERROR_CORRECT_Q; "H" := ERROR_CORRECT_H ]}.

Section WithLibrary.
Context {L : QRLib} {W : World} {U : PyStr.Case}.

(** [str(uuid.uuid4())] *)
Definition fresh_uuid : M t string :=
  fun self =>
    (Ok (uuid4 (uuid_calls self)),
     {| cache := cache self; uuid_calls := S (uuid_calls self);
        clock_reads := clock_reads self |}).

(** [datetime.utcnow().isoformat()] *)
Definition utcnow_isoformat : M t string :=
  fun self =>
    (Ok (isoformat (utcnow (clock_reads self))),
     {| cache := cache self; uuid_calls := uuid_calls self;
        clock_reads := S (clock_reads self) |}).

Definition _generate_png (qr : QRCode) (fill_color back_color : string)
    (style : option string) : result (list byte) :=
  img ← (if decide (style = Some "rounded") then
           make_image qr StyledPilImage (Some RoundedModuleDrawer)
                      fill_color back_color
         else if decide (style = Some "circle") then
           make_image qr StyledPilImage (Some CircleModuleDrawer)
                      fill_color back_color
         else
           make_image qr PilImage None fill_color back_color);
  save img (Some "PNG") true.

Definition _generate_svg (qr : QRCode) (fill_color back_color : string)
    : result (list byte) :=
  img ← make_image qr SvgPathImage None fill_color back_color;
  save img None false.

Definition _generate_pdf (qr : QRCode) (fill_color back_color : string)
    : result (list byte) :=
  img ← make_image qr PilImage None fill_color back_color;
  save img (Some "PDF") true.

(** The encoding step of [_generate_qr_sync]: the [QRCode] object after
    [add_data(data)] and [make(fit=True)]. *)
Definition encode (data : string) (size border : Z)
    (error_correction : string) : result QRCode :=
  qr ← QRCode_new 1
         (default ERROR_CORRECT_M
                  (error_correction_levels !! error_correction))
         size border;
  qr ← add_data qr data;
  make qr true.

Definition _generate_qr_sync (data format : string) (size border : Z)
    (error_correction fill_color back_color : string)
    (style : option string) : result (list byte) :=
  qr ← encode data size border error_correction;
  if decide (PyStr.upper format = "SVG") then
    _generate_svg qr fill_color back_color
  else if decide (PyStr.upper format = "PDF") then
    _generate_pdf qr fill_color back_color
  else
    _generate_png qr fill_color back_color style.

(** [generate_qr_code].  The identifier is drawn before the [try];
    the handler logs and re-raises.  The thread pool runs
    [_generate_qr_sync] and hands back what it returned or raised. *)
Definition generate_qr_code (data format : string) (size border : Z)
    (error_correction fill_color back_color : string)
    (style : option string) : M t QRResult :=
  qr_id ← fresh_uuid;
  try_except
    (file_data ← lift (_generate_qr_sync data format size border
                         error_correction fill_color back_color style);
     let base64_data := Base64.b64encode file_data in
     now ← utcnow_isoformat;
     let result :=
       {| res_id := qr_id; res_data := data; res_format := format;
          res_size := size; file_data := file_data;
          base64_data := base64_data; created_at := now;
          file_size := length file_data |} in
     modify (cache_put qr_id result);;
     mret result)
    any_Exception
    (fun e => raise e).

Definition content_types : gmap string string :=
  {[ "PNG" := "image/png"; "SVG" := "image/svg+xml";
     "PDF" := "application/pdf" ]}.

(** [get_qr_code] *)
Definition get_qr_code (qr_id : string) : M t (list byte * string) :=
  fun self =>
    match cache self !! qr_id with
    | None =>
        (Raise (FileNotFoundError ("QR code " ++ qr_id ++ " not found")),
         self)
    | Some result =>
        (Ok (file_data result,
             default "image/png"
                     (content_types !! PyStr.upper (res_format result))),
         self)
    end.

(** [generate_url_qr], with the keyword defaults of [generate_qr_code]
    written out by the caller. *)
Definition generate_url_qr (url format : string) (size border : Z)
    (error_correction fill_color back_color : string)
    (style : option string) : M t QRResult :=
  let url :=
    if String.prefix "http://" url || String.prefix "https://" url
    then url else "https://" ++ url in
  generate_qr_code url format size border error_correction
                   fill_color back_color style.

End WithLibrary.

(** [get_cache_stats]: ["cached_items"] and ["total_cache_size"]; the
    third entry, ["average_size"], is their float quotient. *)
Record CacheStats : Type := {
  cached_items : nat;
  total_cache_size : nat
}.

Definition get_cache_stats (self : t) : CacheStats :=
  let total_size :=
    sum_list_with (fun item => length (file_data item))
                  (snd <$> map_to_list (cache self)) in
  {| cached_items := size (cache self); total_cache_size := total_size |}.

(** [clear_cache] *)
Definition clear_cache (self : t) : t := set_cache (fun _ => ∅) self.

(** [qr_generator.cache.pop(id, None)], as the health probe does. *)
Definition cache_pop (qr_id : string) (self : t) : t :=
  set_cache (delete qr_id) self.

End QRCodeGenerator.

(** ** The cloud providers and what a background task leaves behind *)

(** [BlobSasPermissions]: the rights a shared-access signature grants. *)
Record BlobSasPermissions : Type := {
  perm_read : bool;
  perm_add : bool;
  perm_create : bool;
  perm_write : bool;
  perm_delete : bool
}.

(** [BlobSasPermissions(read=True)]: every other right keeps its default. *)
Definition BlobSasPermissions_read : BlobSasPermissions :=
  {| perm_read := true; perm_add := false; perm_create := false;
     perm_write := false; perm_delete := false |}.

(** [timedelta(hours=h)] in seconds. *)
Definition timedelta_hours (h : Z) : Z := (h * 3600)%Z.

(** The requests the storage manager sends through the boto3 client and
    the azure-storage-blob client, with the arguments it passes. *)
Inductive call : Type :=
  | S3_put_object (Bucket Key : string) (Body : list byte)
      (ContentType generated_at file_format : string)
  | S3_generate_presigned_url (ClientMethod Bucket Key : string)
      (ExpiresIn : Z)
  | S3_delete_object (Bucket Key : string)
  | Blob_upload_blob (container blob : string) (data : list byte)
      (content_type generated_at file_format : string) (overwrite : bool)
  | Blob_generate_blob_sas (account_name : option string)
      (container_name blob_name : string)
      (account_key user_delegation_key : option string)
      (permission : BlobSasPermissions) (expiry : Z)
  | Blob_delete_blob (container blob : string).

Definition is_s3_call (c : call) : bool :=
  match c with
  | S3_put_object _ _ _ _ _ _ | S3_generate_presigned_url _ _ _ _
  | S3_delete_object _ _ => true
  | _ => false
  end.

Definition is_azure_call (c : call) : bool := negb (is_s3_call c).

(** What a request comes back with: the value the caller reads (the
    signed URL or token; nothing is read from an upload) or the exception
    the client raised.  [generate_blob_sas] signs with the account key or
    with a user delegation key: given neither, it raises [ValueError]. *)
Class Cloud : Type := {
  perform : call -> result string;
  sas_needs_key :
    forall account_name container_name blob_name permission expiry,
    exists msg,
      perform (Blob_generate_blob_sas account_name container_name blob_name
                 None None permission expiry)
      = Raise (ValueError msg)
}.

Inductive level : Type := INFO | WARNING | ERROR.

(** What a task does that can be seen from outside, in the order in which
    it happens: requests to the providers, log records with their keyword
    fields, increments of a labelled Prometheus counter. *)
Inductive event : Type :=
  | Called (c : call)
  | Logged (lvl : level) (msg : string) (fields : list (string * option string))
  | CounterInc (name label : string).

Record io : Type := {
  trace : list event;
  clock : nat
}.

Definition emit (e : event) : M io unit :=
  fun s => (Ok tt, {| trace := trace s ++ [e]; clock := clock s |}).

Section CloudOps.
Context {C : Cloud} {W : World}.

(** Send a request: it is recorded whether it succeeds or not. *)
Definition request (c : call) : M io string :=
  emit (Called c);; lift (perform c).

(** [datetime.utcnow()] *)
Definition now : M io Z :=
  fun s => (Ok (utcnow (clock s)),
            {| trace := trace s; clock := S (clock s) |}).
End CloudOps.

(** [str(x)] of a value that may be [None], as an f-string prints it. *)
Definition str_of_optional (o : option string) : string :=
  match o with Some s => s | None => "None" end.

(** ** Setting the providers up *)

(** The calls [initialize] makes while it builds and probes the two
    clients.  [Boto3_client] is [boto3.client('s3', ...)];
    [Blob_service_client] is [DefaultAzureCredential()] followed by
    [BlobServiceClient(account_url, credential)]. *)
Inductive setup_call : Type :=
  | Boto3_client (region_name : string)
      (aws_access_key_id aws_secret_access_key : option string)
  | S3_head_bucket (Bucket : string)
  | S3_create_bucket (Bucket : string) (LocationConstraint : option string)
  | Blob_service_client (account_url : string)
  | Blob_from_connection_string (conn_str : string)
  | Blob_get_container_properties (container : string)
  | Blob_create_container (container : string).

Definition is_aws_setup (c : setup_call) : bool :=
  match c with
  | Boto3_client _ _ _ | S3_head_bucket _ | S3_create_bucket _ _ => true
  | _ => false
  end.

(** Whether a setup call returns or raises. *)
Class Provisioning : Type := {
  provision : setup_call -> result unit
}.

Inductive setup_event : Type :=
  | Asked (c : setup_call)
  | Noted (lvl : level) (msg : string).

(** [NoCredentialsError] is the [BotoCoreError] of that name. *)
Definition NoCredentialsError : exn := BotoCoreError "NoCredentialsError".

(** [isinstance(e, NoCredentialsError)] *)
Definition is_NoCredentialsError (e : exn) : bool :=
  match e with
  | BotoCoreError what => bool_decide (what = "NoCredentialsError")
  | _ => false
  end.

(** [e.response['Error']['Code']] of a [ClientError]. *)
Definition error_code (e : exn) : string :=
  match e with ClientError code => code | _ => "" end.

(** [sub in s] *)
Definition is_substring (sub s : string) : bool :=
  match String.index 0 sub s with Some _ => true | None => false end.

(** The truth value of a string that may be [None]: [None] and the empty
    string are false. *)
Definition truthy (o : option string) : bool :=
  match o with
  | Some s => negb (bool_decide (s = ""))
  | None => false
  end.

(** ** [services/storage_manager.py] *)

Module MultiCloudStorageManager.

(** [self] after [initialize]: the two flags are written there and
    only read afterwards. *)
Record t : Type := {
  aws_bucket : string;
  azure_container : string;
  aws_region : string;
  azure_account : option string;
  aws_enabled : bool;
  azure_enabled : bool
}.

Definition content_types : gmap string string :=
  {[ "png" := "image/png"; "svg" := "image/svg+xml";
     "pdf" := "application/pdf" ]}.

Section WithCloud.
Context {C : Cloud} {W : World} {U : PyStr.Case}.

(** [_get_content_type] *)
Definition _get_content_type (file_format : string) : string :=
  default "application/octet-stream"
          (content_types !! PyStr.lower file_format).

(** The object name both providers use. *)
Definition object_key (file_id file_format : string) : string :=
  "qr-codes/" ++ file_id ++ "." ++ PyStr.lower file_format.

(** [upload_to_aws] *)
Definition upload_to_aws (self : t) (file_id : string)
    (file_data : list byte) (file_format : string)
    : M io (option string) :=
  if negb (aws_enabled self) then
    emit (Logged WARNING "AWS S3 not available for upload" []);;
    mret None
  else
    try_except
      (let key := object_key file_id file_format in
       let content_type := _get_content_type file_format in
       t0 ← now;
       request (S3_put_object (aws_bucket self) key file_data
                  content_type (isoformat t0) file_format);;
       url ← request (S3_generate_presigned_url "get_object"
                        (aws_bucket self) key 3600);
       emit (Logged INFO "File uploaded to AWS S3"
               [("file_id", Some file_id); ("key", Some key)]);;
       mret (Some url))
      is_ClientError
      (fun e =>
         emit (Logged ERROR "AWS S3 upload failed"
                 [("file_id", Some file_id);
                  ("error", Some (str_of_exn e))]);;
         mret None).

(** [upload_to_azure] *)
Definition upload_to_azure (self : t) (file_id : string)
    (file_data : list byte) (file_format : string)
    : M io (option string) :=
  if negb (azure_enabled self) then
    emit (Logged WARNING "Azure Blob Storage not available for upload" []);;
    mret None
  else
    try_except
      (let blob_name := object_key file_id file_format in
       let content_type := _get_content_type file_format in
       t0 ← now;
       request (Blob_upload_blob (azure_container self) blob_name
                  file_data content_type (isoformat t0) file_format
                  true);;
       t1 ← now;
       sas_token ← request (Blob_generate_blob_sas (azure_account self)
                              (azure_container self) blob_name None None
                              BlobSasPermissions_read
                              (t1 + timedelta_hours 1)%Z);
       let url :=
         "https://" ++ str_of_optional (azure_account self) ++
         ".blob.core.windows.net/" ++ azure_container self ++ "/" ++
         blob_name ++ "?" ++ sas_token in
       emit (Logged INFO "File uploaded to Azure Blob Storage"
               [("file_id", Some file_id); ("blob_name", Some blob_name)]);;
       mret (Some url))
      is_AzureError
      (fun e =>
         emit (Logged ERROR "Azure Blob Storage upload failed"
                 [("file_id", Some file_id);
                  ("error", Some (str_of_exn e))]);;
         mret None).

(** [delete_from_aws] *)
Definition delete_from_aws (self : t) (file_id file_format : string)
    : M io bool :=
  if negb (aws_enabled self) then mret false
  else
    try_except
      (let key := object_key file_id file_format in
       request (S3_delete_object (aws_bucket self) key);;
       emit (Logged INFO "File deleted from AWS S3"
               [("file_id", Some file_id); ("key", Some key)]);;
       mret true)
      is_ClientError
      (fun e =>
         emit (Logged ERROR "AWS S3 deletion failed"
                 [("file_id", Some file_id);
                  ("error", Some (str_of_exn e))]);;
         mret false).

(** [delete_from_azure] *)
Definition delete_from_azure (self : t) (file_id file_format : string)
    : M io bool :=
  if negb (azure_enabled self) then mret false
  else
    try_except
      (let blob_name := object_key file_id file_format in
       request (Blob_delete_blob (azure_container self) blob_name);;
       emit (Logged INFO "File deleted from Azure Blob Storage"
               [("file_id", Some file_id); ("blob_name", Some blob_name)]);;
       mret true)
      is_AzureError
      (fun e =>
         emit (Logged ERROR "Azure Blob Storage deletion failed"
                 [("file_id", Some file_id);
                  ("error", Some (str_of_exn e))]);;
         mret false).

End WithCloud.

(** [__init__]: the configuration read from the environment, both
    providers enabled, no client yet. *)
Definition new (environ : gmap string string) : t :=
  {| aws_bucket := default "qr-codes-bucket" (environ !! "AWS_S3_BUCKET");
     azure_container := default "qr-codes" (environ !! "AZURE_CONTAINER");
     aws_region := default "us-east-1" (environ !! "AWS_REGION");
     azure_account := environ !! "AZURE_STORAGE_ACCOUNT";
     aws_enabled := true;
     azure_enabled := true |}.

(** [self] while it is being initialized: the manager, whether
    [self.aws_client] and [self.azure_client] are set, and what happened
    so far. *)
Record setup : Type := {
  manager : t;
  has_aws_client : bool;
  has_azure_client : bool;
  asked : list setup_event
}.

Definition fresh (environ : gmap string string) : setup :=
  {| manager := new environ; has_aws_client := false;
     has_azure_client := false; asked := [] |}.

Definition note (lvl : level) (msg : string) : M setup unit :=
  fun s => (Ok tt, {| manager := manager s;
                      has_aws_client := has_aws_client s;
                      has_azure_client := has_azure_client s;
                      asked := asked s ++ [Noted lvl msg] |}).

(** [self.aws_enabled = False] *)
Definition disable_aws : M setup unit :=
  fun s =>
    (Ok tt,
     {| manager := {| aws_bucket := aws_bucket (manager s);
                      azure_container := azure_container (manager s);
                      aws_region := aws_region (manager s);
                      azure_account := azure_account (manager s);
                      aws_enabled := false;
                      azure_enabled := azure_enabled (manager s) |};
        has_aws_client := has_aws_client s;
        has_azure_client := has_azure_client s;
        asked := asked s |}).

(** [self.azure_enabled = False] *)
Definition disable_azure : M setup unit :=
  fun s =>
    (Ok tt,
     {| manager := {| aws_bucket := aws_bucket (manager s);
                      azure_container := azure_container (manager s);
                      aws_region := aws_region (manager s);
                      azure_account := azure_account (manager s);
                      aws_enabled := aws_enabled (manager s);
                      azure_enabled := false |};
        has_aws_client := has_aws_client s;
        has_azure_client := has_azure_client s;
        asked := asked s |}).

(** [self.aws_client = ...] *)
Definition set_aws_client : M setup unit :=
  fun s => (Ok tt, {| manager := manager s; has_aws_client := true;
                      has_azure_client := has_azure_client s;
                      asked := asked s |}).

(** [self.azure_client = ...] *)
Definition set_azure_client : M setup unit :=
  fun s => (Ok tt, {| manager := manager s;
                      has_aws_client := has_aws_client s;
                      has_azure_client := true; asked := asked s |}).

Section WithProvisioning.
Context {P : Provisioning}.

(** Make a setup call: it is recorded whether it returns or raises. *)
Definition ask (c : setup_call) : M setup unit :=
  fun s =>
    (provision c,
     {| manager := manager s; has_aws_client := has_aws_client s;
        has_azure_client := has_azure_client s;
        asked := asked s ++ [Asked c] |}).

(** [_create_aws_bucket] *)
Definition _create_aws_bucket : M setup unit :=
  try_except
    (self ← gets manager;
     ask (S3_create_bucket (aws_bucket self)
            (if decide (aws_region self = "us-east-1") then None
             else Some (aws_region self)));;
     note INFO "AWS S3 bucket created")
    is_ClientError
    (fun e => note ERROR "Failed to create AWS S3 bucket";; raise e).

(** [_test_aws_connection] *)
Definition _test_aws_connection : M setup unit :=
  try_except
    (self ← gets manager;
     ask (S3_head_bucket (aws_bucket self)))
    is_ClientError
    (fun e =>
       if decide (error_code e = "404") then _create_aws_bucket
       else raise e).

(** [_create_azure_container] *)
Definition _create_azure_container : M setup unit :=
  try_except
    (self ← gets manager;
     ask (Blob_create_container (azure_container self));;
     note INFO "Azure container created")
    is_AzureError
    (fun e => note ERROR "Failed to create Azure container";; raise e).

(** [_test_azure_connection] *)
Definition _test_azure_connection : M setup unit :=
  try_except
    (self ← gets manager;
     ask (Blob_get_container_properties (azure_container self)))
    is_AzureError
    (fun e =>
       if is_substring "ContainerNotFound" (str_of_exn e)
       then _create_azure_container
       else raise e).

(** The first [try] of [initialize]: the S3 client. *)
Definition initialize_aws (environ : gmap string string) : M setup unit :=
  try_except
    (self ← gets manager;
     ask (Boto3_client (aws_region self) (environ !! "AWS_ACCESS_KEY_ID")
            (environ !! "AWS_SECRET_ACCESS_KEY"));;
     set_aws_client;;
     _test_aws_connection;;
     note INFO "AWS S3 client initialized successfully")
    (fun e => is_NoCredentialsError e || is_ClientError e)
    (fun e => note WARNING "AWS S3 initialization failed";; disable_aws).

(** The [if self.azure_account: ... else: ...] that opens the second
    [try] of [initialize]: the account with the default credential, or
    else the connection string, or else no client. *)
Definition build_azure_client (environ : gmap string string) (self : t)
    : M setup unit :=
  if truthy (azure_account self) then
    ask (Blob_service_client
           ("https://" ++ str_of_optional (azure_account self) ++
            ".blob.core.windows.net"));;
    set_azure_client
  else if truthy (environ !! "AZURE_STORAGE_CONNECTION_STRING") then
    ask (Blob_from_connection_string
           (str_of_optional (environ !! "AZURE_STORAGE_CONNECTION_STRING")));;
    set_azure_client
  else mret tt.

(** The second [try] of [initialize]: the Blob Storage client. *)
Definition initialize_azure (environ : gmap string string) : M setup unit :=
  try_except
    (self ← gets manager;
     build_azure_client environ self;;
     has_client ← gets has_azure_client;
     if (has_client : bool) then
       _test_azure_connection;;
       note INFO "Azure Blob Storage client initialized successfully"
     else raise (AzureError "No Azure credentials provided"))
    is_AzureError
    (fun e =>
       note WARNING "Azure Blob Storage initialization failed";;
       disable_azure).

(** [initialize] *)
Definition initialize (environ : gmap string string) : M setup unit :=
  note INFO "Initializing multi-cloud storage";;
  initialize_aws environ;;
  initialize_azure environ;;
  self ← gets manager;
  if negb (aws_enabled self) && negb (azure_enabled self) then
    note WARNING
      "No cloud storage providers available - running in local mode"
  else (mret tt : M setup unit).

End WithProvisioning.

(** [get_storage_status] *)
Record StorageStatus : Type := {
  status_aws_enabled : bool;
  status_azure_enabled : bool;
  status_aws_bucket : option string;
  status_azure_container : option string
}.

Definition get_storage_status (self : t) : StorageStatus :=
  {| status_aws_enabled := aws_enabled self;
     status_azure_enabled := azure_enabled self;
     status_aws_bucket :=
       if aws_enabled self then Some (aws_bucket self) else None;
     status_azure_container :=
       if azure_enabled self then Some (azure_container self) else None |}.

End MultiCloudStorageManager.

(** ** [main.py] *)

Module Main.

(** [QRCodeRequest] *)
Record QRCodeRequest : Type := {
  req_data : string;
  req_format : string;
  req_size : Z;
  req_border : Z;
  req_error_correction : string;
  req_fill_color : string;
  req_back_color : string
}.

(** The [Field] constraints of [QRCodeRequest], as pydantic checks them
    when the request body is parsed, before the handler runs. *)
Definition QRCodeRequest_validate (r : QRCodeRequest) : result QRCodeRequest :=
  if (PyStr.len (req_data r) <? 1)%nat then Raise (ValidationError "data")
  else if (4296 <? PyStr.len (req_data r))%nat
    then Raise (ValidationError "data")
  else if (req_size r <? 1)%Z || (40 <? req_size r)%Z
    then Raise (ValidationError "size")
  else if (req_border r <? 0)%Z || (20 <? req_border r)%Z
    then Raise (ValidationError "border")
  else Ok r.

(** [BatchQRRequest] *)
Record BatchQRRequest : Type := {
  batch_items : list string;
  batch_format : string;
  batch_size : Z
}.

Definition BatchQRRequest_validate (r : BatchQRRequest)
    : result BatchQRRequest :=
  if (batch_size r <? 1)%Z || (40 <? batch_size r)%Z
    then Raise (ValidationError "size")
  else Ok r.

(** [QRCodeResponse] *)
Record QRCodeResponse : Type := {
  resp_id : string;
  resp_data : string;
  resp_format : string;
  resp_size : Z;
  download_url : string;
  qr_code_base64 : string;
  aws_url : option string;
  azure_url : option string;
  resp_created_at : string
}.

Definition required {A} (field : string) (o : option A) : result A :=
  match o with
  | Some a => Ok a
  | None => Raise (ValidationError field)
  end.

(** [QRCodeResponse(...)] with keyword arguments; [None] stands for a
    keyword the call leaves out.  The class gives a default ([None]) to
    [aws_url] and [azure_url] only: every other field is required, and
    pydantic raises [ValidationError] when one is missing. *)
Definition QRCodeResponse_new (id data format : option string)
    (size : option Z) (download_url qr_code_base64 : option string)
    (aws_url azure_url : option string) (created_at : option string)
    : result QRCodeResponse :=
  id ← required "id" id;
  data ← required "data" data;
  format ← required "format" format;
  size ← required "size" size;
  download_url ← required "download_url" download_url;
  qr_code_base64 ← required "qr_code_base64" qr_code_base64;
  created_at ← required "created_at" created_at;
  Ok {| resp_id := id; resp_data := data; resp_format := format;
        resp_size := size; download_url := download_url;
        qr_code_base64 := qr_code_base64; aws_url := aws_url;
        azure_url := azure_url; resp_created_at := created_at |}.

(** One [background_tasks.add_task(upload_to_storage, ...)]: the
    arguments the task will run with. *)
Record task : Type := {
  task_qr_id : string;
  task_file_data : list byte;
  task_file_format : string
}.

(** The module's globals that a handler touches, and the
    [BackgroundTasks] object of the request. *)
Record t : Type := {
  qr_generator : QRCodeGenerator.t;
  qr_generation_counter : nat;
  background_tasks : list task
}.

Definition init : t :=
  {| qr_generator := QRCodeGenerator.init; qr_generation_counter := 0;
     background_tasks := [] |}.

(** A method of the global [qr_generator], run from a handler. *)
Definition on_generator {A} (m : M QRCodeGenerator.t A) : M t A :=
  fun s =>
    let '(r, g) := m (qr_generator s) in
    (r, {| qr_generator := g;
           qr_generation_counter := qr_generation_counter s;
           background_tasks := background_tasks s |}).

(** [qr_generation_counter.inc()] *)
Definition counter_inc : M t unit :=
  modify (fun s => {| qr_generator := qr_generator s;
                      qr_generation_counter := S (qr_generation_counter s);
                      background_tasks := background_tasks s |}).

(** [background_tasks.add_task(upload_to_storage, qr_id, file_data, fmt)] *)
Definition add_task (k : task) : M t unit :=
  modify (fun s => {| qr_generator := qr_generator s;
                      qr_generation_counter := qr_generation_counter s;
                      background_tasks := background_tasks s ++ [k] |}).

Section Handlers.
Context {L : QRLib} {W : World} {U : PyStr.Case}.

(** [POST /qr/generate] *)
Definition generate_qr_code (request : QRCodeRequest) : M t QRCodeResponse :=
  try_except
    (qr_result ← on_generator
       (QRCodeGenerator.generate_qr_code
          (req_data request) (req_format request) (req_size request)
          (req_border request) (req_error_correction request)
          (req_fill_color request) (req_back_color request) None);
     counter_inc;;
     add_task {| task_qr_id := QRCodeGenerator.res_id qr_result;
                 task_file_data := QRCodeGenerator.file_data qr_result;
                 task_file_format := PyStr.lower (req_format request) |};;
     lift (QRCodeResponse_new
             (Some (QRCodeGenerator.res_id qr_result))
             (Some (req_data request))
             (Some (req_format request))
             (Some (req_size request))
             (Some ("/qr/download/" ++ QRCodeGenerator.res_id qr_result))
             (Some (QRCodeGenerator.base64_data qr_result))
             None None
             (Some (QRCodeGenerator.created_at qr_result))))
    any_Exception
    (fun e => raise (HTTPException 500
                       ("QR code generation failed: " ++ str_of_exn e))).

(** The [for item in request.items] loop of the batch handler;
    [results] is the list built so far. *)
Fixpoint batch_loop (items : list string) (format : string) (size : Z)
    (results : list QRCodeResponse) : M t (list QRCodeResponse) :=
  match items with
  | [] => mret results
  | item :: rest =>
      qr_result ← on_generator
        (QRCodeGenerator.generate_qr_code item format size
           4 "M" "black" "white" None);
      response ← lift (QRCodeResponse_new
              (Some (QRCodeGenerator.res_id qr_result))
              (Some item) (Some format) (Some size)
              (Some ("/qr/download/" ++ QRCodeGenerator.res_id qr_result))
              None
              None None
              (Some (QRCodeGenerator.created_at qr_result)));
      add_task {| task_qr_id := QRCodeGenerator.res_id qr_result;
                  task_file_data := QRCodeGenerator.file_data qr_result;
                  task_file_format := PyStr.lower format |};;
      counter_inc;;
      batch_loop rest format size (results ++ [response])
  end.

(** [POST /qr/batch] *)
Definition generate_batch_qr_codes (request : BatchQRRequest)
    : M t (list QRCodeResponse) :=
  if (100 <? length (batch_items request))%nat then
    raise (HTTPException 400 "Batch size cannot exceed 100 items")
  else
    try_except
      (batch_loop (batch_items request) (batch_format request)
                  (batch_size request) [])
      any_Exception
      (fun e => raise (HTTPException 500
                  ("Batch QR code generation failed: " ++ str_of_exn e))).

(** [GET /qr/download/{qr_id}]: the bytes and the media type. *)
Definition download_qr_code (qr_id : string) : M t (list byte * string) :=
  try_except
    (on_generator (QRCodeGenerator.get_qr_code qr_id))
    any_Exception
    (fun e =>
       if is_FileNotFoundError e
       then raise (HTTPException 404 "QR code not found")
       else raise (HTTPException 500 "Download failed")).

End Handlers.

Section Background.
Context {C : Cloud} {W : World} {U : PyStr.Case}.

(** [upload_to_storage], the background task.  It returns [None]; the
    two URLs are the fields of its last log record. *)
Definition upload_to_storage (storage_manager : MultiCloudStorageManager.t)
    (qr_id : string) (file_data : list byte) (file_format : string)
    : M io unit :=
  try_except
    (aws_url ← MultiCloudStorageManager.upload_to_aws
                 storage_manager qr_id file_data file_format;
     emit (CounterInc "storage_uploads_total" "aws");;
     azure_url ← MultiCloudStorageManager.upload_to_azure
                   storage_manager qr_id file_data file_format;
     emit (CounterInc "storage_uploads_total" "azure");;
     emit (Logged INFO "QR code uploaded to multi-cloud storage"
             [("qr_id", Some qr_id); ("aws_url", aws_url);
              ("azure_url", azure_url)]))
    any_Exception
    (fun e =>
       emit (Logged ERROR "Failed to upload to storage"
               [("qr_id", Some qr_id); ("error", Some (str_of_exn e))])).

(** Running a scheduled task. *)
Definition run_task (storage_manager : MultiCloudStorageManager.t)
    (k : task) : M io unit :=
  upload_to_storage storage_manager (task_qr_id k) (task_file_data k)
                    (task_file_format k).

End Background.

End Main.

(** ** Implementations of the interfaces, to run the definitions

    The theorems below hold for every [QRLib], [World] and [Cloud].  The
    instances here make concrete runs possible. *)

Module Reference.

Record qr : Type := {
  q_level : ErrorCorrection;
  q_box_size : Z;
  q_border : Z;
  q_payload : string;
  q_made : bool
}.

Record image : Type := {
  i_factory : ImageFactory;
  i_drawer : option ModuleDrawer;
  i_fill : string;
  i_back : string;
  i_qr : qr
}.

(** Octets that fit a version-40 symbol in byte mode. *)
Definition capacity (ec : ErrorCorrection) : nat :=
  match ec with
  | ERROR_CORRECT_L => 2953
  | ERROR_CORRECT_M => 2331
  | ERROR_CORRECT_Q => 1663
  | ERROR_CORRECT_H => 1273
  end.

(** An encoder that follows python-qrcode on the points that matter to
    the generator: the constructor rejects a box size below 1 and a
    negative border with [ValueError]; [add_data] accepts any string,
    the empty one included (it adds no data chunk, and a symbol with no
    chunk fits version 1); [make(fit=True)] raises when no version up to
    40 holds the payload ([ValueError] for the version 41 it arrives at,
    since release 7; [DataOverflowError] before).  The renderer writes a
    tag for the container format, then the payload. *)
#[global] Instance lib : QRLib := {
  QRCode := qr;
  Image := image;
  QRCode_new _ ec box_size border :=
    if (box_size <=? 0)%Z then Raise (ValueError "Invalid box size")
    else if (border <? 0)%Z then Raise (ValueError "Invalid border value")
    else Ok {| q_level := ec; q_box_size := box_size; q_border := border;
               q_payload := ""; q_made := false |};
  add_data q data :=
    Ok {| q_level := q_level q; q_box_size := q_box_size q;
          q_border := q_border q; q_payload := q_payload q ++ data;
          q_made := false |};
  make q _ :=
    if (capacity (q_level q) <? String.length (q_payload q))%nat
    then Raise (ValueError "Invalid version (was 41, expected 1 to 40)")
    else Ok {| q_level := q_level q; q_box_size := q_box_size q;
               q_border := q_border q; q_payload := q_payload q;
               q_made := true |};
  make_image q factory drawer fill_color back_color :=
    Ok {| i_factory := factory; i_drawer := drawer; i_fill := fill_color;
          i_back := back_color; i_qr := q |};
  save img format _ :=
    let tag := match format with Some f => f | None => "SVG" end in
    Ok (list_byte_of_string (tag ++ ":" ++ q_payload (i_qr img)))
}.

(** The laws of the encoder hold of it; the payload fits when its
    length is within the capacity. *)
#[global] Instance content : QRContent lib.
Proof.
  refine {| data_of := q_payload; level_of := q_level;
            fits ec data := (String.length data <=? capacity ec)%nat |}.
  - intros version ec box_size border qr. cbn.
    destruct (box_size <=? 0)%Z; [discriminate|].
    destruct (border <? 0)%Z; [discriminate|].
    intros [= <-]. split; reflexivity.
  - intros qr data qr'. cbn. intros [= <-]. split; reflexivity.
  - intros qr fit qr'. cbn -[Nat.ltb].
    destruct (capacity (q_level qr) <? String.length (q_payload qr))%nat;
      [discriminate|].
    intros [= <-]. split; reflexivity.
  - intros qr Hfits. cbn -[Nat.ltb Nat.leb] in *.
    apply Nat.leb_gt in Hfits. apply Nat.ltb_lt in Hfits.
    now rewrite Hfits.
Defined.

(** The case mappings of ASCII text, which are Python's on the ASCII
    strings the concrete runs use. *)
Definition ascii_case : PyStr.Case :=
  {| PyStr.upper := PyStr.ascii_upper;
     PyStr.lower := PyStr.ascii_lower;
     PyStr.upper_isascii := fun _ _ => eq_refl;
     PyStr.lower_isascii := fun _ _ => eq_refl |}.

#[global] Instance world : World := {
  uuid4 n := "uuid-" ++ pretty n;
  utcnow n := (1700000000 + Z.of_nat n)%Z;
  isoformat z := pretty z
}.

(** Providers that answer every request.  A signature for a blob is
    made from a key; without one [generate_blob_sas] raises. *)
Definition answer (c : call) : result string :=
  match c with
  | S3_generate_presigned_url _ bucket key expires =>
      Ok ("https://" ++ bucket ++ ".s3.amazonaws.com/" ++ key ++
          "?X-Amz-Expires=" ++ pretty expires)
  | Blob_generate_blob_sas _ _ _ None None _ _ =>
      Raise (ValueError
               "Either user_delegation_key or account_key must be provided.")
  | Blob_generate_blob_sas _ _ _ _ _ _ expiry =>
      Ok ("sp=r&se=" ++ pretty expiry)
  | _ => Ok ""
  end.

Definition cloud_up : Cloud :=
  {| perform := answer;
     sas_needs_key := fun _ _ _ _ _ => ex_intro _ _ eq_refl |}.

(** S3 cannot be reached: botocore raises [EndpointConnectionError], a
    [BotoCoreError]; Azure answers. *)
Definition cloud_s3_unreachable : Cloud :=
  {| perform c :=
       if is_s3_call c then Raise (BotoCoreError "EndpointConnectionError")
       else answer c;
     sas_needs_key := fun _ _ _ _ _ => ex_intro _ _ eq_refl |}.

(** S3 refuses every request with a [ClientError]; Azure answers. *)
Definition cloud_s3_denied : Cloud :=
  {| perform c :=
       if is_s3_call c then Raise (ClientError "AccessDenied")
       else answer c;
     sas_needs_key := fun _ _ _ _ _ => ex_intro _ _ eq_refl |}.

(** Blob Storage refuses every request with an [AzureError]; S3
    answers. *)
Definition cloud_blob_denied : Cloud :=
  {| perform c :=
       match c with
       | Blob_generate_blob_sas _ _ _ None None _ _ => answer c
       | _ => if is_s3_call c then answer c
              else Raise (AzureError "AuthorizationFailure")
       end;
     sas_needs_key := fun _ _ _ _ _ => ex_intro _ _ eq_refl |}.

Definition manager (aws azure : bool) : MultiCloudStorageManager.t :=
  {| MultiCloudStorageManager.aws_bucket := "qr-codes-bucket";
     MultiCloudStorageManager.azure_container := "qr-codes";
     MultiCloudStorageManager.aws_region := "us-east-1";
     MultiCloudStorageManager.azure_account := Some "acct";
     MultiCloudStorageManager.aws_enabled := aws;
     MultiCloudStorageManager.azure_enabled := azure |}.

Definition io0 : io := {| trace := []; clock := 0 |}.

(** A string of [n] letters. *)
Fixpoint letters (n : nat) : string :=
  match n with O => "" | S k => String "a" (letters k) end.

End Reference.

(** ** Vocabulary of the statements *)

(** The media type [get_qr_code] reports for an artifact. *)
Definition media_type {U : PyStr.Case} (a : QRCodeGenerator.QRResult)
    : string :=
  default "image/png"
          (QRCodeGenerator.content_types
             !! PyStr.upper (QRCodeGenerator.res_format a)).

(** Artifacts inserted one after the other, each under its own id. *)
Definition put_all (arts : list QRCodeGenerator.QRResult)
    (self : QRCodeGenerator.t) : QRCodeGenerator.t :=
  foldl (fun s a => QRCodeGenerator.cache_put (QRCodeGenerator.res_id a) a s)
        self arts.

Definition bytes_of (a : QRCodeGenerator.QRResult) : nat :=
  length (QRCodeGenerator.file_data a).

Section ReplicationVocabulary.
Context {C : Cloud} {W : World} {U : PyStr.Case}.
Import MultiCloudStorageManager.

(** The state after some more events and [n] more readings of the clock. *)
Definition after (s : io) (evs : list event) (n : nat) : io :=
  {| trace := trace s ++ evs; clock := n + clock s |}.

(** The requests an upload sends, as functions of the arguments and of
    the state the upload starts in (the clock is read for the
    [generated_at] entry and for the expiry). *)
Definition aws_put (self : t) (file_id : string) (file_data : list byte)
    (file_format : string) (s : io) : call :=
  S3_put_object (aws_bucket self) (object_key file_id file_format) file_data
    (_get_content_type file_format) (isoformat (utcnow (clock s)))
    file_format.

Definition aws_sign (self : t) (file_id file_format : string) : call :=
  S3_generate_presigned_url "get_object" (aws_bucket self)
    (object_key file_id file_format) 3600.

Definition azure_put (self : t) (file_id : string) (file_data : list byte)
    (file_format : string) (s : io) : call :=
  Blob_upload_blob (azure_container self) (object_key file_id file_format)
    file_data (_get_content_type file_format)
    (isoformat (utcnow (clock s))) file_format true.

Definition azure_sign (self : t) (file_id file_format : string) (s : io)
    : call :=
  Blob_generate_blob_sas (azure_account self) (azure_container self)
    (object_key file_id file_format) None None BlobSasPermissions_read
    (utcnow (S (clock s)) + 3600)%Z.

Definition azure_blob_url (self : t) (file_id file_format token : string)
    : string :=
  "https://" ++ str_of_optional (azure_account self) ++
  ".blob.core.windows.net/" ++ azure_container self ++ "/" ++
  object_key file_id file_format ++ "?" ++ token.

Definition aws_info (file_id file_format : string) : event :=
  Logged INFO "File uploaded to AWS S3"
    [("file_id", Some file_id);
     ("key", Some (object_key file_id file_format))].

Definition aws_error (file_id : string) (e : exn) : event :=
  Logged ERROR "AWS S3 upload failed"
    [("file_id", Some file_id); ("error", Some (str_of_exn e))].

Definition azure_info (file_id file_format : string) : event :=
  Logged INFO "File uploaded to Azure Blob Storage"
    [("file_id", Some file_id);
     ("blob_name", Some (object_key file_id file_format))].

Definition azure_error (file_id : string) (e : exn) : event :=
  Logged ERROR "Azure Blob Storage upload failed"
    [("file_id", Some file_id); ("error", Some (str_of_exn e))].

Definition counted (label : string) (s : io) : io :=
  after s [CounterInc "storage_uploads_total" label] 0.

(** How the task ends once the AWS upload has returned [aws_url] and the
    Azure upload has come back with [r] in state [s2]. *)
Definition finish (qr_id : string) (aws_url : option string)
    (r : result (option string)) (s2 : io) : result unit * io :=
  match r with
  | Ok azure_url =>
      (Ok tt,
       after s2 [CounterInc "storage_uploads_total" "azure";
                 Logged INFO "QR code uploaded to multi-cloud storage"
                   [("qr_id", Some qr_id); ("aws_url", aws_url);
                    ("azure_url", azure_url)]] 0)
  | Raise e =>
      (Ok tt,
       after s2 [Logged ERROR "Failed to upload to storage"
                   [("qr_id", Some qr_id);
                    ("error", Some (str_of_exn e))]] 0)
  end.

End ReplicationVocabulary.

(** ** Values for concrete runs *)

(** The artifact of the first generation of ["hi"] as PNG, and the
    generator after it. *)
Definition demo_artifact : QRCodeGenerator.QRResult :=
  {| QRCodeGenerator.res_id := "uuid-0";
     QRCodeGenerator.res_data := "hi";
     QRCodeGenerator.res_format := "PNG";
     QRCodeGenerator.res_size := 10;
     QRCodeGenerator.file_data := list_byte_of_string "PNG:hi";
     QRCodeGenerator.base64_data := "UE5HOmhp";
     QRCodeGenerator.created_at := "1700000000";
     QRCodeGenerator.file_size := 6 |}.

Definition demo_generator : QRCodeGenerator.t :=
  QRCodeGenerator.cache_put "uuid-0" demo_artifact
    {| QRCodeGenerator.cache := ∅; QRCodeGenerator.uuid_calls := 1;
       QRCodeGenerator.clock_reads := 1 |}.

(** Two artifacts of two and three bytes. *)
Definition demo_two : list QRCodeGenerator.QRResult :=
  [ {| QRCodeGenerator.res_id := "x"; QRCodeGenerator.res_data := "p";
       QRCodeGenerator.res_format := "PNG"; QRCodeGenerator.res_size := 10;
       QRCodeGenerator.file_data := list_byte_of_string "ab";
       QRCodeGenerator.base64_data := "YWI=";
       QRCodeGenerator.created_at := "t0"; QRCodeGenerator.file_size := 2 |};
    {| QRCodeGenerator.res_id := "y"; QRCodeGenerator.res_data := "q";
       QRCodeGenerator.res_format := "SVG"; QRCodeGenerator.res_size := 10;
       QRCodeGenerator.file_data := list_byte_of_string "abc";
       QRCodeGenerator.base64_data := "YWJj";
       QRCodeGenerator.created_at := "t1"; QRCodeGenerator.file_size := 3 |} ].

(** The generator after a generation that overflowed. *)
Definition overflowed_generator : QRCodeGenerator.t :=
  {| QRCodeGenerator.cache := ∅; QRCodeGenerator.uuid_calls := 1;
     QRCodeGenerator.clock_reads := 0 |}.

Definition demo_s3_url : string :=
  "https://qr-codes-bucket.s3.amazonaws.com/qr-codes/id1.png?X-Amz-Expires=3600".

(** ** Vocabulary of the further properties *)

(** A cache entry is well formed: it is stored under its own id, its
    [file_size] is the length of its bytes, and its preview decodes to
    its bytes. *)
Definition entry_ok (qr_id : string) (a : QRCodeGenerator.QRResult) : Prop :=
  QRCodeGenerator.res_id a = qr_id
  /\ QRCodeGenerator.file_size a = length (QRCodeGenerator.file_data a)
  /\ Base64.b64decode (QRCodeGenerator.base64_data a)
     = Some (QRCodeGenerator.file_data a).

Definition cache_ok (self : QRCodeGenerator.t) : Prop :=
  map_Forall entry_ok (QRCodeGenerator.cache self).

(** [url.startswith(('http://', 'https://'))] *)
Definition has_scheme (url : string) : bool :=
  String.prefix "http://" url || String.prefix "https://" url.

Section SetupStates.
Import MultiCloudStorageManager.

(** The setup state after some more events. *)
Definition noted (s : setup) (evs : list setup_event) : setup :=
  {| manager := manager s; has_aws_client := has_aws_client s;
     has_azure_client := has_azure_client s; asked := asked s ++ evs |}.

(** The setup state with a provider switched off, or with a client set. *)
Definition aws_off (s : setup) : setup := snd (disable_aws s).
Definition azure_off (s : setup) : setup := snd (disable_azure s).
Definition with_aws_client (s : setup) : setup := snd (set_aws_client s).
Definition with_azure_client (s : setup) : setup := snd (set_azure_client s).

(** [LocationConstraint] of the bucket [_create_aws_bucket] asks for. *)
Definition bucket_location (self : t) : option string :=
  if decide (aws_region self = "us-east-1") then None
  else Some (aws_region self).

End SetupStates.

Section SetupVocabulary.
Context {P : Provisioning}.
Import MultiCloudStorageManager.

(** The exception classes the first [try] of [initialize] catches. *)
Definition caught_by_aws_setup (e : exn) : bool :=
  is_NoCredentialsError e || is_ClientError e.

(** The S3 probe passes: the client is built, and the bucket is there or,
    when [head_bucket] answers 404, can be created. *)
Definition aws_probe_passes (environ : gmap string string) (self : t) : bool :=
  is_ok (provision (Boto3_client (aws_region self)
                      (environ !! "AWS_ACCESS_KEY_ID")
                      (environ !! "AWS_SECRET_ACCESS_KEY")))
  && match provision (S3_head_bucket (aws_bucket self)) with
     | Ok _ => true
     | Raise e =>
         is_ClientError e && bool_decide (error_code e = "404")
         && is_ok (provision
                     (S3_create_bucket (aws_bucket self)
                        (bucket_location self)))
     end.

(** The container is there or, when the error says [ContainerNotFound],
    can be created. *)
Definition azure_container_ready (self : t) : bool :=
  match provision (Blob_get_container_properties (azure_container self)) with
  | Ok _ => true
  | Raise e =>
      is_AzureError e && is_substring "ContainerNotFound" (str_of_exn e)
      && is_ok (provision (Blob_create_container (azure_container self)))
  end.

(** The call that builds the Blob Storage client, if there is one to
    make: from the account, or else from the connection string. *)
Definition azure_client_source (environ : gmap string string) (self : t)
    : option setup_call :=
  if truthy (azure_account self) then
    Some (Blob_service_client
            ("https://" ++ str_of_optional (azure_account self) ++
             ".blob.core.windows.net"))
  else if truthy (environ !! "AZURE_STORAGE_CONNECTION_STRING") then
    Some (Blob_from_connection_string
            (str_of_optional (environ !! "AZURE_STORAGE_CONNECTION_STRING")))
  else None.

(** The Blob Storage probe passes: the client is built (or, with nothing
    to build it from, was there before) and the container is ready. *)
Definition azure_probe_passes (environ : gmap string string) (self : t)
    (had_client : bool) : bool :=
  match azure_client_source environ self with
  | Some c => is_ok (provision c)
  | None => had_client
  end
  && azure_container_ready self.

(** The configuration of a manager: everything but the two flags. *)
Definition same_configuration (a b : t) : Prop :=
  aws_bucket a = aws_bucket b /\ azure_container a = azure_container b
  /\ aws_region a = aws_region b /\ azure_account a = azure_account b.

(** How the first [try] of [initialize] ends when its body raised [e] in
    state [s1]: a caught class switches AWS off, any other goes on. *)
Definition aws_block_end (e : exn) (s1 : setup) : result unit * setup :=
  if caught_by_aws_setup e
  then (Ok tt,
        aws_off (noted s1 [Noted WARNING "AWS S3 initialization failed"]))
  else (Raise e, s1).

(** The same for the second [try] and [AzureError]. *)
Definition azure_block_end (e : exn) (s1 : setup) : result unit * setup :=
  if is_AzureError e
  then (Ok tt,
        azure_off
          (noted s1
             [Noted WARNING "Azure Blob Storage initialization failed"]))
  else (Raise e, s1).

End SetupVocabulary.

(** ** Providers at startup, for concrete runs *)

Module Startup.

(** Every setup call returns. *)
Definition all_up : Provisioning := {| provision _ := Ok tt |}.

(** The bucket is missing: [head_bucket] answers 404; everything else
    returns. *)
Definition bucket_missing : Provisioning :=
  {| provision c :=
       match c with
       | S3_head_bucket _ => Raise (ClientError "404")
       | _ => Ok tt
       end |}.

(** S3 cannot be reached: [head_bucket] raises [EndpointConnectionError],
    a [BotoCoreError] that is not a [NoCredentialsError]. *)
Definition s3_unreachable : Provisioning :=
  {| provision c :=
       match c with
       | S3_head_bucket _ => Raise (BotoCoreError "EndpointConnectionError")
       | _ => Ok tt
       end |}.

(** An environment that names a region and nothing for Blob Storage. *)
Definition environ_west : gmap string string :=
  {[ "AWS_REGION" := "eu-west-1" ]}.

Definition manager_west (aws azure : bool) : MultiCloudStorageManager.t :=
  {| MultiCloudStorageManager.aws_bucket := "qr-codes-bucket";
     MultiCloudStorageManager.azure_container := "qr-codes";
     MultiCloudStorageManager.aws_region := "eu-west-1";
     MultiCloudStorageManager.azure_account := None;
     MultiCloudStorageManager.aws_enabled := aws;
     MultiCloudStorageManager.azure_enabled := azure |}.

Definition west_client : setup_call := Boto3_client "eu-west-1" None None.
Definition west_head : setup_call := S3_head_bucket "qr-codes-bucket".
Definition west_create : setup_call :=
  S3_create_bucket "qr-codes-bucket" (Some "eu-west-1").

(** Where [initialize] ends in that environment when the bucket is
    missing: the bucket has been created, AWS stays enabled, Azure is
    switched off for want of credentials. *)
Definition west_started : MultiCloudStorageManager.setup :=
  {| MultiCloudStorageManager.manager := manager_west true false;
     MultiCloudStorageManager.has_aws_client := true;
     MultiCloudStorageManager.has_azure_client := false;
     MultiCloudStorageManager.asked :=
       [ Noted INFO "Initializing multi-cloud storage";
         Asked west_client; Asked west_head; Asked west_create;
         Noted INFO "AWS S3 bucket created";
         Noted INFO "AWS S3 client initialized successfully";
         Noted WARNING "Azure Blob Storage initialization failed" ] |}.

(** Where it ends when S3 cannot be reached: the exception leaves
    [initialize] before the second [try] is entered. *)
Definition west_aborted : MultiCloudStorageManager.setup :=
  {| MultiCloudStorageManager.manager := manager_west true true;
     MultiCloudStorageManager.has_aws_client := true;
     MultiCloudStorageManager.has_azure_client := false;
     MultiCloudStorageManager.asked :=
       [ Noted INFO "Initializing multi-cloud storage";
         Asked west_client; Asked west_head ] |}.

End Startup.

(** An artifact to put in the place of [demo_artifact]. *)
Definition demo_replacement : QRCodeGenerator.QRResult :=
  {| QRCodeGenerator.res_id := "uuid-0";
     QRCodeGenerator.res_data := "ho";
     QRCodeGenerator.res_format := "SVG";
     QRCodeGenerator.res_size := 10;
     QRCodeGenerator.file_data := list_byte_of_string "SVG:ho!";
     QRCodeGenerator.base64_data := "U1ZHOmhvIQ==";
     QRCodeGenerator.created_at := "1700000001";
     QRCodeGenerator.file_size := 7 |}.

(** The artifact of the first generation for the URL ["example.com"], and
    the generator after it. *)
Definition demo_url_artifact : QRCodeGenerator.QRResult :=
  {| QRCodeGenerator.res_id := "uuid-0";
     QRCodeGenerator.res_data := "https://example.com";
     QRCodeGenerator.res_format := "PNG";
     QRCodeGenerator.res_size := 10;
     QRCodeGenerator.file_data :=
       list_byte_of_string "PNG:https://example.com";
     QRCodeGenerator.base64_data :=
       Base64.b64encode (list_byte_of_string "PNG:https://example.com");
     QRCodeGenerator.created_at := "1700000000";
     QRCodeGenerator.file_size := 23 |}.

Definition demo_url_generator : QRCodeGenerator.t :=
  QRCodeGenerator.cache_put "uuid-0" demo_url_artifact
    {| QRCodeGenerator.cache := ∅; QRCodeGenerator.uuid_calls := 1;
       QRCodeGenerator.clock_reads := 1 |}.

(** ** Requests and files for concrete runs *)

Definition demo_request : Main.QRCodeRequest :=
  {| Main.req_data := "hi"; Main.req_format := "PNG"; Main.req_size := 10;
     Main.req_border := 4; Main.req_error_correction := "M";
     Main.req_fill_color := "black"; Main.req_back_color := "white" |}.

Definition demo_response : Main.QRCodeResponse :=
  {| Main.resp_id := "uuid-0"; Main.resp_data := "hi";
     Main.resp_format := "PNG"; Main.resp_size := 10;
     Main.download_url := "/qr/download/uuid-0";
     Main.qr_code_base64 := "UE5HOmhp";
     Main.aws_url := None; Main.azure_url := None;
     Main.resp_created_at := "1700000000" |}.

(** A request whose data no symbol holds. *)
Definition oversized_request : Main.QRCodeRequest :=
  {| Main.req_data := Reference.letters 2332; Main.req_format := "PNG";
     Main.req_size := 10; Main.req_border := 4;
     Main.req_error_correction := "M"; Main.req_fill_color := "black";
     Main.req_back_color := "white" |}.

(** ** [services/health_checker.py] *)

(** [psutil]: the processor load, the memory in use and the disk in use,
    in percent, as the n-th system health check reads them; a reading
    can raise. *)
Class Psutil : Type := {
  cpu_percent : nat -> result QArith_base.Q;
  virtual_memory_percent : nat -> result QArith_base.Q;
  disk_usage_percent : nat -> result QArith_base.Q
}.

(** [x < n] for a reading [x] and an integer bound. *)
Definition below (x : QArith_base.Q) (n : Z) : bool :=
  negb (QArith_base.Qle_bool (QArith_base.Qmake n 1) x).

Module HealthChecker.

(** The dict that [check_health] returns, without [uptime_seconds],
    [check_duration_ms] and [system_info], which no code reads; [error]
    is set in the dict of the [except] branch only. *)
Record HealthResult : Type := {
  status : string;
  timestamp : string;
  services : gmap string string;
  error : option string
}.

(** [self], without [start_time]; [checks] counts the system health
    checks made so far and [clock] the readings of the clock. *)
Record t : Type := {
  health_status : string;
  last_health_check : option HealthResult;
  checks : nat;
  clock : nat
}.

(** [__init__] *)
Definition init : t :=
  {| health_status := "unknown"; last_health_check := None; checks := 0;
     clock := 0 |}.

(** [self.health_status = status] *)
Definition set_health_status (st : string) : M t unit :=
  modify (fun self =>
            {| health_status := st;
               last_health_check := last_health_check self;
               checks := checks self; clock := clock self |}).

(** [self.last_health_check = health_result] *)
Definition set_last_health_check (r : HealthResult) : M t unit :=
  modify (fun self =>
            {| health_status := health_status self;
               last_health_check := Some r;
               checks := checks self; clock := clock self |}).

(** [bool(test_result)]: the dict [generate_qr_code] returns has eight
    keys, and a dict that is not empty is true. *)
Definition QRResult_bool (test_result : QRCodeGenerator.QRResult) : bool :=
  true.

(** [all(status == "healthy" for status in all_services.values())] *)
Definition all_healthy (all_services : gmap string string) : bool :=
  forallb (fun status => bool_decide (status = "healthy"))
          (snd <$> map_to_list all_services).

Section WithHost.
Context {L : QRLib} {W : World} {U : PyStr.Case} {H : Psutil}.

(** [datetime.utcnow().isoformat()] *)
Definition utcnow_isoformat : M t string :=
  fun self =>
    (Ok (isoformat (utcnow (clock self))),
     {| health_status := health_status self;
        last_health_check := last_health_check self;
        checks := checks self; clock := S (clock self) |}).

(** The number of the system health check that starts. *)
Definition next_check : M t nat :=
  fun self =>
    (Ok (checks self),
     {| health_status := health_status self;
        last_health_check := last_health_check self;
        checks := S (checks self); clock := clock self |}).

(** [_check_system_health] *)
Definition _check_system_health : M t (gmap string string) :=
  try_except
    (n ← next_check;
     cpu ← lift (cpu_percent n);
     let cpu_status := if below cpu 80 then "healthy" else "unhealthy" in
     memory ← lift (virtual_memory_percent n);
     let memory_status :=
       if below memory 85 then "healthy" else "unhealthy" in
     disk ← lift (disk_usage_percent n);
     let disk_status := if below disk 90 then "healthy" else "unhealthy" in
     mret ({[ "cpu" := cpu_status; "memory" := memory_status;
              "disk" := disk_status ]} : gmap string string))
    any_Exception
    (fun e =>
       mret ({[ "cpu" := "error"; "memory" := "error";
                "disk" := "error" ]} : gmap string string)).

(** [_check_dependencies]: the status it reads is the one of a manager it
    has just constructed. *)
Definition _check_dependencies (environ : gmap string string)
    : M t (gmap string string) :=
  try_except
    (let storage_manager := MultiCloudStorageManager.new environ in
     let storage_status :=
       MultiCloudStorageManager.get_storage_status storage_manager in
     mret ({[ "aws_s3" :=
                if MultiCloudStorageManager.status_aws_enabled storage_status
                then "healthy" else "unavailable";
              "azure_blob" :=
                if MultiCloudStorageManager.status_azure_enabled
                     storage_status
                then "healthy" else "unavailable" ]} : gmap string string))
    any_Exception
    (fun e =>
       mret ({[ "aws_s3" := "error"; "azure_blob" := "error" ]}
             : gmap string string)).

(** The test generation of [_check_application_health], on the generator
    it has just constructed. *)
Definition test_generation : M QRCodeGenerator.t string :=
  test_result ← QRCodeGenerator.generate_qr_code "health-check-test" "PNG"
                  10 4 "M" "black" "white" None;
  let qr_status :=
    if QRResult_bool test_result then "healthy" else "unhealthy" in
  modify (QRCodeGenerator.cache_pop (QRCodeGenerator.res_id test_result));;
  mret qr_status.

(** A computation on an object that is constructed for it and dropped
    afterwards. *)
Definition on_new {S A} (new : S) (m : M S A) : M t A :=
  fun self => (fst (m new), self).

(** [_check_application_health] *)
Definition _check_application_health : M t (gmap string string) :=
  try_except
    (qr_status ← on_new QRCodeGenerator.init test_generation;
     mret ({[ "qr_generator" := qr_status; "api" := "healthy" ]}
           : gmap string string))
    any_Exception
    (fun e =>
       mret ({[ "qr_generator" := "error"; "api" := "error" ]}
             : gmap string string)).

(** [check_health].  In [{**a, **b, **c}] a later dict wins, as the left
    operand of [∪] does. *)
Definition check_health (environ : gmap string string) : M t HealthResult :=
  try_except
    (system_health ← _check_system_health;
     dependency_health ← _check_dependencies environ;
     app_health ← _check_application_health;
     let all_services := app_health ∪ dependency_health ∪ system_health in
     let overall_status :=
       if all_healthy all_services then "healthy" else "unhealthy" in
     now ← utcnow_isoformat;
     let health_result :=
       {| status := overall_status; timestamp := now;
          services := all_services; error := None |} in
     set_last_health_check health_result;;
     set_health_status overall_status;;
     mret health_result)
    any_Exception
    (fun e =>
       now ← utcnow_isoformat;
       let error_result :=
         {| status := "error"; timestamp := now; services := ∅;
            error := Some (str_of_exn e) |} in
       set_health_status "error";;
       mret error_result).

(** [initialize] *)
Definition initialize (environ : gmap string string) : M t unit :=
  set_health_status "initializing";;
  check_health environ;;
  mret tt.

(** [check_readiness] *)
Definition check_readiness (environ : gmap string string) : M t bool :=
  try_except
    (health_status ← gets health_status;
     if decide (health_status = "initializing") then mret false
     else
       health_result ← check_health environ;
       let core_services := ["qr_generator"; "api"] in
       let services := services health_result in
       let ready :=
         forallb (fun service =>
                    bool_decide (services !! service = Some "healthy"))
                 core_services in
       mret ready)
    any_Exception
    (fun e => mret false).

End WithHost.

End HealthChecker.

(** ** [main.py]: the health endpoints *)

Module Probes.

(** [HealthResponse] *)
Record HealthResponse : Type := {
  hr_status : string;
  hr_timestamp : string;
  hr_version : string;
  hr_services : gmap string string
}.

Section Endpoints.
Context {L : QRLib} {W : World} {U : PyStr.Case} {H : Psutil}.

(** [GET /health] *)
Definition health_check (environ : gmap string string)
    : M HealthChecker.t HealthResponse :=
  health_status ← HealthChecker.check_health environ;
  mret {| hr_status := HealthChecker.status health_status;
          hr_timestamp := HealthChecker.timestamp health_status;
          hr_version := "1.0.0";
          hr_services := HealthChecker.services health_status |}.

(** [GET /health/ready] *)
Definition readiness_check (environ : gmap string string)
    : M HealthChecker.t string :=
  is_ready ← HealthChecker.check_readiness environ;
  if (is_ready : bool) then mret "ready"
  else raise (HTTPException 503 "Service not ready").

End Endpoints.

End Probes.

(** ** [main.py]: the upload endpoint *)

Module Upload.

(** [s.endswith(suffix)] *)
Definition endswith (s suffix : string) : bool :=
  (String.length suffix <=? String.length s)%nat
  && bool_decide
       (String.substring (String.length s - String.length suffix)
                         (String.length suffix) s = suffix).

(** [c.isspace()] for an ASCII character: tab to carriage return, the
    four separators and the space. *)
Definition isspace (c : ascii) : bool :=
  let n := N_of_ascii c in
  ((9 <=? n) && (n <=? 13) || (28 <=? n) && (n <=? 32))%N.

(** [s.lstrip()] on ASCII text *)
Fixpoint lstrip (s : string) : string :=
  match s with
  | EmptyString => EmptyString
  | String c r => if isspace c then lstrip r else s
  end.

(** [s.strip()] on ASCII text *)
Definition ascii_strip (s : string) : string :=
  String.rev (lstrip (String.rev (lstrip s))).

(** [s.strip()] removes the white space of Unicode: like the case
    mappings it is taken as an interface, known on ASCII text. *)
Class Strip : Type := {
  strip : string -> string;
  strip_isascii :
    forall s, PyStr.isascii s = true -> strip s = ascii_strip s
}.

(** [s.split(sep)] for a separator of one character. *)
Fixpoint split (sep : ascii) (s : string) : list string :=
  match s with
  | EmptyString => [EmptyString]
  | String c r =>
      if Ascii.eqb c sep then EmptyString :: split sep r
      else match split sep r with
           | [] => [String c EmptyString]
           | w :: ws => String c w :: ws
           end
  end.

(** [[line.strip() for line in lines if line.strip()]] *)
Definition stripped_lines {T : Strip} (lines : list string) : list string :=
  strip <$> List.filter (fun line => negb (bool_decide (strip line = "")))
                        lines.

(** A handler run with a [BackgroundTasks()] made for the call: what it
    schedules there is dropped with the object. *)
Definition with_new_background_tasks {A} (m : M Main.t A) : M Main.t A :=
  fun s =>
    let '(r, s') :=
      m {| Main.qr_generator := Main.qr_generator s;
           Main.qr_generation_counter := Main.qr_generation_counter s;
           Main.background_tasks := [] |} in
    (r, {| Main.qr_generator := Main.qr_generator s';
           Main.qr_generation_counter := Main.qr_generation_counter s';
           Main.background_tasks := Main.background_tasks s |}).

Section Handler.
Context {L : QRLib} {W : World} {U : PyStr.Case} {T : Strip}.

(** [POST /qr/upload].  [decoded] is what
    [(await file.read()).decode('utf-8')] returns or raises. *)
Definition upload_file_for_qr_generation (filename : string)
    (decoded : result string) : M Main.t (list Main.QRCodeResponse) :=
  if negb (endswith filename ".txt" || endswith filename ".csv") then
    raise (HTTPException 400 "Only .txt and .csv files are supported")
  else
    try_except
      (content ← lift decoded;
       let lines := split "010" (strip content) in
       if (100 <? length lines)%nat then
         raise (HTTPException 400 "File cannot contain more than 100 lines")
       else
         batch_request ← lift (Main.BatchQRRequest_validate
                                 {| Main.batch_items := stripped_lines lines;
                                    Main.batch_format := "PNG";
                                    Main.batch_size := 10 |});
         with_new_background_tasks
           (Main.generate_batch_qr_codes batch_request))
      any_Exception
      (fun e => raise (HTTPException 500 "File processing failed")).

End Handler.



End Upload.

(** ** Vocabulary of the health properties *)

Section HealthVocabulary.
Context {L : QRLib} {U : PyStr.Case} {H : Psutil}.

(** The three readings of the n-th system health check came back and are
    below their thresholds. *)
Definition system_ok (n : nat) : bool :=
  match cpu_percent n, virtual_memory_percent n, disk_usage_percent n with
  | Ok cpu, Ok memory, Ok disk =>
      below cpu 80 && below memory 85 && below disk 90
  | _, _, _ => false
  end.

(** The renderer produces the test code of the health check. *)
Definition generation_ok : bool :=
  is_ok (QRCodeGenerator._generate_qr_sync "health-check-test" "PNG" 10 4
           "M" "black" "white" None).

End HealthVocabulary.

(** ** Vocabulary of the handler and storage properties *)

(** The content type an upload stores with the object when a handler
    scheduled it: the handler passes [request.format.lower()]. *)
Definition stored_type {U : PyStr.Case} (format : string) : string :=
  MultiCloudStorageManager._get_content_type (PyStr.lower format).

(** The media type a download of an artifact of that format comes with. *)
Definition served_type {U : PyStr.Case} (format : string) : string :=
  default "image/png" (QRCodeGenerator.content_types !! PyStr.upper format).

(** The requests in a trace, in the order in which they were sent. *)
Definition requests_of (evs : list event) : list call :=
  omap (fun ev => match ev with Called c => Some c | _ => None end) evs.

(** The upload a handler schedules for an artifact. *)
Definition task_for {U : PyStr.Case} (a : QRCodeGenerator.QRResult)
    (format : string) : Main.task :=
  {| Main.task_qr_id := QRCodeGenerator.res_id a;
     Main.task_file_data := QRCodeGenerator.file_data a;
     Main.task_file_format := PyStr.lower format |}.

(** * Properties *)

(** ** Case mappings *)

Lemma lower_ascii_idem c :
  PyStr.lower_ascii (PyStr.lower_ascii c) = PyStr.lower_ascii c.
Proof. destruct c as [[] [] [] [] [] [] [] []]; reflexivity. Qed.

Lemma lower_idem s :
  PyStr.ascii_lower (PyStr.ascii_lower s) = PyStr.ascii_lower s.
Proof.
  induction s as [|c r IH]; simpl; [reflexivity|].
  now rewrite lower_ascii_idem, IH.
Qed.

(** ** Base64 round trip *)

Section Base64Facts.
Import Base64.

Lemma sextet_in v : (v < 64)%N -> In v sextets.
Proof.
  intros H. unfold sextets. apply in_map_iff.
  exists (N.to_nat v). split; [apply N2Nat.id|].
  apply in_seq. lia.
Qed.

Lemma dec6_enc6 v : (v < 64)%N -> dec6 (enc6 v) = Some v.
Proof.
  intros H. apply sextet_in in H.
  assert (A : forallb (fun v => match dec6 (enc6 v) with
                                | Some w => N.eqb w v
                                | None => false
                                end) sextets = true) by (vm_compute; reflexivity).
  rewrite forallb_forall in A. specialize (A v H).
  destruct (dec6 (enc6 v)) as [w|]; [|discriminate].
  apply N.eqb_eq in A. now subst.
Qed.

Lemma enc6_not_pad v : (v < 64)%N -> Ascii.eqb (enc6 v) pad = false.
Proof.
  intros H. apply sextet_in in H.
  assert (A : forallb (fun v => negb (Ascii.eqb (enc6 v) pad)) sextets = true)
    by (vm_compute; reflexivity).
  rewrite forallb_forall in A. specialize (A v H).
  now apply negb_true_iff in A.
Qed.

Lemma to_N_lt a : (Byte.to_N a < 256)%N.
Proof. pose proof (Byte.to_N_bounded a). lia. Qed.

Lemma byte_of_to_N a n : n = Byte.to_N a -> byte_of n = Some a.
Proof. intros ->. apply Byte.of_to_N. Qed.

(** Goals over [/] and [mod] on octets, with the bounds in context. *)
Ltac narith := zify; Z.to_euclidean_division_equations; lia.

Ltac name_octet a x E :=
  pose proof (to_N_lt a); remember (Byte.to_N a) as x eqn:E.

Lemma decode_one a :
  b64decode (b64encode [a]) = Some [a].
Proof.
  cbn [b64encode b64decode]. name_octet a x Ex.
  rewrite Ascii.eqb_refl.
  rewrite !dec6_enc6 by narith. cbn [mbind option_bind].
  rewrite (byte_of_to_N a (_ / 4 * 4 + _)%N) by (rewrite <- Ex; narith).
  reflexivity.
Qed.

Lemma decode_two a b :
  b64decode (b64encode [a; b]) = Some [a; b].
Proof.
  cbn [b64encode b64decode]. name_octet a x Ex. name_octet b y Ey.
  rewrite Ascii.eqb_refl.
  rewrite enc6_not_pad by narith.
  rewrite !dec6_enc6 by narith. cbn [mbind option_bind].
  rewrite (byte_of_to_N a (_ / 4 * 4 + _)%N) by (rewrite <- Ex; narith).
  cbn [mbind option_bind].
  rewrite (byte_of_to_N b (_ mod 16 * 16 + _)%N) by (rewrite <- Ey; narith).
  reflexivity.
Qed.

Lemma decode_three a b c rest :
  b64decode (b64encode rest) = Some rest ->
  b64decode (b64encode (a :: b :: c :: rest)) = Some (a :: b :: c :: rest).
Proof.
  intros IH.
  cbn [b64encode b64decode].
  name_octet a x Ex. name_octet b y Ey. name_octet c z Ez.
  rewrite enc6_not_pad by narith.
  rewrite !dec6_enc6 by narith. cbn [mbind option_bind].
  rewrite (byte_of_to_N a (_ / 4 * 4 + _)%N) by (rewrite <- Ex; narith).
  cbn [mbind option_bind].
  rewrite (byte_of_to_N b (_ mod 16 * 16 + _)%N) by (rewrite <- Ey; narith).
  cbn [mbind option_bind].
  rewrite (byte_of_to_N c (_ mod 4 * 64 + _)%N) by (rewrite <- Ez; narith).
  cbn [mbind option_bind].
  rewrite IH. reflexivity.
Qed.

(** Induction three octets at a time, following [b64encode]. *)
Lemma octets_ind3 (P : list byte -> Prop) :
  P [] -> (forall a, P [a]) -> (forall a b, P [a; b]) ->
  (forall a b c r, P r -> P (a :: b :: c :: r)) ->
  forall l, P l.
Proof.
  intros H0 H1 H2 H3.
  assert (A : forall l, P l /\ (forall a, P (a :: l))
                        /\ (forall a b, P (a :: b :: l))).
  { induction l as [|x l (IH0 & IH1 & IH2)]; [now auto|].
    repeat split; auto. }
  intros l. apply A.
Qed.

Lemma b64decode_b64encode bs : b64decode (b64encode bs) = Some bs.
Proof.
  induction bs as [|a|a b|a b c r IH] using octets_ind3.
  - reflexivity.
  - apply decode_one.
  - apply decode_two.
  - now apply decode_three.
Qed.

End Base64Facts.

(** ** The generator and its cache *)

Section Generator.
Context {L : QRLib} {W : World} {U : PyStr.Case}.
Import QRCodeGenerator.

(** What one call of [generate_qr_code] does, by the outcome of
    [_generate_qr_sync]. *)
Lemma generate_qr_code_eq data format size border ec fill back style self :
  generate_qr_code data format size border ec fill back style self =
  match _generate_qr_sync data format size border ec fill back style with
  | Ok bytes =>
      let a := {| res_id := uuid4 (uuid_calls self); res_data := data;
                  res_format := format; res_size := size;
                  file_data := bytes;
                  base64_data := Base64.b64encode bytes;
                  created_at := isoformat (utcnow (clock_reads self));
                  file_size := length bytes |} in
      (Ok a, {| cache := <[uuid4 (uuid_calls self) := a]> (cache self);
                uuid_calls := S (uuid_calls self);
                clock_reads := S (clock_reads self) |})
  | Raise e =>
      (Raise e, {| cache := cache self; uuid_calls := S (uuid_calls self);
                   clock_reads := clock_reads self |})
  end.
Proof.
  unfold generate_qr_code, mbind, M_bind, bind, try_except, fresh_uuid, lift.
  destruct (_generate_qr_sync _ _ _ _ _ _ _ _) as [bytes|e]; reflexivity.
Qed.

Lemma generate_qr_code_ok
    data format size border ec fill back style self a self' :
  generate_qr_code data format size border ec fill back style self
    = (Ok a, self') ->
  _generate_qr_sync data format size border ec fill back style
    = Ok (file_data a)
  /\ res_id a = uuid4 (uuid_calls self)
  /\ res_data a = data /\ res_format a = format
  /\ base64_data a = Base64.b64encode (file_data a)
  /\ file_size a = length (file_data a)
  /\ cache self' = <[res_id a := a]> (cache self).
Proof.
  rewrite generate_qr_code_eq.
  destruct (_generate_qr_sync _ _ _ _ _ _ _ _) as [bytes|e]; [|discriminate].
  cbv zeta. intros [= <- <-]. cbn. repeat split; reflexivity.
Qed.

Lemma get_qr_code_hit qr_id a self :
  cache self !! qr_id = Some a ->
  get_qr_code qr_id self = (Ok (file_data a, media_type a), self).
Proof. intros H. unfold get_qr_code. now rewrite H. Qed.

Lemma get_qr_code_miss qr_id self :
  cache self !! qr_id = None ->
  get_qr_code qr_id self =
  (Raise (FileNotFoundError ("QR code " ++ qr_id ++ " not found")), self).
Proof. intros H. unfold get_qr_code. now rewrite H. Qed.

End Generator.

Section GeneratorClaims.
Context {L : QRLib} {Q : QRContent L} {W : World} {U : PyStr.Case}.
Import QRCodeGenerator.

(** C1.  After [generate_qr_code] has stored an artifact [a] under its
    generated id (and after any [cache_put] of [a]), [get_qr_code] on
    that id returns exactly the bytes of [a], with its media type; and
    on an id that is not in the cache [get_qr_code] raises
    [FileNotFoundError] instead of returning a value. *)
Theorem get_after_put_and_unknown_id
    data format size border ec fill back style self a self'
    (other : t) (unknown : string) :
  generate_qr_code data format size border ec fill back style self
    = (Ok a, self') ->
  cache other !! unknown = None ->
  get_qr_code (res_id a) self' = (Ok (file_data a, media_type a), self')
  /\ get_qr_code (res_id a) (cache_put (res_id a) a other)
     = (Ok (file_data a, media_type a), cache_put (res_id a) a other)
  /\ get_qr_code unknown other
     = (Raise (FileNotFoundError ("QR code " ++ unknown ++ " not found")),
        other).
Proof.
  intros Hgen Hmiss.
  apply generate_qr_code_ok in Hgen as (_ & _ & _ & _ & _ & _ & Hc).
  repeat split.
  - apply get_qr_code_hit. rewrite Hc. apply lookup_insert_eq.
  - apply get_qr_code_hit. cbn. apply lookup_insert_eq.
  - now apply get_qr_code_miss.
Qed.

(** C2, as the code has it.  A format whose upper-case form, as
    [str.upper] gives it, is neither ["SVG"] nor ["PDF"] takes the [else]
    branch: the symbol is rendered by [_generate_png], exactly as for the
    format ["PNG"], and the dispatch adds no error of its own. *)
Theorem unknown_format_defaults_to_png
    data format size border ec fill back style :
  PyStr.upper format <> "SVG" ->
  PyStr.upper format <> "PDF" ->
  _generate_qr_sync data format size border ec fill back style
    = _generate_qr_sync data "PNG" size border ec fill back style
  /\ _generate_qr_sync data format size border ec fill back style
     = (encode data size border ec
          ≫= fun qr => _generate_png qr fill back style).
Proof.
  intros Hsvg Hpdf. unfold _generate_qr_sync.
  destruct (encode data size border ec) as [qr|e]; [|split; reflexivity].
  cbn [mbind result_bind].
  rewrite (PyStr.upper_isascii "PNG" eq_refl).
  destruct (decide (PyStr.upper format = "SVG")) as [E|_]; [contradiction|].
  destruct (decide (PyStr.upper format = "PDF")) as [E|_]; [contradiction|].
  destruct (decide (PyStr.ascii_upper "PNG" = "SVG")) as [E|_];
    [discriminate E|].
  destruct (decide (PyStr.ascii_upper "PNG" = "PDF")) as [E|_];
    [discriminate E|].
  split; reflexivity.
Qed.

(** What [encode] does, by the three calls it makes. *)
Lemma encode_eq data size border ec :
  encode data size border ec
  = match QRCode_new 1 (default ERROR_CORRECT_M
                          (error_correction_levels !! ec)) size border with
    | Raise e => Raise e
    | Ok qr0 =>
        match add_data qr0 data with
        | Raise e => Raise e
        | Ok qr1 => make qr1 true
        end
    end.
Proof.
  unfold encode, mbind, result_bind.
  destruct (QRCode_new _ _ _ _) as [qr0|e]; [|reflexivity].
  destruct (add_data qr0 data) as [qr1|e]; reflexivity.
Qed.

(** The symbol that [encode] returns holds the data it was given, all of
    it, at the level that was looked up. *)
Lemma encode_holds_data data size border ec qr :
  encode data size border ec = Ok qr ->
  data_of qr = data
  /\ level_of qr
     = default ERROR_CORRECT_M (error_correction_levels !! ec).
Proof.
  rewrite encode_eq.
  destruct (QRCode_new _ _ _ _) as [qr0|e] eqn:Hnew; [|discriminate].
  destruct (add_data qr0 data) as [qr1|e] eqn:Hadd; [|discriminate].
  intros Hmake.
  apply QRCode_new_data in Hnew as [Hd0 Hl0].
  apply add_data_data in Hadd as [Hd1 Hl1].
  apply make_data in Hmake as [Hd2 Hl2].
  rewrite Hd2, Hd1, Hd0, Hl2, Hl1, Hl0. split; reflexivity.
Qed.

(** C4, as the code has it.  The encoder is given the caller's data as
    it is, never a part of it, at the level looked up for
    [error_correction]: a symbol that [encode] returns holds exactly the
    data.  For every data that does not fit a symbol of version 40 at
    that level [encode] raises, [_generate_qr_sync] and
    [generate_qr_code] raise the same exception, and the cache stays as
    it was; so it is for every exception of the encoder.  The empty
    string is not refused here: only the [min_length=1] of the request
    schema rejects it. *)
Theorem oversized_data_is_refused_untruncated
    data format size border ec fill back style self :
  fits (default ERROR_CORRECT_M (error_correction_levels !! ec)) data
    = false ->
  (exists e,
     encode data size border ec = Raise e
     /\ _generate_qr_sync data format size border ec fill back style
        = Raise e
     /\ exists self',
          generate_qr_code data format size border ec fill back style self
            = (Raise e, self')
          /\ cache self' = cache self)
  /\ (forall data' qr,
        encode data' size border ec = Ok qr ->
        data_of qr = data'
        /\ level_of qr
           = default ERROR_CORRECT_M (error_correction_levels !! ec))
  /\ (forall data' e,
        encode data' size border ec = Raise e ->
        _generate_qr_sync data' format size border ec fill back style
          = Raise e
        /\ exists self',
             generate_qr_code data' format size border ec fill back style
               self
               = (Raise e, self')
             /\ cache self' = cache self)
  /\ (forall r, Main.req_data r = "" ->
        Main.QRCodeRequest_validate r = Raise (ValidationError "data")).
Proof.
  intros Hbig.
  assert (Hraise : forall data' e,
            encode data' size border ec = Raise e ->
            _generate_qr_sync data' format size border ec fill back style
              = Raise e
            /\ exists self',
                 generate_qr_code data' format size border ec fill back
                   style self
                   = (Raise e, self')
                 /\ cache self' = cache self).
  { intros data' e He.
    assert (Hs : _generate_qr_sync data' format size border ec fill back
                   style = Raise e).
    { unfold _generate_qr_sync. now rewrite He. }
    split; [exact Hs|].
    rewrite generate_qr_code_eq, Hs. eexists. split; reflexivity. }
  split; [|split; [|split]].
  - assert (He : exists e, encode data size border ec = Raise e).
    { destruct (encode data size border ec) as [qr|e] eqn:Henc;
        [|now exists e].
      exfalso. rewrite encode_eq in Henc.
      destruct (QRCode_new _ _ _ _) as [qr0|e] eqn:Hnew; [|discriminate].
      destruct (add_data qr0 data) as [qr1|e] eqn:Hadd; [|discriminate].
      apply QRCode_new_data in Hnew as [Hd0 Hl0].
      apply add_data_data in Hadd as [Hd1 Hl1].
      assert (Hd : data_of qr1 = data) by (rewrite Hd1, Hd0; reflexivity).
      rewrite <- Hl0, <- Hl1, <- Hd in Hbig.
      apply make_overflow in Hbig. now rewrite Henc in Hbig. }
    destruct He as [e He]. exists e. split; [exact He|].
    exact (Hraise data e He).
  - intros data' qr. apply encode_holds_data.
  - exact Hraise.
  - intros r Hr. unfold Main.QRCodeRequest_validate. now rewrite Hr.
Qed.

(** C7.  In a successful generation the preview handed to the caller is
    the base64 encoding of the bytes that [_generate_qr_sync] returned,
    which are the artifact's bytes as cached: decoding the preview
    gives those bytes back. *)
Theorem preview_is_base64_of_bytes
    data format size border ec fill back style self a self' :
  generate_qr_code data format size border ec fill back style self
    = (Ok a, self') ->
  _generate_qr_sync data format size border ec fill back style
    = Ok (file_data a)
  /\ base64_data a = Base64.b64encode (file_data a)
  /\ Base64.b64decode (base64_data a) = Some (file_data a)
  /\ cache self' !! res_id a = Some a.
Proof.
  intros Hgen.
  apply generate_qr_code_ok in Hgen as (Hs & _ & _ & _ & Hb & _ & Hc).
  repeat split; [exact Hs | exact Hb | |].
  - rewrite Hb. apply b64decode_b64encode.
  - rewrite Hc. apply lookup_insert_eq.
Qed.

(** C9.  A call of [generate_qr_code] that raises leaves the cache as it
    was: nothing is stored under the identifier drawn for the call. *)
Theorem failed_generation_keeps_cache
    data format size border ec fill back style self e self' :
  generate_qr_code data format size border ec fill back style self
    = (Raise e, self') ->
  cache self' = cache self
  /\ cache self' !! uuid4 (uuid_calls self)
     = cache self !! uuid4 (uuid_calls self).
Proof.
  rewrite generate_qr_code_eq.
  destruct (_generate_qr_sync _ _ _ _ _ _ _ _) as [bytes|e']; [discriminate|].
  intros [= _ <-]. split; reflexivity.
Qed.

Lemma error_correction_levels_unknown (ec : string) :
  ec ∉ ["L"; "M"; "Q"; "H"] -> error_correction_levels !! ec = None.
Proof.
  intros H. unfold error_correction_levels.
  rewrite !not_elem_of_cons in H. destruct H as (H1 & H2 & H3 & H4 & _).
  rewrite !lookup_insert_ne by congruence.
  apply lookup_singleton_ne. congruence.
Qed.

(** C10.  An [error_correction] string other than L, M, Q and H is not
    an error: the call behaves exactly as with ["M"]. *)
Theorem unknown_level_is_medium
    data format size border (ec : string) fill back style self :
  ec ∉ ["L"; "M"; "Q"; "H"] ->
  generate_qr_code data format size border ec fill back style self
    = generate_qr_code data format size border "M" fill back style self.
Proof.
  intros H. rewrite !generate_qr_code_eq.
  unfold _generate_qr_sync, encode.
  now rewrite (error_correction_levels_unknown ec H).
Qed.

End GeneratorClaims.

(** ** Cache statistics *)

Section Stats.
Import QRCodeGenerator.

Lemma stats_after_fresh_put a self :
  cache self !! res_id a = None ->
  get_cache_stats (cache_put (res_id a) a self)
  = {| cached_items := S (cached_items (get_cache_stats self));
       total_cache_size :=
         bytes_of a + total_cache_size (get_cache_stats self) |}.
Proof.
  intros Hfresh. unfold get_cache_stats, cache_put. cbn.
  rewrite map_size_insert_None by exact Hfresh.
  rewrite (map_to_list_insert _ _ _ Hfresh). reflexivity.
Qed.

Lemma cache_put_other a qr_id self :
  qr_id <> res_id a ->
  cache (cache_put (res_id a) a self) !! qr_id = cache self !! qr_id.
Proof. intros H. cbn. now apply lookup_insert_ne. Qed.

Lemma stats_after_put_all arts : forall self,
  NoDup (res_id <$> arts) ->
  (forall a, a ∈ arts -> cache self !! res_id a = None) ->
  get_cache_stats (put_all arts self)
  = {| cached_items := length arts + cached_items (get_cache_stats self);
       total_cache_size :=
         sum_list_with bytes_of arts
         + total_cache_size (get_cache_stats self) |}.
Proof.
  induction arts as [|a arts IH]; intros self Hnd Hfresh.
  - reflexivity.
  - cbn [put_all foldl fmap list_fmap] in *.
    apply NoDup_cons in Hnd as [Hnotin Hnd].
    fold (put_all arts (cache_put (res_id a) a self)).
    rewrite IH; [| exact Hnd |].
    + rewrite stats_after_fresh_put by (apply Hfresh; left).
      cbn. f_equal; lia.
    + intros b Hb. rewrite cache_put_other.
      * apply Hfresh. now right.
      * intros E. apply Hnotin. rewrite <- E.
        apply list_elem_of_fmap. now exists b.
Qed.

(** C6.  After N artifacts with pairwise distinct ids have been put
    into an empty cache, [get_cache_stats] reports N cached items and,
    as total size, the sum of the lengths of their bytes. *)
Theorem stats_count_and_total (arts : list QRResult) :
  NoDup (res_id <$> arts) ->
  cached_items (get_cache_stats (put_all arts init)) = length arts
  /\ total_cache_size (get_cache_stats (put_all arts init))
     = sum_list_with bytes_of arts.
Proof.
  intros Hnd.
  rewrite (stats_after_put_all arts init Hnd).
  - cbn. rewrite map_size_empty, map_to_list_empty. cbn. split; lia.
  - intros a _. apply lookup_empty.
Qed.

End Stats.

(** ** Replication to the two providers *)

Section Replication.
Context {C : Cloud} {W : World} {U : PyStr.Case}.
Import MultiCloudStorageManager.

Ltac run :=
  repeat progress
    (unfold try_except, request, now, emit, lift, after,
       mbind, M_bind, bind, mret, M_ret, ret; cbn).

Ltac tidy := cbn; rewrite <- ?app_assoc; cbn; try reflexivity.

(** [upload_to_aws], case by case. *)
Lemma upload_to_aws_eq self file_id file_data file_format s :
  upload_to_aws self file_id file_data file_format s =
  if aws_enabled self then
    let put := aws_put self file_id file_data file_format s in
    let sign := aws_sign self file_id file_format in
    match perform put with
    | Raise e =>
        if is_ClientError e
        then (Ok None, after s [Called put; aws_error file_id e] 1)
        else (Raise e, after s [Called put] 1)
    | Ok _ =>
        match perform sign with
        | Raise e =>
            if is_ClientError e
            then (Ok None,
                  after s [Called put; Called sign; aws_error file_id e] 1)
            else (Raise e, after s [Called put; Called sign] 1)
        | Ok url =>
            (Ok (Some url),
             after s [Called put; Called sign;
                      aws_info file_id file_format] 1)
        end
    end
  else
    (Ok None, after s [Logged WARNING "AWS S3 not available for upload" []] 0).
Proof.
  unfold upload_to_aws, aws_put, aws_sign.
  destruct (aws_enabled self); [|reflexivity].
  run.
  destruct (perform (S3_put_object _ _ _ _ _ _)) as [x|e]; cbn.
  - destruct (perform (S3_generate_presigned_url _ _ _ _)) as [url|e]; tidy;
      destruct (is_ClientError e); tidy.
  - tidy; destruct (is_ClientError e); tidy.
Qed.

(** [upload_to_azure], case by case. *)
Lemma upload_to_azure_eq self file_id file_data file_format s :
  upload_to_azure self file_id file_data file_format s =
  if azure_enabled self then
    let put := azure_put self file_id file_data file_format s in
    let sign := azure_sign self file_id file_format s in
    match perform put with
    | Raise e =>
        if is_AzureError e
        then (Ok None, after s [Called put; azure_error file_id e] 1)
        else (Raise e, after s [Called put] 1)
    | Ok _ =>
        match perform sign with
        | Raise e =>
            if is_AzureError e
            then (Ok None,
                  after s [Called put; Called sign; azure_error file_id e] 2)
            else (Raise e, after s [Called put; Called sign] 2)
        | Ok token =>
            (Ok (Some (azure_blob_url self file_id file_format token)),
             after s [Called put; Called sign;
                      azure_info file_id file_format] 2)
        end
    end
  else
    (Ok None,
     after s [Logged WARNING "Azure Blob Storage not available for upload" []] 0).
Proof.
  unfold upload_to_azure, azure_put, azure_sign, azure_blob_url.
  destruct (azure_enabled self); [|reflexivity].
  run.
  destruct (perform (Blob_upload_blob _ _ _ _ _ _ _)) as [x|e]; cbn.
  - destruct (perform (Blob_generate_blob_sas _ _ _ _ _ _ _)) as [token|e]; tidy;
      destruct (is_AzureError e); tidy.
  - tidy; destruct (is_AzureError e); tidy.
Qed.

(** [upload_to_storage] in terms of the two uploads. *)
Lemma upload_to_storage_eq self qr_id file_data file_format s :
  Main.upload_to_storage self qr_id file_data file_format s =
  match upload_to_aws self qr_id file_data file_format s with
  | (Ok aws_url, s1) =>
      let '(r, s2) :=
        upload_to_azure self qr_id file_data file_format (counted "aws" s1) in
      finish qr_id aws_url r s2
  | (Raise e, s1) =>
      (Ok tt,
       after s1 [Logged ERROR "Failed to upload to storage"
                   [("qr_id", Some qr_id);
                    ("error", Some (str_of_exn e))]] 0)
  end.
Proof.
  unfold Main.upload_to_storage, finish, counted.
  generalize (upload_to_aws self qr_id file_data file_format) as A.
  generalize (upload_to_azure self qr_id file_data file_format) as B.
  intros B A. run.
  destruct (A s) as [[a|e] s1]; cbn; [|reflexivity].
  destruct (B _) as [[b|e] s2]; tidy.
Qed.

Lemma upload_to_storage_never_raises self qr_id file_data file_format s :
  fst (Main.upload_to_storage self qr_id file_data file_format s) = Ok tt.
Proof.
  rewrite upload_to_storage_eq.
  destruct (upload_to_aws _ _ _ _ _) as [[a|e] s1]; [|reflexivity].
  destruct (upload_to_azure _ _ _ _ _) as [[b|e] s2]; reflexivity.
Qed.

(** An enabled upload starts by sending the object, whatever follows. *)
Lemma upload_to_aws_sends_first self file_id file_data file_format s :
  aws_enabled self = true ->
  exists more,
    trace (snd (upload_to_aws self file_id file_data file_format s))
    = (trace s
       ++ Called (aws_put self file_id file_data file_format s) :: more)%list.
Proof.
  intros Hon. rewrite upload_to_aws_eq, Hon. cbv zeta.
  destruct (perform (aws_put _ _ _ _ _)) as [x|e].
  - destruct (perform (aws_sign _ _ _)) as [url|e];
      [|destruct (is_ClientError e)]; eexists; reflexivity.
  - destruct (is_ClientError e); eexists; reflexivity.
Qed.

Lemma upload_to_azure_sends_first self file_id file_data file_format s :
  azure_enabled self = true ->
  exists more,
    trace (snd (upload_to_azure self file_id file_data file_format s))
    = (trace s
       ++ Called (azure_put self file_id file_data file_format s) :: more)%list.
Proof.
  intros Hon. rewrite upload_to_azure_eq, Hon. cbv zeta.
  destruct (perform (azure_put _ _ _ _ _)) as [x|e].
  - destruct (perform (azure_sign _ _ _ _)) as [token|e];
      [|destruct (is_AzureError e)]; eexists; reflexivity.
  - destruct (is_AzureError e); eexists; reflexivity.
Qed.

(** The signature is asked for without a key, and refused. *)
Lemma azure_sign_raises self file_id file_format s :
  exists msg,
    perform (azure_sign self file_id file_format s) = Raise (ValueError msg).
Proof. unfold azure_sign. apply sas_needs_key. Qed.

(** An enabled Azure upload whose blob is accepted ends in the
    [ValueError] of the signing step. *)
Lemma upload_to_azure_stored self file_id file_data file_format s x :
  azure_enabled self = true ->
  perform (azure_put self file_id file_data file_format s) = Ok x ->
  exists msg,
    perform (azure_sign self file_id file_format s) = Raise (ValueError msg)
    /\ upload_to_azure self file_id file_data file_format s
       = (Raise (ValueError msg),
          after s [Called (azure_put self file_id file_data file_format s);
                   Called (azure_sign self file_id file_format s)] 2).
Proof.
  intros Hon Hput.
  destruct (azure_sign_raises self file_id file_format s) as [msg Hsign].
  exists msg. split; [exact Hsign|].
  rewrite upload_to_azure_eq, Hon. cbv zeta. now rewrite Hput, Hsign.
Qed.

(** No Azure upload returns a URL. *)
Lemma upload_to_azure_no_url self file_id file_data file_format s url s' :
  upload_to_azure self file_id file_data file_format s <> (Ok (Some url), s').
Proof.
  rewrite upload_to_azure_eq.
  destruct (azure_enabled self); [|discriminate]. cbv zeta.
  destruct (perform (azure_put _ _ _ _ _)) as [x|e];
    [|destruct (is_AzureError e); discriminate].
  destruct (azure_sign_raises self file_id file_format s) as [msg ->].
  discriminate.
Qed.

End Replication.

Section ReplicationClaims.
Context {C : Cloud} {W : World} {U : PyStr.Case}.
Import MultiCloudStorageManager.

(** C3, the code where it departs from the claim.  AWS is enabled and
    its first request raises an exception that is no [ClientError] (when
    S3 cannot be reached botocore raises [EndpointConnectionError], a
    [BotoCoreError]).  [upload_to_aws] catches [ClientError] only, so the
    exception leaves it; the one [try] of [upload_to_storage] has both
    uploads in it, and its handler logs the exception and ends the task.
    Nothing is sent to Azure, enabled or not: the failure of the first
    provider has prevented the attempt on the second. *)
Theorem aws_failure_ends_replication
    self qr_id file_data file_format s e :
  aws_enabled self = true ->
  perform (aws_put self qr_id file_data file_format s) = Raise e ->
  is_ClientError e = false ->
  upload_to_aws self qr_id file_data file_format s
  = (Raise e,
     after s [Called (aws_put self qr_id file_data file_format s)] 1)
  /\ Main.upload_to_storage self qr_id file_data file_format s
     = (Ok tt,
        after s [Called (aws_put self qr_id file_data file_format s);
                 Logged ERROR "Failed to upload to storage"
                   [("qr_id", Some qr_id);
                    ("error", Some (str_of_exn e))]] 1)
  /\ (forall c,
        Called c ∈ trace (snd (Main.upload_to_storage self qr_id file_data
                                 file_format s)) ->
        Called c ∈ trace s \/ is_s3_call c = true).
Proof.
  intros Hon Hput Hce.
  assert (Haws : upload_to_aws self qr_id file_data file_format s
                 = (Raise e,
                    after s [Called (aws_put self qr_id file_data
                                       file_format s)] 1)).
  { rewrite upload_to_aws_eq, Hon. cbv zeta. now rewrite Hput, Hce. }
  assert (Hrun : Main.upload_to_storage self qr_id file_data file_format s
                 = (Ok tt,
                    after s [Called (aws_put self qr_id file_data
                                       file_format s);
                             Logged ERROR "Failed to upload to storage"
                               [("qr_id", Some qr_id);
                                ("error", Some (str_of_exn e))]] 1)).
  { rewrite upload_to_storage_eq, Haws. unfold after. cbn.
    now rewrite <- app_assoc. }
  split; [exact Haws|]. split; [exact Hrun|].
  intros c. rewrite Hrun. cbn.
  rewrite elem_of_app, !elem_of_cons, elem_of_nil.
  intros [Hc|[Hc|[Hc|[]]]]; [now left| |discriminate Hc].
  right. injection Hc as ->. reflexivity.
Qed.

(** C8, the code where it departs from the claim.  An enabled Azure
    upload sends the blob under the key
    ["qr-codes/" + id + "." + lower(format)] and, when the blob has been
    accepted, asks for a signature for that key that grants reading only
    and expires one hour after the clock reading taken for it; but it
    asks with neither an account key nor a user delegation key, and
    [generate_blob_sas] raises [ValueError].  That is no [AzureError]:
    the exception leaves [upload_to_azure].  No Azure upload ever returns
    a signed URL. *)
Theorem azure_upload_signs_without_key
    self file_id file_data file_format s x :
  azure_enabled self = true ->
  perform (azure_put self file_id file_data file_format s) = Ok x ->
  let key := "qr-codes/" ++ file_id ++ "." ++ PyStr.lower file_format in
  let put :=
    Blob_upload_blob (azure_container self) key file_data
      (_get_content_type file_format) (isoformat (utcnow (clock s)))
      file_format true in
  let sign :=
    Blob_generate_blob_sas (azure_account self) (azure_container self) key
      None None BlobSasPermissions_read
      (utcnow (S (clock s)) + timedelta_hours 1)%Z in
  azure_put self file_id file_data file_format s = put
  /\ (exists msg,
        perform sign = Raise (ValueError msg)
        /\ upload_to_azure self file_id file_data file_format s
           = (Raise (ValueError msg), after s [Called put; Called sign] 2))
  /\ (forall s0 url s',
        upload_to_azure self file_id file_data file_format s0
        <> (Ok (Some url), s'))
  /\ (perm_read BlobSasPermissions_read = true
      /\ perm_add BlobSasPermissions_read = false
      /\ perm_create BlobSasPermissions_read = false
      /\ perm_write BlobSasPermissions_read = false
      /\ perm_delete BlobSasPermissions_read = false).
Proof.
  intros Hon Hput key put sign.
  split; [reflexivity|]. split; [|split; [|repeat split]].
  - exact (upload_to_azure_stored self file_id file_data file_format s x
             Hon Hput).
  - intros s0 url s'. apply upload_to_azure_no_url.
Qed.

End ReplicationClaims.

(** ** The HTTP handlers *)

Section HandlerClaims.
Context {L : QRLib} {W : World} {U : PyStr.Case}.
Import Main.

(** The response of [POST /qr/generate] carries the preview of the
    artifact it names. *)
Lemma generate_response_preview request st response st' :
  generate_qr_code request st = (Ok response, st') ->
  exists a,
    QRCodeGenerator.cache (qr_generator st') !! resp_id response = Some a
    /\ qr_code_base64 response
       = Base64.b64encode (QRCodeGenerator.file_data a)
    /\ Base64.b64decode (qr_code_base64 response)
       = Some (QRCodeGenerator.file_data a).
Proof.
  unfold generate_qr_code, try_except, mbind, M_bind, bind, on_generator.
  destruct (QRCodeGenerator.generate_qr_code _ _ _ _ _ _ _ _ _)
    as [[a|e] g] eqn:Hgen; cbn; [|discriminate].
  intros [= <- <-]. exists a.
  apply generate_qr_code_ok in Hgen as (_ & _ & _ & _ & Hb & _ & Hc).
  cbn. rewrite Hb, Hc, lookup_insert_eq. repeat split.
  apply b64decode_b64encode.
Qed.

(** An empty batch is answered with an empty list. *)
Lemma empty_batch format size st :
  generate_batch_qr_codes
    {| batch_items := []; batch_format := format; batch_size := size |} st
  = (Ok [], st).
Proof. reflexivity. Qed.

(** C5, the code at a batch with at least one item.  The handler never
    returns a list for it: it raises [HTTPException] with status 500.
    Either the first item's generation raised, or it succeeded and the
    [QRCodeResponse] for it was then built without [qr_code_base64],
    which the class requires. *)
Theorem batch_with_items_raises item rest format size st :
  length (item :: rest) <= 100 ->
  exists st',
    generate_batch_qr_codes
      {| batch_items := item :: rest; batch_format := format;
         batch_size := size |} st
    = (Raise (HTTPException 500
                ("Batch QR code generation failed: " ++
                 str_of_exn
                   match QRCodeGenerator._generate_qr_sync item format size
                           4 "M" "black" "white" None with
                   | Ok _ => ValidationError "qr_code_base64"
                   | Raise e => e
                   end)),
       st').
Proof.
  intros Hlen. unfold generate_batch_qr_codes.
  cbn [batch_items batch_format batch_size].
  destruct (Nat.ltb_spec 100 (length (item :: rest))) as [Hbig|_]; [lia|].
  unfold try_except. cbn [batch_loop].
  unfold mbind at 1, M_bind at 1, bind at 1, on_generator.
  rewrite generate_qr_code_eq.
  destruct (QRCodeGenerator._generate_qr_sync _ _ _ _ _ _ _ _) as [bytes|e];
    cbn; eexists; reflexivity.
Qed.

End HandlerClaims.

(** ** Concrete runs *)

Ltac by_computation := vm_compute; reflexivity.
Ltac by_decision := apply (bool_decide_unpack _); vm_compute; exact I.

Section Runs.
#[local] Existing Instance Reference.ascii_case.

Lemma get_after_put_and_unknown_id_witness :
  QRCodeGenerator.generate_qr_code (L:=Reference.lib) (W:=Reference.world)
    "hi" "PNG" 10 4 "M" "black" "white" None QRCodeGenerator.init
    = (Ok demo_artifact, demo_generator)
  /\ QRCodeGenerator.cache demo_generator !! "no-such-id" = None
  /\ QRCodeGenerator.get_qr_code "uuid-0" demo_generator
     = (Ok (list_byte_of_string "PNG:hi", "image/png"), demo_generator)
  /\ QRCodeGenerator.get_qr_code "no-such-id" demo_generator
     = (Raise (FileNotFoundError "QR code no-such-id not found"),
        demo_generator).
Proof.
  assert (H1 : QRCodeGenerator.generate_qr_code (L:=Reference.lib)
                 (W:=Reference.world) "hi" "PNG" 10 4 "M" "black" "white"
                 None QRCodeGenerator.init = (Ok demo_artifact, demo_generator))
    by by_computation.
  assert (H2 : QRCodeGenerator.cache demo_generator !! "no-such-id" = None)
    by by_computation.
  split; [exact H1|]. split; [exact H2|].
  destruct (get_after_put_and_unknown_id _ _ _ _ _ _ _ _ _ _ _
              demo_generator "no-such-id" H1 H2) as (Hhit & _ & Hmiss).
  split; [exact Hhit | exact Hmiss].
Defined.

(** C2, the claim on the code: the format ["GIF"] is none of the three,
    yet [_generate_qr_sync] returns bytes, those the PNG renderer
    produces, and raises nothing. *)
Lemma unsupported_format_is_rendered_as_png :
  (("GIF" : string) ∉ ["PNG"; "SVG"; "PDF"])
  /\ QRCodeGenerator._generate_qr_sync (L:=Reference.lib)
       "hi" "GIF" 10 4 "M" "black" "white" None
     = Ok (list_byte_of_string "PNG:hi")
  /\ QRCodeGenerator._generate_qr_sync (L:=Reference.lib)
       "hi" "PNG" 10 4 "M" "black" "white" None
     = Ok (list_byte_of_string "PNG:hi").
Proof. split; [by_decision|]. split; by_computation. Qed.

Lemma unknown_format_defaults_to_png_witness :
  PyStr.upper "gif" <> "SVG"
  /\ PyStr.upper "gif" <> "PDF"
  /\ QRCodeGenerator._generate_qr_sync (L:=Reference.lib)
       "hi" "gif" 10 4 "M" "black" "white" None
     = QRCodeGenerator._generate_qr_sync (L:=Reference.lib)
         "hi" "PNG" 10 4 "M" "black" "white" None.
Proof.
  assert (H1 : PyStr.upper "gif" <> "SVG") by (vm_compute; discriminate).
  assert (H2 : PyStr.upper "gif" <> "PDF") by (vm_compute; discriminate).
  split; [exact H1|]. split; [exact H2|].
  exact (proj1 (unknown_format_defaults_to_png (L:=Reference.lib)
                  "hi" "gif" 10 4 "M" "black" "white" None H1 H2)).
Defined.

(** C4, the claim on the code: the empty string is encoded and rendered;
    nothing is raised, and the artifact lands in the cache. *)
Lemma empty_payload_is_generated :
  exists a self',
    QRCodeGenerator.generate_qr_code (L:=Reference.lib) (W:=Reference.world)
      "" "PNG" 10 4 "M" "black" "white" None QRCodeGenerator.init
    = (Ok a, self')
    /\ QRCodeGenerator.res_data a = ""
    /\ QRCodeGenerator.cache self' !! QRCodeGenerator.res_id a = Some a.
Proof. eexists _, _. split; [by_computation|]. split; by_computation. Qed.

Lemma oversized_data_is_refused_untruncated_witness :
  fits (default ERROR_CORRECT_M
          (QRCodeGenerator.error_correction_levels !! "M"))
       (Reference.letters 2332)
    = false
  /\ QRCodeGenerator.encode (L:=Reference.lib) (Reference.letters 2332) 10 4
       "M"
     = Raise (ValueError "Invalid version (was 41, expected 1 to 40)")
  /\ exists e,
       QRCodeGenerator.encode (L:=Reference.lib) (Reference.letters 2332)
         10 4 "M"
       = Raise e
       /\ QRCodeGenerator._generate_qr_sync (L:=Reference.lib)
            (Reference.letters 2332) "PNG" 10 4 "M" "black" "white" None
          = Raise e
       /\ exists self',
            QRCodeGenerator.generate_qr_code (L:=Reference.lib)
              (W:=Reference.world) (Reference.letters 2332) "PNG" 10 4 "M"
              "black" "white" None QRCodeGenerator.init
            = (Raise e, self')
            /\ QRCodeGenerator.cache self'
               = QRCodeGenerator.cache QRCodeGenerator.init.
Proof.
  assert (H : fits (default ERROR_CORRECT_M
                      (QRCodeGenerator.error_correction_levels !! "M"))
                   (Reference.letters 2332)
              = false) by by_computation.
  split; [exact H|]. split; [by_computation|].
  exact (proj1 (oversized_data_is_refused_untruncated (L:=Reference.lib)
                  (W:=Reference.world) (Reference.letters 2332) "PNG" 10 4
                  "M" "black" "white" None QRCodeGenerator.init H)).
Defined.

Lemma stats_count_and_total_witness :
  NoDup (QRCodeGenerator.res_id <$> demo_two)
  /\ QRCodeGenerator.cached_items
       (QRCodeGenerator.get_cache_stats (put_all demo_two QRCodeGenerator.init))
     = 2
  /\ QRCodeGenerator.total_cache_size
       (QRCodeGenerator.get_cache_stats (put_all demo_two QRCodeGenerator.init))
     = 5.
Proof.
  assert (H : NoDup (QRCodeGenerator.res_id <$> demo_two)) by by_decision.
  split; [exact H|]. exact (stats_count_and_total demo_two H).
Defined.

Lemma preview_is_base64_of_bytes_witness :
  QRCodeGenerator.generate_qr_code (L:=Reference.lib) (W:=Reference.world)
    "hi" "PNG" 10 4 "M" "black" "white" None QRCodeGenerator.init
    = (Ok demo_artifact, demo_generator)
  /\ Base64.b64decode "UE5HOmhp" = Some (list_byte_of_string "PNG:hi").
Proof.
  assert (H : QRCodeGenerator.generate_qr_code (L:=Reference.lib)
                (W:=Reference.world) "hi" "PNG" 10 4 "M" "black" "white"
                None QRCodeGenerator.init = (Ok demo_artifact, demo_generator))
    by by_computation.
  split; [exact H|].
  destruct (preview_is_base64_of_bytes _ _ _ _ _ _ _ _ _ _ _ H)
    as (_ & _ & Hdec & _).
  exact Hdec.
Defined.

Lemma failed_generation_keeps_cache_witness :
  QRCodeGenerator.generate_qr_code (L:=Reference.lib) (W:=Reference.world)
    (Reference.letters 2332) "PNG" 10 4 "M" "black" "white" None
    QRCodeGenerator.init
    = (Raise (ValueError "Invalid version (was 41, expected 1 to 40)"),
       overflowed_generator)
  /\ QRCodeGenerator.cache overflowed_generator
     = QRCodeGenerator.cache QRCodeGenerator.init.
Proof.
  assert (H : QRCodeGenerator.generate_qr_code (L:=Reference.lib)
                (W:=Reference.world) (Reference.letters 2332) "PNG" 10 4 "M"
                "black" "white" None QRCodeGenerator.init
              = (Raise (ValueError
                          "Invalid version (was 41, expected 1 to 40)"),
                 overflowed_generator))
    by by_computation.
  split; [exact H|].
  exact (proj1 (failed_generation_keeps_cache _ _ _ _ _ _ _ _ _ _ _ H)).
Defined.

Lemma unknown_level_is_medium_witness :
  (("X" : string) ∉ ["L"; "M"; "Q"; "H"])
  /\ QRCodeGenerator.generate_qr_code (L:=Reference.lib) (W:=Reference.world)
       "hi" "PNG" 10 4 "X" "black" "white" None QRCodeGenerator.init
     = QRCodeGenerator.generate_qr_code (L:=Reference.lib) (W:=Reference.world)
         "hi" "PNG" 10 4 "M" "black" "white" None QRCodeGenerator.init.
Proof.
  assert (H : ("X" : string) ∉ ["L"; "M"; "Q"; "H"]) by by_decision.
  split; [exact H|].
  exact (unknown_level_is_medium (L:=Reference.lib) (W:=Reference.world)
           "hi" "PNG" 10 4 "X" "black" "white" None QRCodeGenerator.init H).
Defined.

(** C3 at the failing input: both providers are enabled and S3 cannot be
    reached.  The task ends after the one request to S3; nothing is sent
    to Azure. *)
Lemma aws_failure_ends_replication_witness :
  MultiCloudStorageManager.aws_enabled (Reference.manager true true) = true
  /\ perform (Cloud:=Reference.cloud_s3_unreachable)
       (aws_put (W:=Reference.world) (Reference.manager true true) "id1" []
          "png" Reference.io0)
     = Raise (BotoCoreError "EndpointConnectionError")
  /\ is_ClientError (BotoCoreError "EndpointConnectionError") = false
  /\ MultiCloudStorageManager.azure_enabled (Reference.manager true true)
     = true
  /\ Main.upload_to_storage (C:=Reference.cloud_s3_unreachable)
       (W:=Reference.world) (Reference.manager true true) "id1" [] "png"
       Reference.io0
     = (Ok tt,
        after Reference.io0
          [Called (S3_put_object "qr-codes-bucket" "qr-codes/id1.png" []
                     "image/png" "1700000000" "png");
           Logged ERROR "Failed to upload to storage"
             [("qr_id", Some "id1");
              ("error", Some "EndpointConnectionError")]] 1).
Proof.
  assert (H1 : MultiCloudStorageManager.aws_enabled
                 (Reference.manager true true) = true) by reflexivity.
  assert (H2 : perform (Cloud:=Reference.cloud_s3_unreachable)
                 (aws_put (W:=Reference.world) (Reference.manager true true)
                    "id1" [] "png" Reference.io0)
               = Raise (BotoCoreError "EndpointConnectionError"))
    by by_computation.
  assert (H3 : is_ClientError (BotoCoreError "EndpointConnectionError")
               = false) by reflexivity.
  split; [exact H1|]. split; [exact H2|]. split; [exact H3|].
  split; [reflexivity|].
  exact (proj1 (proj2 (aws_failure_ends_replication
                         (C:=Reference.cloud_s3_unreachable)
                         (W:=Reference.world) (Reference.manager true true)
                         "id1" [] "png" Reference.io0
                         (BotoCoreError "EndpointConnectionError")
                         H1 H2 H3))).
Defined.

(** The scenario of the claim: AWS is disabled, Azure is enabled and
    accepts the blob.  The signature is refused for want of a key, the
    exception leaves [upload_to_azure], and the task ends with the log of
    a failure: there is no URL for Azure. *)
Example disabled_aws_leaves_no_azure_url :
  Main.upload_to_storage (C:=Reference.cloud_up) (W:=Reference.world)
    (Reference.manager false true) "id1" [] "png" Reference.io0
  = (Ok tt,
     after Reference.io0
       [Logged WARNING "AWS S3 not available for upload" [];
        CounterInc "storage_uploads_total" "aws";
        Called (Blob_upload_blob "qr-codes" "qr-codes/id1.png" [] "image/png"
                  "1700000000" "png" true);
        Called (Blob_generate_blob_sas (Some "acct") "qr-codes"
                  "qr-codes/id1.png" None None BlobSasPermissions_read
                  1700003601);
        Logged ERROR "Failed to upload to storage"
          [("qr_id", Some "id1");
           ("error",
            Some "Either user_delegation_key or account_key must be provided.")]]
       2).
Proof. by_computation. Qed.

Lemma batch_with_items_raises_witness :
  length ["a"; "b"; "c"] <= 100
  /\ exists st',
       Main.generate_batch_qr_codes (L:=Reference.lib) (W:=Reference.world)
         {| Main.batch_items := ["a"; "b"; "c"]; Main.batch_format := "PNG";
            Main.batch_size := 10 |} Main.init
       = (Raise (HTTPException 500
                   "Batch QR code generation failed: 1 validation error: qr_code_base64 field required"),
          st').
Proof.
  assert (H : length ["a"; "b"; "c"] <= 100) by (vm_compute; lia).
  split; [exact H|].
  exact (batch_with_items_raises (L:=Reference.lib) (W:=Reference.world)
           "a" ["b"; "c"] "PNG" 10 Main.init H).
Defined.

(** The failed batch of three: the artifact of its first item stays in
    the cache, no upload was scheduled for it, and the counter of
    generated codes was not advanced. *)
Example failed_batch_leaves_first_artifact :
  let st' := snd (Main.generate_batch_qr_codes (L:=Reference.lib)
                    (W:=Reference.world)
                    {| Main.batch_items := ["a"; "b"; "c"];
                       Main.batch_format := "PNG"; Main.batch_size := 10 |}
                    Main.init) in
  size (QRCodeGenerator.cache (Main.qr_generator st')) = 1
  /\ Main.background_tasks st' = []
  /\ Main.qr_generation_counter st' = 0.
Proof. repeat split; by_computation. Qed.

(** C8 at the failing input: Azure is enabled and accepts the blob. *)
Lemma azure_upload_signs_without_key_witness :
  MultiCloudStorageManager.azure_enabled (Reference.manager true true) = true
  /\ perform (Cloud:=Reference.cloud_up)
       (azure_put (W:=Reference.world) (Reference.manager true true) "id1"
          [] "PNG" Reference.io0)
     = Ok ""
  /\ exists msg,
       perform (Cloud:=Reference.cloud_up)
         (Blob_generate_blob_sas (Some "acct") "qr-codes"
            ("qr-codes/" ++ "id1" ++ "." ++ PyStr.lower "PNG") None None
            BlobSasPermissions_read
            (utcnow (World:=Reference.world) 1 + timedelta_hours 1)%Z)
       = Raise (ValueError msg)
       /\ MultiCloudStorageManager.upload_to_azure (C:=Reference.cloud_up)
            (W:=Reference.world) (Reference.manager true true) "id1" []
            "PNG" Reference.io0
          = (Raise (ValueError msg),
             after Reference.io0
               [Called (Blob_upload_blob "qr-codes"
                          ("qr-codes/" ++ "id1" ++ "." ++ PyStr.lower "PNG")
                          []
                          (MultiCloudStorageManager._get_content_type "PNG")
                          (isoformat (World:=Reference.world)
                             (utcnow (World:=Reference.world) 0))
                          "PNG" true);
                Called (Blob_generate_blob_sas (Some "acct") "qr-codes"
                          ("qr-codes/" ++ "id1" ++ "." ++ PyStr.lower "PNG")
                          None None BlobSasPermissions_read
                          (utcnow (World:=Reference.world) 1
                           + timedelta_hours 1)%Z)] 2).
Proof.
  assert (H1 : MultiCloudStorageManager.azure_enabled
                 (Reference.manager true true) = true) by reflexivity.
  assert (H2 : perform (Cloud:=Reference.cloud_up)
                 (azure_put (W:=Reference.world) (Reference.manager true true)
                    "id1" [] "PNG" Reference.io0)
               = Ok "") by by_computation.
  split; [exact H1|]. split; [exact H2|].
  exact (proj1 (proj2 (azure_upload_signs_without_key (C:=Reference.cloud_up)
                         (W:=Reference.world) (Reference.manager true true)
                         "id1" [] "PNG" Reference.io0 "" H1 H2))).
Defined.

(** The run of that upload, written out. *)
Example azure_upload_raises_value_error :
  MultiCloudStorageManager.upload_to_azure (C:=Reference.cloud_up)
    (W:=Reference.world) (Reference.manager true true) "id1" [] "PNG"
    Reference.io0
  = (Raise (ValueError
              "Either user_delegation_key or account_key must be provided."),
     after Reference.io0
       [Called (Blob_upload_blob "qr-codes" "qr-codes/id1.png" [] "image/png"
                  "1700000000" "PNG" true);
        Called (Blob_generate_blob_sas (Some "acct") "qr-codes"
                  "qr-codes/id1.png" None None BlobSasPermissions_read
                  1700003601)] 2).
Proof. by_computation. Qed.

End Runs.

(** * Further properties *)

(** ** More on the generator and its cache *)

Section GeneratorMore.
Context {L : QRLib} {W : World} {U : PyStr.Case}.
Import QRCodeGenerator.

(** Every entry of the cache is stored under its own id, with the length
    of its bytes as [file_size] and a preview that decodes to its bytes;
    [generate_qr_code] keeps it so whether it returns or raises, and so do
    [clear_cache] and the removal of an entry. *)
Theorem cache_entries_stay_well_formed
    data format size border ec fill back style qr_id self :
  cache_ok self ->
  cache_ok (snd (generate_qr_code data format size border ec fill back
                   style self))
  /\ cache_ok (clear_cache self)
  /\ cache_ok (cache_pop qr_id self).
Proof.
  intros Hok. unfold cache_ok in *. split; [|split].
  - rewrite generate_qr_code_eq.
    destruct (_generate_qr_sync _ _ _ _ _ _ _ _) as [bytes|e]; cbn; [|exact Hok].
    apply map_Forall_insert_2; [|exact Hok].
    repeat split; cbn. apply b64decode_b64encode.
  - cbn. apply map_Forall_empty.
  - cbn. now apply map_Forall_delete.
Qed.

(** One call of [generate_qr_code] draws exactly one identifier, whether
    it returns or raises, and leaves every cache entry stored under
    another id as it was. *)
Theorem generation_touches_one_entry
    data format size border ec fill back style self (other : string) :
  other <> uuid4 (uuid_calls self) ->
  cache (snd (generate_qr_code data format size border ec fill back style
                self)) !! other
  = cache self !! other
  /\ uuid_calls (snd (generate_qr_code data format size border ec fill back
                        style self))
     = S (uuid_calls self).
Proof.
  intros Hne. rewrite generate_qr_code_eq.
  destruct (_generate_qr_sync _ _ _ _ _ _ _ _) as [bytes|e]; cbn.
  - split; [|reflexivity]. apply lookup_insert_ne. congruence.
  - split; reflexivity.
Qed.

(** A put under an id that is already in the cache replaces the entry:
    the number of cached items stays, the total size changes by the
    difference of the two lengths, and [get_qr_code] returns the new
    bytes. *)
Theorem put_over_existing_id_replaces qr_id (old new : QRResult) self :
  cache self !! qr_id = Some old ->
  cached_items (get_cache_stats (cache_put qr_id new self))
  = cached_items (get_cache_stats self)
  /\ total_cache_size (get_cache_stats (cache_put qr_id new self))
     + bytes_of old
     = total_cache_size (get_cache_stats self) + bytes_of new
  /\ get_qr_code qr_id (cache_put qr_id new self)
     = (Ok (file_data new, media_type new), cache_put qr_id new self).
Proof.
  intros Hold. split; [|split].
  - cbn. rewrite map_size_insert_Some; [reflexivity|]. now exists old.
  - unfold get_cache_stats, cache_put. cbn.
    rewrite <- (insert_delete_eq (cache self) qr_id new).
    rewrite <- (insert_id (cache self) qr_id old Hold) at 2.
    rewrite <- (insert_delete_eq (cache self) qr_id old).
    rewrite !map_to_list_insert by apply lookup_delete_eq.
    cbn. unfold bytes_of. lia.
  - apply get_qr_code_hit. cbn. apply lookup_insert_eq.
Qed.

(** Removing an entry, as the health probe does with [cache.pop(id, None)]:
    a present id is gone afterwards and the statistics go down by one item
    and by its bytes; an absent id changes nothing and raises nothing;
    every other id keeps its entry. *)
Theorem pop_removes_one_entry qr_id (other : string) self :
  other <> qr_id ->
  get_qr_code qr_id (cache_pop qr_id self)
  = (Raise (FileNotFoundError ("QR code " ++ qr_id ++ " not found")),
     cache_pop qr_id self)
  /\ cache (cache_pop qr_id self) !! other = cache self !! other
  /\ (cache self !! qr_id = None -> cache_pop qr_id self = self)
  /\ (forall a, cache self !! qr_id = Some a ->
        S (cached_items (get_cache_stats (cache_pop qr_id self)))
        = cached_items (get_cache_stats self)
        /\ total_cache_size (get_cache_stats (cache_pop qr_id self))
           + bytes_of a
           = total_cache_size (get_cache_stats self)).
Proof.
  intros Hne. repeat split.
  - apply get_qr_code_miss. cbn. apply lookup_delete_eq.
  - cbn. apply lookup_delete_ne. congruence.
  - intros Hnone. destruct self as [c u k]. unfold cache_pop, set_cache. cbn in *.
    f_equal. now apply delete_id.
  - cbn. rewrite <- (insert_id (cache self) qr_id a H) at 2.
    rewrite <- (insert_delete_eq (cache self) qr_id a).
    rewrite map_size_insert_None by apply lookup_delete_eq. reflexivity.
  - unfold get_cache_stats, cache_pop. cbn.
    rewrite <- (insert_id (cache self) qr_id a H) at 2.
    rewrite <- (insert_delete_eq (cache self) qr_id a).
    rewrite map_to_list_insert by apply lookup_delete_eq.
    cbn. unfold bytes_of. lia.
Qed.

(** The style changes the output only for a PNG rendering with style
    ["rounded"] or ["circle"]: for SVG and PDF it is ignored, and any
    other style string renders like no style. *)
Theorem style_only_shapes_png
    data format size border ec fill back (style : option string) :
  (PyStr.upper format = "SVG" \/ PyStr.upper format = "PDF")
  \/ (style <> Some "rounded" /\ style <> Some "circle") ->
  _generate_qr_sync data format size border ec fill back style
  = _generate_qr_sync data format size border ec fill back None.
Proof.
  intros H. unfold _generate_qr_sync.
  destruct (encode data size border ec) as [qr|e]; [|reflexivity].
  cbn [mbind result_bind].
  destruct (decide (PyStr.upper format = "SVG")) as [|Hsvg]; [reflexivity|].
  destruct (decide (PyStr.upper format = "PDF")) as [|Hpdf]; [reflexivity|].
  destruct H as [[?|?]|[Hr Hc]]; [contradiction..|].
  unfold _generate_png.
  destruct (decide (style = Some "rounded")); [contradiction|].
  destruct (decide (style = Some "circle")); [contradiction|].
  reflexivity.
Qed.

(** The media type that [get_qr_code] reports for a generated artifact is
    the one of the renderer that produced its bytes: SVG bytes come with
    [image/svg+xml], PDF bytes with [application/pdf], and the bytes of
    the PNG renderer, which every other format falls back to, with
    [image/png]. *)
Theorem served_type_matches_renderer
    data format size border ec fill back style self a self' :
  generate_qr_code data format size border ec fill back style self
    = (Ok a, self') ->
  exists qr,
    encode data size border ec = Ok qr
    /\ ((PyStr.upper format = "SVG"
         /\ _generate_svg qr fill back = Ok (file_data a)
         /\ get_qr_code (res_id a) self'
            = (Ok (file_data a, "image/svg+xml"), self'))
        \/ (PyStr.upper format = "PDF"
            /\ _generate_pdf qr fill back = Ok (file_data a)
            /\ get_qr_code (res_id a) self'
               = (Ok (file_data a, "application/pdf"), self'))
        \/ (PyStr.upper format <> "SVG" /\ PyStr.upper format <> "PDF"
            /\ _generate_png qr fill back style = Ok (file_data a)
            /\ get_qr_code (res_id a) self'
               = (Ok (file_data a, "image/png"), self'))).
Proof.
  intros Hgen.
  apply generate_qr_code_ok in Hgen as (Hs & _ & _ & Hf & _ & _ & Hc).
  assert (Hget : get_qr_code (res_id a) self'
                 = (Ok (file_data a, media_type a), self')).
  { apply get_qr_code_hit. rewrite Hc. apply lookup_insert_eq. }
  unfold media_type in Hget. rewrite Hf in Hget.
  unfold _generate_qr_sync in Hs.
  destruct (encode data size border ec) as [qr|e]; [|discriminate].
  exists qr. split; [reflexivity|]. cbn [mbind result_bind] in Hs.
  destruct (decide (PyStr.upper format = "SVG")) as [Esvg|Hsvg].
  - left. rewrite Esvg in Hget. repeat split; assumption.
  - destruct (decide (PyStr.upper format = "PDF")) as [Epdf|Hpdf].
    + right; left. rewrite Epdf in Hget. repeat split; assumption.
    + right; right. repeat split; try assumption.
      rewrite Hget. repeat f_equal.
      destruct (decide (PyStr.upper format = "PNG")) as [Epng|Hpng].
      * now rewrite Epng.
      * unfold content_types.
        rewrite !lookup_insert_ne by congruence.
        now rewrite lookup_singleton_ne by congruence.
Qed.

Lemma prefix_of_append (p s : string) : String.prefix p (p ++ s) = true.
Proof.
  induction p as [|c p IH]; [now destruct s|].
  change (String.prefix (String c p) (String c (p ++ s)) = true).
  cbn [String.prefix]. now destruct (ascii_dec c c).
Qed.

(** [generate_url_qr] always encodes a URL that starts with ["http://"] or
    ["https://"]: a URL that has one of the two is encoded as it is, any
    other string gets ["https://"] in front (the test is case-sensitive). *)
Theorem url_always_has_scheme
    url format size border ec fill back style self a self' :
  generate_url_qr url format size border ec fill back style self
    = (Ok a, self') ->
  has_scheme (res_data a) = true
  /\ (has_scheme url = true -> res_data a = url)
  /\ (has_scheme url = false -> res_data a = "https://" ++ url).
Proof.
  unfold generate_url_qr. fold (has_scheme url). intros Hgen.
  apply generate_qr_code_ok in Hgen as (_ & _ & Hd & _).
  rewrite Hd. destruct (has_scheme url) eqn:Hs.
  - repeat split; [exact Hs | discriminate].
  - repeat split; [|discriminate].
    unfold has_scheme. rewrite (prefix_of_append "https://" url).
    apply orb_true_r.
Qed.

End GeneratorMore.

(** ** Initialization of the storage manager *)

Section SetupFacts.
Context {P : Provisioning}.
Import MultiCloudStorageManager.

Ltac setup_run :=
  repeat progress
    (unfold try_except, ask, note, disable_aws, disable_azure,
       set_aws_client, set_azure_client, gets, raise, noted, aws_off,
       azure_off, with_aws_client, with_azure_client,
       mbind, M_bind, bind, mret, M_ret, ret; cbn).

Ltac setup_tidy := cbn; rewrite <- ?app_assoc; cbn; try reflexivity.

Lemma _create_aws_bucket_eq s :
  _create_aws_bucket s =
  let cr := S3_create_bucket (aws_bucket (manager s))
              (bucket_location (manager s)) in
  match provision cr with
  | Ok _ => (Ok tt, noted s [Asked cr; Noted INFO "AWS S3 bucket created"])
  | Raise e =>
      (Raise e,
       noted s (Asked cr ::
                if is_ClientError e
                then [Noted ERROR "Failed to create AWS S3 bucket"]
                else []))
  end.
Proof.
  unfold _create_aws_bucket, bucket_location. setup_run.
  destruct (provision _) as [[]|e]; setup_tidy.
  destruct (is_ClientError e); setup_tidy.
Qed.

Lemma _test_aws_connection_eq s :
  _test_aws_connection s =
  let h := S3_head_bucket (aws_bucket (manager s)) in
  match provision h with
  | Ok _ => (Ok tt, noted s [Asked h])
  | Raise e =>
      if is_ClientError e && bool_decide (error_code e = "404")
      then _create_aws_bucket (noted s [Asked h])
      else (Raise e, noted s [Asked h])
  end.
Proof.
  unfold _test_aws_connection.
  generalize _create_aws_bucket as create. intros create. setup_run.
  destruct (provision _) as [[]|e]; setup_tidy.
  destruct (is_ClientError e); setup_tidy.
  destruct (decide (error_code e = "404")) as [E|E].
  - now rewrite (bool_decide_eq_true_2 _ E).
  - now rewrite (bool_decide_eq_false_2 _ E).
Qed.

Lemma initialize_aws_eq environ s :
  initialize_aws environ s =
  let c0 := Boto3_client (aws_region (manager s))
              (environ !! "AWS_ACCESS_KEY_ID")
              (environ !! "AWS_SECRET_ACCESS_KEY") in
  match provision c0 with
  | Raise e => aws_block_end e (noted s [Asked c0])
  | Ok _ =>
      match _test_aws_connection (with_aws_client (noted s [Asked c0])) with
      | (Ok _, s1) =>
          (Ok tt, noted s1 [Noted INFO "AWS S3 client initialized successfully"])
      | (Raise e, s1) => aws_block_end e s1
      end
  end.
Proof.
  unfold initialize_aws, aws_block_end, caught_by_aws_setup.
  generalize _test_aws_connection as test. intros test. setup_run.
  destruct (provision _) as [[]|e]; setup_tidy.
  destruct (test _) as [[[]|e] s1]; setup_tidy.
Qed.

Lemma _create_azure_container_eq s :
  _create_azure_container s =
  let cr := Blob_create_container (azure_container (manager s)) in
  match provision cr with
  | Ok _ => (Ok tt, noted s [Asked cr; Noted INFO "Azure container created"])
  | Raise e =>
      (Raise e,
       noted s (Asked cr ::
                if is_AzureError e
                then [Noted ERROR "Failed to create Azure container"]
                else []))
  end.
Proof.
  unfold _create_azure_container. setup_run.
  destruct (provision _) as [[]|e]; setup_tidy.
  destruct (is_AzureError e); setup_tidy.
Qed.

Lemma _test_azure_connection_eq s :
  _test_azure_connection s =
  let g := Blob_get_container_properties (azure_container (manager s)) in
  match provision g with
  | Ok _ => (Ok tt, noted s [Asked g])
  | Raise e =>
      if is_AzureError e && is_substring "ContainerNotFound" (str_of_exn e)
      then _create_azure_container (noted s [Asked g])
      else (Raise e, noted s [Asked g])
  end.
Proof.
  unfold _test_azure_connection.
  generalize _create_azure_container as create. intros create. setup_run.
  destruct (provision _) as [[]|e]; [reflexivity|].
  generalize (is_substring "ContainerNotFound" (str_of_exn e)) as found.
  intros found. destruct (is_AzureError e), found; setup_tidy.
Qed.

Lemma build_azure_client_eq environ self s :
  build_azure_client environ self s =
  match azure_client_source environ self with
  | Some c =>
      match provision c with
      | Ok _ => (Ok tt, with_azure_client (noted s [Asked c]))
      | Raise e => (Raise e, noted s [Asked c])
      end
  | None => (Ok tt, s)
  end.
Proof.
  unfold build_azure_client, azure_client_source.
  destruct (truthy (azure_account self));
    [|destruct (truthy (environ !! "AZURE_STORAGE_CONNECTION_STRING"))];
    setup_run; try reflexivity.
  all: destruct (provision _) as [[]|e]; setup_tidy.
Qed.

Lemma initialize_azure_eq environ s :
  initialize_azure environ s =
  match build_azure_client environ (manager s) s with
  | (Raise e, s1) => azure_block_end e s1
  | (Ok _, s1) =>
      if has_azure_client s1 then
        match _test_azure_connection s1 with
        | (Ok _, s2) =>
            (Ok tt,
             noted s2
               [Noted INFO "Azure Blob Storage client initialized successfully"])
        | (Raise e, s2) => azure_block_end e s2
        end
      else azure_block_end (AzureError "No Azure credentials provided") s1
  end.
Proof.
  unfold initialize_azure, azure_block_end.
  generalize _test_azure_connection as test.
  generalize (build_azure_client environ) as build.
  intros build test. setup_run.
  destruct (build _ _) as [[[]|e] s1]; setup_tidy.
  destruct (has_azure_client s1) eqn:Hclient; setup_tidy.
  - destruct (test _) as [[[]|e] s2]; setup_tidy.
  - now rewrite Hclient.
Qed.

Lemma initialize_eq environ s :
  initialize environ s =
  match initialize_aws environ
          (noted s [Noted INFO "Initializing multi-cloud storage"]) with
  | (Raise e, s1) => (Raise e, s1)
  | (Ok _, s1) =>
      match initialize_azure environ s1 with
      | (Raise e, s2) => (Raise e, s2)
      | (Ok _, s2) =>
          (Ok tt,
           if negb (aws_enabled (manager s2))
              && negb (azure_enabled (manager s2))
           then noted s2
                  [Noted WARNING
                     "No cloud storage providers available - running in local mode"]
           else s2)
      end
  end.
Proof.
  unfold initialize.
  generalize (initialize_aws environ) as A.
  generalize (initialize_azure environ) as B.
  intros B A. setup_run.
  destruct (A _) as [[[]|e] s1]; setup_tidy.
  destruct (B _) as [[[]|e] s2]; setup_tidy.
  destruct (negb _ && negb _); setup_tidy.
Qed.

Ltac setup_nf :=
  repeat first
    [ rewrite initialize_aws_eq | rewrite _test_aws_connection_eq
    | rewrite _create_aws_bucket_eq | rewrite initialize_azure_eq
    | rewrite build_azure_client_eq | rewrite _test_azure_connection_eq
    | rewrite _create_azure_container_eq
    | progress (cbv zeta; unfold aws_block_end, azure_block_end) ].

Ltac setup_states :=
  unfold noted, aws_off, azure_off, with_aws_client, with_azure_client,
    disable_aws, disable_azure, set_aws_client, set_azure_client in *;
  cbn [manager has_aws_client has_azure_client asked aws_enabled
       azure_enabled aws_bucket azure_container aws_region azure_account
       fst snd] in *.

Ltac setup_cases :=
  repeat first [progress setup_nf | case_match];
  intros; simplify_eq; setup_states.

Ltac use_outcomes :=
  repeat match goal with
         | H : provision _ = _ |- _ => rewrite H
         | H : _ && _ = _ |- _ => rewrite H
         | H : _ || _ = _ |- _ => rewrite H
         | H : is_ClientError _ = _ |- _ => rewrite H
         | H : is_AzureError _ = _ |- _ => rewrite H
         | H : caught_by_aws_setup _ = _ |- _ => rewrite H
         | H : truthy _ = _ |- _ => rewrite H
         | H : azure_client_source _ _ = _ |- _ => rewrite H
         | H : is_substring _ _ = _ |- _ => rewrite H
         | H : has_azure_client _ = _ |- _ => rewrite H
         end;
  cbn; rewrite ?andb_true_r, ?andb_false_r; try done.

Lemma initialize_aws_flag environ s s' :
  initialize_aws environ s = (Ok tt, s') ->
  aws_enabled (manager s')
  = aws_enabled (manager s) && aws_probe_passes environ (manager s).
Proof.
  setup_cases.
  all: unfold aws_probe_passes; use_outcomes.
Qed.

Lemma initialize_aws_frame environ s r s' :
  initialize_aws environ s = (r, s') ->
  same_configuration (manager s') (manager s)
  /\ azure_enabled (manager s') = azure_enabled (manager s)
  /\ has_azure_client s' = has_azure_client s
  /\ (aws_enabled (manager s') = true -> aws_enabled (manager s) = true).
Proof. unfold same_configuration. setup_cases. all: done. Qed.

Lemma initialize_aws_escapes environ s e s' :
  initialize_aws environ s = (Raise e, s') ->
  caught_by_aws_setup e = false
  /\ exists c, is_aws_setup c = true /\ provision c = Raise e.
Proof.
  setup_cases.
  all: split; [done|eexists; split; [|eassumption]; done].
Qed.

Ltac split_membership :=
  repeat match goal with
         | H : _ ∈ (_ ++ _)%list |- _ => apply elem_of_app in H
         | H : _ ∈ _ :: _ |- _ => apply elem_of_cons in H
         | H : _ ∈ [] |- _ => apply elem_of_nil in H
         | H : _ \/ _ |- _ => destruct H as [H|H]
         | H : False |- _ => destruct H
         | H : Asked _ = Noted _ _ |- _ => discriminate H
         | H : Asked _ = Asked _ |- _ => injection H as ->
         end.

(** What the first [try] asks: S3 calls only, and [create_bucket] only
    for the configured bucket after [head_bucket] has answered 404. *)
Lemma initialize_aws_asks environ s r s' c :
  initialize_aws environ s = (r, s') ->
  Asked c ∈ asked s' ->
  Asked c ∈ asked s
  \/ (is_aws_setup c = true
      /\ forall b loc, c = S3_create_bucket b loc ->
          b = aws_bucket (manager s)
          /\ loc = bucket_location (manager s)
          /\ exists e, provision (S3_head_bucket b) = Raise e
                       /\ is_ClientError e = true /\ error_code e = "404").
Proof.
  setup_cases.
  all: split_membership; try (left; assumption); right.
  all: split; [done|]; intros b loc Hc; simplify_eq.
  all: repeat split; try done.
  all: repeat match goal with
              | H : _ && _ = true |- _ => apply andb_true_iff in H as [? ?]
              | H : bool_decide _ = true |- _ => apply bool_decide_eq_true in H
              end; eauto.
Qed.

Lemma azure_client_source_some environ self c :
  azure_client_source environ self = Some c ->
  is_aws_setup c = false
  /\ (truthy (azure_account self) = true
      \/ truthy (environ !! "AZURE_STORAGE_CONNECTION_STRING") = true).
Proof.
  unfold azure_client_source.
  destruct (truthy (azure_account self));
    [|destruct (truthy (environ !! "AZURE_STORAGE_CONNECTION_STRING"))];
    intros [= <-]; auto.
Qed.

Ltac use_source :=
  repeat match goal with
         | H : azure_client_source _ _ = Some _ |- _ =>
             apply azure_client_source_some in H as [? ?]
         end.

Lemma initialize_azure_flag environ s s' :
  initialize_azure environ s = (Ok tt, s') ->
  azure_enabled (manager s')
  = azure_enabled (manager s)
    && azure_probe_passes environ (manager s) (has_azure_client s).
Proof.
  setup_cases.
  all: unfold azure_probe_passes, azure_container_ready; use_outcomes.
Qed.

Lemma initialize_azure_frame environ s r s' :
  initialize_azure environ s = (r, s') ->
  same_configuration (manager s') (manager s)
  /\ aws_enabled (manager s') = aws_enabled (manager s)
  /\ (azure_enabled (manager s') = true -> azure_enabled (manager s) = true).
Proof. unfold same_configuration. setup_cases. all: done. Qed.

Lemma initialize_azure_escapes environ s e s' :
  initialize_azure environ s = (Raise e, s') ->
  is_AzureError e = false
  /\ exists c, is_aws_setup c = false /\ provision c = Raise e.
Proof.
  setup_cases.
  all: use_source; split; [done|eexists; split; [|eassumption]; done].
Qed.

(** What the second [try] asks: Blob Storage calls only, and none at all
    without an account, a connection string or a client. *)
Lemma initialize_azure_asks environ s r s' c :
  initialize_azure environ s = (r, s') ->
  Asked c ∈ asked s' ->
  Asked c ∈ asked s
  \/ (is_aws_setup c = false
      /\ (truthy (azure_account (manager s)) = true
          \/ truthy (environ !! "AZURE_STORAGE_CONNECTION_STRING") = true
          \/ has_azure_client s = true)).
Proof.
  setup_cases.
  all: split_membership; try (left; assumption); right.
  all: use_source; split; [done|].
  all: repeat match goal with H : _ \/ _ |- _ => destruct H end; auto.
Qed.

Lemma azure_probe_passes_configuration environ (a b : t) had :
  same_configuration a b ->
  azure_probe_passes environ a had = azure_probe_passes environ b had.
Proof.
  intros (_ & Hc & _ & Ha).
  unfold azure_probe_passes, azure_container_ready, azure_client_source.
  now rewrite Hc, Ha.
Qed.

Lemma same_configuration_trans (a b c : t) :
  same_configuration a b -> same_configuration b c -> same_configuration a c.
Proof. unfold same_configuration. intuition congruence. Qed.

(** The pieces of one run of [initialize]: the state after the opening
    log line, after the first [try] and after the second. *)
Lemma initialize_runs environ s r s' :
  initialize environ s = (r, s') ->
  let s0 := noted s [Noted INFO "Initializing multi-cloud storage"] in
  exists ra s1,
    initialize_aws environ s0 = (ra, s1)
    /\ ((exists e, ra = Raise e /\ r = Raise e /\ s' = s1)
        \/ (ra = Ok tt
            /\ exists rb s2,
                 initialize_azure environ s1 = (rb, s2)
                 /\ manager s' = manager s2
                 /\ (forall c, Asked c ∈ asked s' -> Asked c ∈ asked s2)
                 /\ ((exists e, rb = Raise e /\ r = Raise e)
                     \/ (rb = Ok tt /\ r = Ok tt)))).
Proof.
  rewrite initialize_eq. intros H s0. subst s0.
  destruct (initialize_aws environ _) as [[[]|e] s1]; simplify_eq.
  - exists (Ok tt), s1. split; [done|]. right. split; [done|].
    destruct (initialize_azure environ s1) as [[[]|e] s2]; simplify_eq.
    + exists (Ok tt), s2. split; [done|].
      destruct (negb _ && negb _); cbn; repeat split; eauto.
      intros c Hc. apply elem_of_app in Hc as [Hc|Hc]; [done|].
      apply elem_of_cons in Hc as [Hc|Hc]; [done|].
      now apply elem_of_nil in Hc.
    + exists (Raise e), s'. repeat split; eauto.
  - exists (Raise e), s'. split; [done|]. left. eauto.
Qed.

End SetupFacts.

Section SetupProperties.
Context {P : Provisioning}.
Import MultiCloudStorageManager.

Lemma initialize_flags environ s s' :
  initialize environ s = (Ok tt, s') ->
  aws_enabled (manager s')
  = aws_enabled (manager s) && aws_probe_passes environ (manager s)
  /\ azure_enabled (manager s')
     = azure_enabled (manager s)
       && azure_probe_passes environ (manager s) (has_azure_client s).
Proof.
  intros H. apply initialize_runs in H as (ra & s1 & Ha & H). cbv zeta in Ha.
  destruct H as [(e & _ & [=] & _)|(-> & rb & s2 & Hb & Hm & _ & H)].
  destruct H as [(e & _ & [=])|(-> & _)].
  pose proof (initialize_aws_flag _ _ _ Ha) as Fa.
  pose proof (initialize_aws_frame _ _ _ _ Ha) as (Ca & Ea & Ka & _).
  pose proof (initialize_azure_flag _ _ _ Hb) as Fb.
  pose proof (initialize_azure_frame _ _ _ _ Hb) as (_ & Eb & _).
  rewrite Hm, Eb, Fa, Fb, Ea, Ka.
  rewrite (azure_probe_passes_configuration environ _ _ _ Ca).
  split; reflexivity.
Qed.

(** When [initialize] returns, a provider is enabled exactly if it was
    enabled before and its probe passed: for S3 the client was built and
    the bucket is there or was created after a 404; for Blob Storage a
    client was built from the account or the connection string and the
    container is there or was created after [ContainerNotFound]. *)
Theorem initialize_enables_what_it_could_reach environ s s' :
  initialize environ s = (Ok tt, s') ->
  aws_enabled (manager s')
  = aws_enabled (manager s) && aws_probe_passes environ (manager s)
  /\ azure_enabled (manager s')
     = azure_enabled (manager s)
       && azure_probe_passes environ (manager s) (has_azure_client s).
Proof. apply initialize_flags. Qed.

(** Whatever happens in it, [initialize] changes neither the bucket, the
    container, the region nor the account, and it never enables a
    provider: a flag that is on afterwards was on before. *)
Theorem initialize_only_disables environ s r s' :
  initialize environ s = (r, s') ->
  same_configuration (manager s') (manager s)
  /\ (aws_enabled (manager s') = true -> aws_enabled (manager s) = true)
  /\ (azure_enabled (manager s') = true -> azure_enabled (manager s) = true).
Proof.
  intros H. apply initialize_runs in H as (ra & s1 & Ha & H). cbv zeta in Ha.
  pose proof (initialize_aws_frame _ _ _ _ Ha) as (Ca & Ea & _ & Da).
  destruct H as [(e & _ & _ & ->)|(_ & rb & s2 & Hb & Hm & _ & _)].
  - repeat split; try apply Ca; [exact Da|]. now rewrite Ea.
  - pose proof (initialize_azure_frame _ _ _ _ Hb) as (Cb & Eb & Db).
    rewrite Hm. split; [exact (same_configuration_trans _ _ _ Cb Ca)|].
    split.
    + rewrite Eb. exact Da.
    + intros Hon. apply Db in Hon. now rewrite Ea in Hon.
Qed.

(** [initialize] raises only the exception of a setup call that is
    outside the classes caught for its provider: for an S3 call neither
    [NoCredentialsError] nor [ClientError], for a Blob Storage call not an
    [AzureError].  Errors of the caught classes never fail startup. *)
Theorem initialize_raises_only_foreign_errors environ s e s' :
  initialize environ s = (Raise e, s') ->
  exists c,
    provision c = Raise e
    /\ (if is_aws_setup c then caught_by_aws_setup e = false
        else is_AzureError e = false).
Proof.
  intros H. apply initialize_runs in H as (ra & s1 & Ha & H). cbv zeta in Ha.
  destruct H as [(e' & -> & [= <-] & _)|(_ & rb & s2 & Hb & _ & _ & H)].
  - apply initialize_aws_escapes in Ha as (Hc & c & Hs & Hp).
    exists c. split; [exact Hp|]. now rewrite Hs.
  - destruct H as [(e' & -> & [= <-])|(_ & [=])].
    apply initialize_azure_escapes in Hb as (Hc & c & Hs & Hp).
    exists c. split; [exact Hp|]. now rewrite Hs.
Qed.

(** Every setup call of one run of [initialize] is an S3 call of the
    first [try] or a Blob Storage call of the second. *)
Lemma initialize_asks environ s r s' c :
  initialize environ s = (r, s') ->
  Asked c ∈ asked s' ->
  Asked c ∈ asked s
  \/ (is_aws_setup c = true
      /\ forall b loc, c = S3_create_bucket b loc ->
          b = aws_bucket (manager s)
          /\ loc = bucket_location (manager s)
          /\ exists e, provision (S3_head_bucket b) = Raise e
                       /\ is_ClientError e = true /\ error_code e = "404")
  \/ (is_aws_setup c = false
      /\ (truthy (azure_account (manager s)) = true
          \/ truthy (environ !! "AZURE_STORAGE_CONNECTION_STRING") = true
          \/ has_azure_client s = true)).
Proof.
  intros H Hc. apply initialize_runs in H as (ra & s1 & Ha & H).
  cbv zeta in Ha.
  pose proof (initialize_aws_frame _ _ _ _ Ha) as ((_ & _ & _ & Hacc) & _ & Ka & _).
  assert (Hfirst : Asked c ∈ asked s1 ->
            Asked c ∈ asked s
            \/ (is_aws_setup c = true
                /\ forall b loc, c = S3_create_bucket b loc ->
                    b = aws_bucket (manager s)
                    /\ loc = bucket_location (manager s)
                    /\ exists e, provision (S3_head_bucket b) = Raise e
                                 /\ is_ClientError e = true
                                 /\ error_code e = "404")).
  { intros H1. destruct (initialize_aws_asks _ _ _ _ _ Ha H1) as [H0|H0].
    - left. cbn in H0. apply elem_of_app in H0 as [H0|H0]; [done|].
      apply elem_of_cons in H0 as [H0|H0]; [done|].
      now apply elem_of_nil in H0.
    - right. exact H0. }
  destruct H as [(e & _ & _ & ->)|(_ & rb & s2 & Hb & _ & Hsub & _)].
  - destruct (Hfirst Hc) as [?|?]; auto.
  - apply Hsub in Hc.
    destruct (initialize_azure_asks _ _ _ _ _ Hb Hc) as [H1|(Hs & H1)].
    + destruct (Hfirst H1) as [?|?]; auto.
    + right; right. split; [exact Hs|].
      now rewrite Hacc, Ka in H1.
Qed.

(** Without an account, a connection string and a client, [initialize]
    sends nothing to Blob Storage, and when it returns Azure is
    disabled. *)
Theorem no_azure_request_without_credentials environ s r s' :
  truthy (azure_account (manager s)) = false ->
  truthy (environ !! "AZURE_STORAGE_CONNECTION_STRING") = false ->
  has_azure_client s = false ->
  initialize environ s = (r, s') ->
  (forall c, Asked c ∈ asked s' -> Asked c ∈ asked s \/ is_aws_setup c = true)
  /\ (r = Ok tt -> azure_enabled (manager s') = false).
Proof.
  intros Hacc Hconn Hclient H. split.
  - intros c Hc.
    destruct (initialize_asks _ _ _ _ _ H Hc) as [?|[(? & _)|(_ & Hsrc)]]; auto.
    destruct Hsrc as [?|[?|?]]; congruence.
  - intros ->. apply initialize_flags in H as (_ & ->).
    unfold azure_probe_passes, azure_client_source.
    rewrite Hacc, Hconn, Hclient. apply andb_false_r.
Qed.

(** [initialize] asks for a bucket to be created only after [head_bucket]
    has answered 404 for it, only for the configured bucket, and with a
    location constraint exactly when the region is not ["us-east-1"]. *)
Theorem bucket_created_only_after_404 environ s r s' b loc :
  initialize environ s = (r, s') ->
  Asked (S3_create_bucket b loc) ∈ asked s' ->
  Asked (S3_create_bucket b loc) ∈ asked s
  \/ (b = aws_bucket (manager s)
      /\ loc = (if decide (aws_region (manager s) = "us-east-1") then None
                else Some (aws_region (manager s)))
      /\ exists e, provision (S3_head_bucket b) = Raise e
                   /\ is_ClientError e = true /\ error_code e = "404").
Proof.
  intros H Hc.
  destruct (initialize_asks _ _ _ _ _ H Hc) as [?|[(_ & Hb)|(Hs & _)]]; auto.
  discriminate Hs.
Qed.

End SetupProperties.

(** ** More on the case mappings *)

Lemma upper_lower_ascii c :
  PyStr.upper_ascii (PyStr.lower_ascii c) = PyStr.upper_ascii c.
Proof. destruct c as [[] [] [] [] [] [] [] []]; reflexivity. Qed.

Lemma lower_upper_ascii c :
  PyStr.lower_ascii (PyStr.upper_ascii c) = PyStr.lower_ascii c.
Proof. destruct c as [[] [] [] [] [] [] [] []]; reflexivity. Qed.

Lemma upper_lower s :
  PyStr.ascii_upper (PyStr.ascii_lower s) = PyStr.ascii_upper s.
Proof.
  induction s as [|c r IH]; simpl; [reflexivity|].
  now rewrite upper_lower_ascii, IH.
Qed.

Lemma lower_upper s :
  PyStr.ascii_lower (PyStr.ascii_upper s) = PyStr.ascii_lower s.
Proof.
  induction s as [|c r IH]; simpl; [reflexivity|].
  now rewrite lower_upper_ascii, IH.
Qed.

Lemma lower_ascii_below c :
  (N_of_ascii c <? 128)%N = true ->
  (N_of_ascii (PyStr.lower_ascii c) <? 128)%N = true.
Proof. destruct c as [[] [] [] [] [] [] [] []]; intros H; exact H || reflexivity. Qed.

Lemma isascii_lower s :
  PyStr.isascii s = true -> PyStr.isascii (PyStr.ascii_lower s) = true.
Proof.
  induction s as [|c r IH]; simpl; [reflexivity|].
  rewrite !andb_true_iff. intros [Hc Hr].
  split; [now apply lower_ascii_below | now apply IH].
Qed.

(** An ASCII format is one of the three in upper case exactly if it is
    in lower case. *)
Lemma upper_is_iff_lower_is (format u : string) :
  PyStr.ascii_upper format = PyStr.ascii_upper u
  <-> PyStr.ascii_lower format = PyStr.ascii_lower u.
Proof.
  split; intros E.
  - now rewrite <- (lower_upper format), E, lower_upper.
  - now rewrite <- (upper_lower format), E, upper_lower.
Qed.

(** ** What is stored and what is served *)

(** For a format of ASCII characters, the content type stored in the
    cloud with an artifact is the media type its download comes with
    exactly when the format is PNG, SVG or PDF, in any case.  For every
    other such format the bytes are those of the PNG renderer and are
    served as [image/png], but stored as [application/octet-stream]. *)
Theorem stored_type_is_served_type_iff_known
    {U : PyStr.Case} (format : string) :
  PyStr.isascii format = true ->
  (stored_type format = served_type format
   <-> PyStr.upper format ∈ ["PNG"; "SVG"; "PDF"])
  /\ (PyStr.upper format ∉ ["PNG"; "SVG"; "PDF"] ->
      stored_type format = "application/octet-stream"
      /\ served_type format = "image/png").
Proof.
  intros Hascii.
  unfold stored_type, served_type, MultiCloudStorageManager._get_content_type.
  rewrite (PyStr.lower_isascii format Hascii).
  rewrite (PyStr.lower_isascii _ (isascii_lower format Hascii)).
  rewrite (PyStr.upper_isascii format Hascii).
  rewrite lower_idem.
  pose proof (upper_is_iff_lower_is format "PNG") as Hpng.
  pose proof (upper_is_iff_lower_is format "SVG") as Hsvg.
  pose proof (upper_is_iff_lower_is format "PDF") as Hpdf.
  cbn in Hpng, Hsvg, Hpdf.
  rewrite !elem_of_cons, elem_of_nil.
  destruct (decide (PyStr.ascii_upper format = "PNG")) as [E|Npng].
  { rewrite E. apply Hpng in E. rewrite E.
    split; [|intros Hn; exfalso; apply Hn; auto].
    split; [auto|reflexivity]. }
  destruct (decide (PyStr.ascii_upper format = "SVG")) as [E|Nsvg].
  { rewrite E. apply Hsvg in E. rewrite E.
    split; [|intros Hn; exfalso; apply Hn; auto].
    split; [auto|reflexivity]. }
  destruct (decide (PyStr.ascii_upper format = "PDF")) as [E|Npdf].
  { rewrite E. apply Hpdf in E. rewrite E.
    split; [|intros Hn; exfalso; apply Hn; auto].
    split; [auto|reflexivity]. }
  assert (Hstored : default "application/octet-stream"
                      (MultiCloudStorageManager.content_types
                         !! PyStr.ascii_lower format)
                    = "application/octet-stream").
  { assert (PyStr.ascii_lower format <> "png") by tauto.
    assert (PyStr.ascii_lower format <> "svg") by tauto.
    assert (PyStr.ascii_lower format <> "pdf") by tauto.
    unfold MultiCloudStorageManager.content_types.
    rewrite !lookup_insert_ne by congruence.
    now rewrite lookup_singleton_ne by congruence. }
  assert (Hserved : default "image/png"
                      (QRCodeGenerator.content_types
                         !! PyStr.ascii_upper format)
                    = "image/png").
  { unfold QRCodeGenerator.content_types.
    rewrite !lookup_insert_ne by congruence.
    now rewrite lookup_singleton_ne by congruence. }
  rewrite Hstored, Hserved. split; [|done].
  split; [discriminate|tauto].
Qed.

(** ** The handlers of [main.py] *)

Section HandlersMore.
Context {L : QRLib} {W : World} {U : PyStr.Case}.
Import Main.

(** [POST /qr/generate] when it answers: the response names the artifact
    that was generated and cached, one upload of that artifact's bytes is
    scheduled after those that were already waiting, the counter goes up
    by one, and a download of the id in the response returns the bytes
    that the preview decodes to. *)
Theorem generated_code_can_be_downloaded request st response st' :
  generate_qr_code request st = (Ok response, st') ->
  exists a,
    QRCodeGenerator.cache (qr_generator st') !! resp_id response = Some a
    /\ QRCodeGenerator.res_id a = resp_id response
    /\ download_url response = "/qr/download/" ++ resp_id response
    /\ download_qr_code (resp_id response) st'
       = (Ok (QRCodeGenerator.file_data a, served_type (req_format request)),
          st')
    /\ Base64.b64decode (qr_code_base64 response)
       = Some (QRCodeGenerator.file_data a)
    /\ background_tasks st'
       = (background_tasks st ++ [task_for a (req_format request)])%list
    /\ qr_generation_counter st' = S (qr_generation_counter st)
    /\ aws_url response = None /\ azure_url response = None.
Proof.
  unfold generate_qr_code, try_except, mbind, M_bind, bind, on_generator.
  destruct (QRCodeGenerator.generate_qr_code _ _ _ _ _ _ _ _ _)
    as [[a|e] g] eqn:Hgen; cbn; [|discriminate].
  intros [= <- <-]. exists a.
  apply generate_qr_code_ok in Hgen as (_ & Hid & _ & Hf & Hb & _ & Hc).
  cbn. rewrite Hc, lookup_insert_eq, Hb.
  repeat split; try reflexivity.
  - unfold download_qr_code, try_except, on_generator. cbn.
    rewrite (get_qr_code_hit (QRCodeGenerator.res_id a) a g)
      by (rewrite Hc; apply lookup_insert_eq).
    unfold media_type, served_type. now rewrite Hf.
  - apply b64decode_b64encode.
Qed.

(** [POST /qr/generate] when the generation fails: the answer is status
    500 with the cause in its detail, and nothing is left behind: no
    cache entry, no scheduled upload, no increment of the counter. *)
Theorem failed_request_leaves_nothing request st e st' :
  generate_qr_code request st = (Raise e, st') ->
  exists cause,
    QRCodeGenerator._generate_qr_sync (req_data request) (req_format request)
      (req_size request) (req_border request) (req_error_correction request)
      (req_fill_color request) (req_back_color request) None
    = Raise cause
    /\ e = HTTPException 500
             ("QR code generation failed: " ++ str_of_exn cause)
    /\ QRCodeGenerator.cache (qr_generator st')
       = QRCodeGenerator.cache (qr_generator st)
    /\ background_tasks st' = background_tasks st
    /\ qr_generation_counter st' = qr_generation_counter st.
Proof.
  unfold generate_qr_code, try_except, mbind, M_bind, bind, on_generator.
  rewrite generate_qr_code_eq.
  destruct (QRCodeGenerator._generate_qr_sync _ _ _ _ _ _ _ _) as [bytes|cause];
    cbn; [discriminate|].
  intros [= <- <-]. exists cause. repeat split.
Qed.

(** [GET /qr/download/{qr_id}] answers with the cached bytes and their
    media type, or with status 404 when the id is not in the cache; it
    never answers 500, and it changes nothing. *)
Theorem download_is_bytes_or_404 qr_id st :
  match QRCodeGenerator.cache (qr_generator st) !! qr_id with
  | Some a =>
      download_qr_code qr_id st
      = (Ok (QRCodeGenerator.file_data a, media_type a), st)
  | None =>
      download_qr_code qr_id st
      = (Raise (HTTPException 404 "QR code not found"), st)
  end.
Proof.
  destruct st as [g n ks].
  unfold download_qr_code, try_except, on_generator,
    QRCodeGenerator.get_qr_code, media_type. cbn.
  destruct (QRCodeGenerator.cache g !! qr_id) as [a|]; reflexivity.
Qed.

End HandlersMore.

(** ** Deleting from the providers *)

Section Deletion.
Context {C : Cloud} {W : World} {U : PyStr.Case}.
Import MultiCloudStorageManager.

Ltac delete_run :=
  repeat progress
    (unfold try_except, request, emit, lift, after,
       mbind, M_bind, bind, mret, M_ret, ret; cbn).

(** [delete_from_aws] sends nothing when AWS is disabled; otherwise it
    sends one request, for the object an upload of the same id and format
    writes.  It returns [True] exactly when S3 accepted the request, and a
    [ClientError] never leaves it. *)
Theorem delete_from_aws_outcome self file_id file_format s r s' :
  delete_from_aws self file_id file_format s = (r, s') ->
  let del := S3_delete_object (aws_bucket self)
               ("qr-codes/" ++ file_id ++ "." ++ PyStr.lower file_format) in
  requests_of (trace s')
  = (requests_of (trace s) ++ if aws_enabled self then [del] else [])%list
  /\ (r = Ok true <-> aws_enabled self = true /\ is_ok (perform del) = true)
  /\ (forall e, r = Raise e ->
        perform del = Raise e /\ is_ClientError e = false).
Proof.
  unfold delete_from_aws, object_key, requests_of.
  destruct (aws_enabled self); cbn.
  - delete_run.
    destruct (perform (S3_delete_object _ _)) as [x|e0]; cbn.
    + intros [= <- <-]. cbn. rewrite <- app_assoc, !omap_app. cbn.
      repeat split; auto; discriminate.
    + destruct (is_ClientError e0) eqn:He; cbn; intros [= <- <-]; cbn;
        rewrite <- ?app_assoc, !omap_app; cbn.
      * repeat split; try discriminate. intros [_ [=]].
      * repeat split; try congruence; try discriminate. intros [_ [=]].
  - intros [= <- <-]. rewrite app_nil_r.
    repeat split; try discriminate. intros [[=] _].
Qed.

(** The same for [delete_from_azure] and [AzureError]. *)
Theorem delete_from_azure_outcome self file_id file_format s r s' :
  delete_from_azure self file_id file_format s = (r, s') ->
  let del := Blob_delete_blob (azure_container self)
               ("qr-codes/" ++ file_id ++ "." ++ PyStr.lower file_format) in
  requests_of (trace s')
  = (requests_of (trace s) ++ if azure_enabled self then [del] else [])%list
  /\ (r = Ok true <-> azure_enabled self = true /\ is_ok (perform del) = true)
  /\ (forall e, r = Raise e ->
        perform del = Raise e /\ is_AzureError e = false).
Proof.
  unfold delete_from_azure, object_key, requests_of.
  destruct (azure_enabled self); cbn.
  - delete_run.
    destruct (perform (Blob_delete_blob _ _)) as [x|e0]; cbn.
    + intros [= <- <-]. cbn. rewrite <- app_assoc, !omap_app. cbn.
      repeat split; auto; discriminate.
    + destruct (is_AzureError e0) eqn:He; cbn; intros [= <- <-]; cbn;
        rewrite <- ?app_assoc, !omap_app; cbn.
      * repeat split; try discriminate. intros [_ [=]].
      * repeat split; try congruence; try discriminate. intros [_ [=]].
  - intros [= <- <-]. rewrite app_nil_r.
    repeat split; try discriminate. intros [[=] _].
Qed.

End Deletion.

(** ** More on the replication *)

Section ReplicationMore.
Context {C : Cloud} {W : World} {U : PyStr.Case}.
Import MultiCloudStorageManager.

(** Whatever an upload to AWS ends in, the requests it sends are the
    [put_object] under the key ["qr-codes/" + id + "." + lower(format)]
    and, after it, the [generate_presigned_url] for [get_object] on that
    key with [ExpiresIn=3600], and no other; an enabled upload sends the
    first of them before anything else, a disabled one sends nothing; and
    a URL that the upload returns is the answer to the second. *)
Theorem aws_upload_key_and_url self file_id file_data file_format s r s' :
  upload_to_aws self file_id file_data file_format s = (r, s') ->
  let key := "qr-codes/" ++ file_id ++ "." ++ PyStr.lower file_format in
  let put :=
    S3_put_object (aws_bucket self) key file_data
      (_get_content_type file_format) (isoformat (utcnow (clock s)))
      file_format in
  let sign :=
    S3_generate_presigned_url "get_object" (aws_bucket self) key 3600 in
  (exists sent,
     requests_of (trace s') = (requests_of (trace s) ++ sent)%list
     /\ ((aws_enabled self = false /\ sent = [])
         \/ (aws_enabled self = true /\ (sent = [put] \/ sent = [put; sign]))))
  /\ (forall url, r = Ok (Some url) ->
        aws_enabled self = true
        /\ is_ok (perform put) = true
        /\ perform sign = Ok url)
  /\ (forall e, r = Raise e -> is_ClientError e = false).
Proof.
  intros Hrun key put sign. subst key put sign.
  rewrite upload_to_aws_eq in Hrun.
  unfold aws_put, aws_sign, object_key, requests_of in *.
  destruct (aws_enabled self); cbv zeta in Hrun.
  - destruct (perform (S3_put_object _ _ _ _ _ _)) as [x|e] eqn:Hput.
    + destruct (perform (S3_generate_presigned_url _ _ _ _)) as [url|e]
        eqn:Hsign; [|destruct (is_ClientError e) eqn:Hce];
        injection Hrun as <- <-; cbn; rewrite omap_app; cbn.
      * split; [eexists; split; [reflexivity|]; right; auto|].
        split; [|discriminate]. intros ? [= <-]. auto.
      * split; [eexists; split; [reflexivity|]; right; auto|].
        split; discriminate.
      * split; [eexists; split; [reflexivity|]; right; auto|].
        split; [discriminate|]. intros ? [= <-]. exact Hce.
    + destruct (is_ClientError e) eqn:Hce;
        injection Hrun as <- <-; cbn; rewrite omap_app; cbn.
      * split; [eexists; split; [reflexivity|]; right; auto|].
        split; discriminate.
      * split; [eexists; split; [reflexivity|]; right; auto|].
        split; [discriminate|]. intros ? [= <-]. exact Hce.
  - injection Hrun as <- <-. cbn. rewrite omap_app. cbn.
    split; [exists []; split; [reflexivity|]; left; auto|].
    split; discriminate.
Qed.

(** The background task never raises, whatever the providers do.  When
    it ends with the line that reports the two URLs, the Azure URL in it
    is [None]: the line is reached only when Azure is disabled or has
    refused the blob with an [AzureError]. *)
Theorem upload_task_reports_no_azure_url
    self qr_id file_data file_format s :
  fst (Main.upload_to_storage self qr_id file_data file_format s) = Ok tt
  /\ (forall aws_url azure_url,
        last (trace (snd (Main.upload_to_storage self qr_id file_data
                            file_format s)))
        = Some (Logged INFO "QR code uploaded to multi-cloud storage"
                  [("qr_id", Some qr_id); ("aws_url", aws_url);
                   ("azure_url", azure_url)]) ->
        azure_url = None
        /\ (azure_enabled self = false
            \/ exists s0 e,
                 perform (azure_put self qr_id file_data file_format s0)
                 = Raise e
                 /\ is_AzureError e = true)).
Proof.
  split; [apply upload_to_storage_never_raises|].
  intros aws_url azure_url. rewrite upload_to_storage_eq.
  destruct (upload_to_aws _ _ _ _ _) as [[a|e] s1]; cbn.
  - destruct (upload_to_azure self qr_id file_data file_format
                (counted "aws" s1)) as [[b|e] s2] eqn:Hazure; cbn.
    + rewrite last_app. cbn. intros [= <- <-].
      rewrite upload_to_azure_eq in Hazure.
      destruct (azure_enabled self); [|injection Hazure as <- _; auto].
      cbv zeta in Hazure.
      destruct (perform (azure_put _ _ _ _ _)) as [x|e] eqn:Hput.
      * destruct (azure_sign_raises self qr_id file_format
                    (counted "aws" s1)) as [msg Hsign].
        rewrite Hsign in Hazure. discriminate.
      * destruct (is_AzureError e) eqn:Hae; [|discriminate].
        injection Hazure as <- _. split; [reflexivity|].
        right. eauto.
    + rewrite last_app. cbn. discriminate.
  - rewrite last_app. cbn. discriminate.
Qed.

End ReplicationMore.

(** ** The health checker *)

Section Health.
Context {L : QRLib} {W : World} {U : PyStr.Case} {H : Psutil}.

Lemma test_generation_eq g :
  fst (HealthChecker.test_generation g)
  = match QRCodeGenerator._generate_qr_sync "health-check-test" "PNG" 10 4
            "M" "black" "white" None with
    | Ok _ => Ok "healthy"
    | Raise e => Raise e
    end.
Proof.
  unfold HealthChecker.test_generation, mbind, M_bind, bind.
  rewrite generate_qr_code_eq.
  destruct (QRCodeGenerator._generate_qr_sync _ _ _ _ _ _ _ _); reflexivity.
Qed.

Ltac health_run :=
  unfold HealthChecker.check_health, HealthChecker._check_system_health,
    HealthChecker._check_dependencies,
    HealthChecker._check_application_health, HealthChecker.on_new,
    HealthChecker.next_check, HealthChecker.utcnow_isoformat,
    HealthChecker.set_last_health_check, HealthChecker.set_health_status,
    try_except, mbind, M_bind, bind, mret, M_ret, ret, lift, modify, gets;
  cbn -[HealthChecker.test_generation HealthChecker.all_healthy union];
  rewrite ?test_generation_eq.

Lemma check_health_eq environ self :
  exists r,
    HealthChecker.check_health environ self
    = (Ok r,
       {| HealthChecker.health_status := HealthChecker.status r;
          HealthChecker.last_health_check := Some r;
          HealthChecker.checks := S (HealthChecker.checks self);
          HealthChecker.clock := S (HealthChecker.clock self) |})
    /\ HealthChecker.status r
       = (if system_ok (HealthChecker.checks self) && generation_ok
          then "healthy" else "unhealthy")
    /\ HealthChecker.timestamp r
       = isoformat (utcnow (HealthChecker.clock self))
    /\ HealthChecker.error r = None
    /\ HealthChecker.services r !! "aws_s3" = Some "healthy"
    /\ HealthChecker.services r !! "azure_blob" = Some "healthy"
    /\ HealthChecker.services r !! "qr_generator"
       = Some (if generation_ok then "healthy" else "error")
    /\ HealthChecker.services r !! "api"
       = Some (if generation_ok then "healthy" else "error").
Proof.
  unfold system_ok, generation_ok. health_run.
  destruct (QRCodeGenerator._generate_qr_sync _ _ _ _ _ _ _ _) as [bytes|e];
    destruct (cpu_percent _) as [cpu|e1]; cbn;
    try destruct (below cpu 80);
    try (destruct (virtual_memory_percent _) as [memory|e2]; cbn);
    try destruct (below memory 85);
    try (destruct (disk_usage_percent _) as [disk|e3]; cbn);
    try destruct (below disk 90).
  all: eexists; split; [solve [f_equal]|]; repeat split; vm_compute; reflexivity.
Qed.

(** [check_health] always returns a result, never the one of its
    [except] branch.  The status is ["healthy"] exactly when the three
    readings came back below 80, 85 and 90 percent and the test code
    could be rendered.  The two storage providers are reported
    ["healthy"] in every environment, whatever [initialize] found: the
    check reads the flags of a manager it has just constructed. *)
Theorem health_ignores_storage environ self :
  exists r self',
    HealthChecker.check_health environ self = (Ok r, self')
    /\ (HealthChecker.status r = "healthy"
        <-> system_ok (HealthChecker.checks self) && generation_ok = true)
    /\ (HealthChecker.status r = "healthy"
        \/ HealthChecker.status r = "unhealthy")
    /\ HealthChecker.health_status self' = HealthChecker.status r
    /\ HealthChecker.services r !! "aws_s3" = Some "healthy"
    /\ HealthChecker.services r !! "azure_blob" = Some "healthy".
Proof.
  destruct (check_health_eq environ self)
    as (r & Hrun & Hst & _ & _ & Haws & Hazure & _).
  eexists r, _. split; [exact Hrun|]. cbn. rewrite Hst.
  destruct (system_ok _ && generation_ok); repeat split; auto; discriminate.
Qed.

Lemma check_readiness_eq environ self :
  HealthChecker.check_readiness environ self
  = if decide (HealthChecker.health_status self = "initializing")
    then (Ok false, self)
    else (Ok generation_ok, snd (HealthChecker.check_health environ self)).
Proof.
  unfold HealthChecker.check_readiness, try_except, mbind, M_bind, bind, gets.
  destruct (decide (HealthChecker.health_status self = "initializing"));
    [reflexivity|].
  destruct (check_health_eq environ self)
    as (r & Hrun & _ & _ & _ & _ & _ & Hq & Ha).
  rewrite Hrun. cbn. rewrite Hq, Ha.
  destruct generation_ok; reflexivity.
Qed.

(** The readiness probe does not look at the processor, the memory or
    the disk, nor at the storage providers: unless the status is still
    ["initializing"], in which case it answers [False] and checks
    nothing, it answers whether the test code could be rendered.  The
    endpoint turns [False] into status 503. *)
Theorem readiness_follows_generator environ self :
  fst (HealthChecker.check_readiness environ self)
  = Ok (if decide (HealthChecker.health_status self = "initializing")
        then false else generation_ok)
  /\ (HealthChecker.health_status self = "initializing" ->
      snd (HealthChecker.check_readiness environ self) = self)
  /\ fst (Probes.readiness_check environ self)
     = if (if decide (HealthChecker.health_status self = "initializing")
           then false else generation_ok)
       then Ok "ready"
       else Raise (HTTPException 503 "Service not ready").
Proof.
  unfold Probes.readiness_check, mbind, M_bind, bind.
  rewrite check_readiness_eq.
  destruct (decide (HealthChecker.health_status self = "initializing"));
    cbn; [repeat split|].
  split; [reflexivity|]. split; [contradiction|].
  destruct generation_ok; reflexivity.
Qed.

(** [initialize] sets the status to ["initializing"] and runs a health
    check that replaces it: once [initialize] has returned, the status is
    ["healthy"] or ["unhealthy"], and the readiness probe answers whether
    the test code can be rendered, from the first call on. *)
Theorem ready_once_initialized environ self :
  exists self',
    HealthChecker.initialize environ self = (Ok tt, self')
    /\ (HealthChecker.health_status self' = "healthy"
        \/ HealthChecker.health_status self' = "unhealthy")
    /\ fst (HealthChecker.check_readiness environ self') = Ok generation_ok.
Proof.
  unfold HealthChecker.initialize, HealthChecker.set_health_status,
    mbind, M_bind, bind, modify. cbn.
  destruct (check_health_eq environ
              {| HealthChecker.health_status := "initializing";
                 HealthChecker.last_health_check :=
                   HealthChecker.last_health_check self;
                 HealthChecker.checks := HealthChecker.checks self;
                 HealthChecker.clock := HealthChecker.clock self |})
    as (r & Hrun & Hst & _).
  rewrite Hrun. cbn. eexists. split; [reflexivity|].
  assert (Hs : HealthChecker.status r = "healthy"
               \/ HealthChecker.status r = "unhealthy")
    by (rewrite Hst; destruct (system_ok _ && generation_ok); auto).
  split; [exact Hs|].
  rewrite check_readiness_eq. cbn.
  destruct (decide (HealthChecker.status r = "initializing")) as [E|_];
    [|reflexivity].
  destruct Hs as [Hs|Hs]; rewrite Hs in E; discriminate.
Qed.

End Health.

(** ** The upload endpoint *)

Section UploadFacts.
Context {L : QRLib} {W : World} {U : PyStr.Case} {T : Upload.Strip}.
Import Main.

(** A batch with at least one item ends in an exception. *)
Lemma batch_loop_cons_raises item rest format size results st :
  exists e st', batch_loop (item :: rest) format size results st
                = (Raise e, st').
Proof.
  cbn [batch_loop]. unfold mbind at 1, M_bind at 1, bind at 1, on_generator.
  rewrite generate_qr_code_eq.
  destruct (QRCodeGenerator._generate_qr_sync _ _ _ _ _ _ _ _) as [bytes|e];
    cbn; eexists _, _; reflexivity.
Qed.

Lemma batch_returns_nothing request st responses st' :
  generate_batch_qr_codes request st = (Ok responses, st') ->
  responses = [] /\ batch_items request = [] /\ st' = st.
Proof.
  unfold generate_batch_qr_codes.
  destruct (100 <? length (batch_items request))%nat; [discriminate|].
  unfold try_except.
  destruct (batch_items request) as [|item rest]; [cbn; now intros [= <- <-]|].
  destruct (batch_loop_cons_raises item rest (batch_format request)
              (batch_size request) [] st) as (e & st0 & ->).
  discriminate.
Qed.


(** [POST /qr/upload] never returns a generated code: it answers with an
    empty list, which it does only for a file without a line that is not
    blank, or with status 400 or 500. *)
Theorem upload_returns_no_code filename decoded st :
  match fst (Upload.upload_file_for_qr_generation filename decoded st) with
  | Ok responses =>
      responses = []
      /\ exists content,
           decoded = Ok content
           /\ Upload.stripped_lines
                (Upload.split "010" (Upload.strip content)) = []
  | Raise e =>
      e = HTTPException 400 "Only .txt and .csv files are supported"
      \/ e = HTTPException 500 "File processing failed"
  end.
Proof.
  unfold Upload.upload_file_for_qr_generation.
  destruct (Upload.endswith filename ".txt" || Upload.endswith filename ".csv");
    [|cbn; auto].
  cbn [negb]. unfold try_except, mbind, M_bind, bind, lift.
  destruct decoded as [content|e]; [|cbn; auto].
  destruct (100 <? _)%nat; [cbn; auto|].
  unfold BatchQRRequest_validate. cbn.
  unfold Upload.with_new_background_tasks.
  destruct (generate_batch_qr_codes _ _) as [[responses|e] st'] eqn:Hbatch;
    [|cbn; auto].
  apply batch_returns_nothing in Hbatch as (-> & Hitems & _). cbn.
  split; [reflexivity|]. exists content. split; [reflexivity|exact Hitems].
Qed.

End UploadFacts.

(** ** Concrete runs of the further properties *)

Section FurtherRuns.
#[local] Existing Instance Reference.ascii_case.

Lemma cache_entries_stay_well_formed_witness :
  cache_ok demo_generator
  /\ cache_ok (snd (QRCodeGenerator.generate_qr_code (L:=Reference.lib)
                      (W:=Reference.world) "ho" "SVG" 10 4 "M" "black"
                      "white" None demo_generator))
  /\ cache_ok (QRCodeGenerator.clear_cache demo_generator)
  /\ cache_ok (QRCodeGenerator.cache_pop "uuid-0" demo_generator).
Proof.
  assert (H : cache_ok demo_generator).
  { apply map_Forall_insert_2; [|apply map_Forall_empty].
    repeat split; vm_compute; reflexivity. }
  split; [exact H|].
  exact (cache_entries_stay_well_formed (L:=Reference.lib)
           (W:=Reference.world) "ho" "SVG" 10 4 "M" "black" "white" None
           "uuid-0" demo_generator H).
Defined.

Lemma generation_touches_one_entry_witness :
  ("uuid-0" : string)
    <> uuid4 (World:=Reference.world)
         (QRCodeGenerator.uuid_calls demo_generator)
  /\ QRCodeGenerator.cache
       (snd (QRCodeGenerator.generate_qr_code (L:=Reference.lib)
               (W:=Reference.world) "ho" "SVG" 10 4 "M" "black" "white"
               None demo_generator)) !! "uuid-0"
     = Some demo_artifact
  /\ QRCodeGenerator.uuid_calls
       (snd (QRCodeGenerator.generate_qr_code (L:=Reference.lib)
               (W:=Reference.world) "ho" "SVG" 10 4 "M" "black" "white"
               None demo_generator))
     = 2.
Proof.
  assert (H : ("uuid-0" : string)
              <> uuid4 (World:=Reference.world)
                   (QRCodeGenerator.uuid_calls demo_generator))
    by by_decision.
  split; [exact H|].
  destruct (generation_touches_one_entry (L:=Reference.lib)
              (W:=Reference.world) "ho" "SVG" 10 4 "M" "black" "white" None
              demo_generator "uuid-0" H) as [Hkeep Hdrawn].
  split; [|exact Hdrawn].
  rewrite Hkeep. vm_compute. reflexivity.
Defined.

Lemma put_over_existing_id_replaces_witness :
  QRCodeGenerator.cache demo_generator !! "uuid-0" = Some demo_artifact
  /\ QRCodeGenerator.cached_items
       (QRCodeGenerator.get_cache_stats
          (QRCodeGenerator.cache_put "uuid-0" demo_replacement
             demo_generator))
     = QRCodeGenerator.cached_items
         (QRCodeGenerator.get_cache_stats demo_generator)
  /\ QRCodeGenerator.get_qr_code "uuid-0"
       (QRCodeGenerator.cache_put "uuid-0" demo_replacement demo_generator)
     = (Ok (QRCodeGenerator.file_data demo_replacement,
            media_type demo_replacement),
        QRCodeGenerator.cache_put "uuid-0" demo_replacement demo_generator).
Proof.
  assert (H : QRCodeGenerator.cache demo_generator !! "uuid-0"
              = Some demo_artifact) by by_computation.
  split; [exact H|].
  destruct (put_over_existing_id_replaces "uuid-0" demo_artifact
              demo_replacement demo_generator H) as (Hcount & _ & Hget).
  split; [exact Hcount | exact Hget].
Defined.

Lemma pop_removes_one_entry_witness :
  ("x" : string) <> "uuid-0"
  /\ QRCodeGenerator.get_qr_code "uuid-0"
       (QRCodeGenerator.cache_pop "uuid-0" demo_generator)
     = (Raise (FileNotFoundError "QR code uuid-0 not found"),
        QRCodeGenerator.cache_pop "uuid-0" demo_generator)
  /\ QRCodeGenerator.cache (QRCodeGenerator.cache_pop "uuid-0" demo_generator)
       !! "x"
     = QRCodeGenerator.cache demo_generator !! "x".
Proof.
  assert (H : ("x" : string) <> "uuid-0") by by_decision.
  split; [exact H|].
  destruct (pop_removes_one_entry "uuid-0" "x" demo_generator H)
    as (Hgone & Hkept & _).
  split; [exact Hgone | exact Hkept].
Defined.

Lemma style_only_shapes_png_witness :
  ((PyStr.upper "svg" = "SVG" \/ PyStr.upper "svg" = "PDF")
   \/ (Some "rounded" <> Some "rounded" /\ Some "rounded" <> Some "circle"))
  /\ QRCodeGenerator._generate_qr_sync (L:=Reference.lib) "hi" "svg" 10 4
       "M" "black" "white" (Some "rounded")
     = QRCodeGenerator._generate_qr_sync (L:=Reference.lib) "hi" "svg" 10 4
         "M" "black" "white" None.
Proof.
  assert (H : (PyStr.upper "svg" = "SVG" \/ PyStr.upper "svg" = "PDF")
              \/ (Some "rounded" <> Some "rounded"
                  /\ Some "rounded" <> Some "circle"))
    by (left; left; vm_compute; reflexivity).
  split; [exact H|].
  exact (style_only_shapes_png (L:=Reference.lib) "hi" "svg" 10 4 "M"
           "black" "white" (Some "rounded") H).
Defined.

Lemma served_type_matches_renderer_witness :
  QRCodeGenerator.generate_qr_code (L:=Reference.lib) (W:=Reference.world)
    "hi" "PNG" 10 4 "M" "black" "white" None QRCodeGenerator.init
  = (Ok demo_artifact, demo_generator)
  /\ exists qr,
       QRCodeGenerator.encode (L:=Reference.lib) "hi" 10 4 "M" = Ok qr
       /\ ((PyStr.upper "PNG" = "SVG"
            /\ QRCodeGenerator._generate_svg qr "black" "white"
               = Ok (QRCodeGenerator.file_data demo_artifact)
            /\ QRCodeGenerator.get_qr_code
                 (QRCodeGenerator.res_id demo_artifact) demo_generator
               = (Ok (QRCodeGenerator.file_data demo_artifact,
                      "image/svg+xml"), demo_generator))
           \/ (PyStr.upper "PNG" = "PDF"
               /\ QRCodeGenerator._generate_pdf qr "black" "white"
                  = Ok (QRCodeGenerator.file_data demo_artifact)
               /\ QRCodeGenerator.get_qr_code
                    (QRCodeGenerator.res_id demo_artifact) demo_generator
                  = (Ok (QRCodeGenerator.file_data demo_artifact,
                         "application/pdf"), demo_generator))
           \/ (PyStr.upper "PNG" <> "SVG" /\ PyStr.upper "PNG" <> "PDF"
               /\ QRCodeGenerator._generate_png qr "black" "white" None
                  = Ok (QRCodeGenerator.file_data demo_artifact)
               /\ QRCodeGenerator.get_qr_code
                    (QRCodeGenerator.res_id demo_artifact) demo_generator
                  = (Ok (QRCodeGenerator.file_data demo_artifact,
                         "image/png"), demo_generator))).
Proof.
  assert (H : QRCodeGenerator.generate_qr_code (L:=Reference.lib)
                (W:=Reference.world) "hi" "PNG" 10 4 "M" "black" "white"
                None QRCodeGenerator.init
              = (Ok demo_artifact, demo_generator)) by by_computation.
  split; [exact H|].
  exact (served_type_matches_renderer (L:=Reference.lib)
           (W:=Reference.world) _ _ _ _ _ _ _ _ _ _ _ H).
Defined.

Lemma url_always_has_scheme_witness :
  QRCodeGenerator.generate_url_qr (L:=Reference.lib) (W:=Reference.world)
    "example.com" "PNG" 10 4 "M" "black" "white" None QRCodeGenerator.init
  = (Ok demo_url_artifact, demo_url_generator)
  /\ has_scheme (QRCodeGenerator.res_data demo_url_artifact) = true
  /\ (has_scheme "example.com" = false ->
      QRCodeGenerator.res_data demo_url_artifact = "https://example.com").
Proof.
  assert (H : QRCodeGenerator.generate_url_qr (L:=Reference.lib)
                (W:=Reference.world) "example.com" "PNG" 10 4 "M" "black"
                "white" None QRCodeGenerator.init
              = (Ok demo_url_artifact, demo_url_generator))
    by by_computation.
  split; [exact H|].
  destruct (url_always_has_scheme (L:=Reference.lib) (W:=Reference.world)
              _ _ _ _ _ _ _ _ _ _ _ H) as (Hs & _ & Hadd).
  split; [exact Hs | exact Hadd].
Defined.

Section SetupRuns.
Import MultiCloudStorageManager.

Lemma initialize_enables_what_it_could_reach_witness :
  initialize (P:=Startup.bucket_missing) Startup.environ_west
    (fresh Startup.environ_west)
  = (Ok tt, Startup.west_started)
  /\ aws_enabled (manager Startup.west_started)
     = aws_enabled (manager (fresh Startup.environ_west))
       && aws_probe_passes (P:=Startup.bucket_missing) Startup.environ_west
            (manager (fresh Startup.environ_west))
  /\ azure_enabled (manager Startup.west_started)
     = azure_enabled (manager (fresh Startup.environ_west))
       && azure_probe_passes (P:=Startup.bucket_missing)
            Startup.environ_west (manager (fresh Startup.environ_west))
            (has_azure_client (fresh Startup.environ_west)).
Proof.
  assert (H : initialize (P:=Startup.bucket_missing) Startup.environ_west
                (fresh Startup.environ_west)
              = (Ok tt, Startup.west_started)) by by_computation.
  split; [exact H|].
  exact (initialize_enables_what_it_could_reach (P:=Startup.bucket_missing)
           _ _ _ H).
Defined.

Lemma initialize_only_disables_witness :
  initialize (P:=Startup.bucket_missing) Startup.environ_west
    (fresh Startup.environ_west)
  = (Ok tt, Startup.west_started)
  /\ same_configuration (manager Startup.west_started)
       (manager (fresh Startup.environ_west)).
Proof.
  assert (H : initialize (P:=Startup.bucket_missing) Startup.environ_west
                (fresh Startup.environ_west)
              = (Ok tt, Startup.west_started)) by by_computation.
  split; [exact H|].
  exact (proj1 (initialize_only_disables (P:=Startup.bucket_missing)
                  _ _ _ _ H)).
Defined.

Lemma initialize_raises_only_foreign_errors_witness :
  initialize (P:=Startup.s3_unreachable) Startup.environ_west
    (fresh Startup.environ_west)
  = (Raise (BotoCoreError "EndpointConnectionError"), Startup.west_aborted)
  /\ exists c,
       provision (Provisioning:=Startup.s3_unreachable) c
       = Raise (BotoCoreError "EndpointConnectionError")
       /\ (if is_aws_setup c
           then caught_by_aws_setup (BotoCoreError "EndpointConnectionError")
                = false
           else is_AzureError (BotoCoreError "EndpointConnectionError")
                = false).
Proof.
  assert (H : initialize (P:=Startup.s3_unreachable) Startup.environ_west
                (fresh Startup.environ_west)
              = (Raise (BotoCoreError "EndpointConnectionError"),
                 Startup.west_aborted)) by by_computation.
  split; [exact H|].
  exact (initialize_raises_only_foreign_errors (P:=Startup.s3_unreachable)
           _ _ _ _ H).
Defined.

Lemma no_azure_request_without_credentials_witness :
  truthy (azure_account (manager (fresh Startup.environ_west))) = false
  /\ truthy (Startup.environ_west !! "AZURE_STORAGE_CONNECTION_STRING")
     = false
  /\ has_azure_client (fresh Startup.environ_west) = false
  /\ initialize (P:=Startup.bucket_missing) Startup.environ_west
       (fresh Startup.environ_west)
     = (Ok tt, Startup.west_started)
  /\ (forall c, Asked c ∈ asked Startup.west_started ->
        Asked c ∈ asked (fresh Startup.environ_west)
        \/ is_aws_setup c = true)
  /\ azure_enabled (manager Startup.west_started) = false.
Proof.
  assert (H1 : truthy (azure_account (manager (fresh Startup.environ_west)))
               = false) by by_computation.
  assert (H2 : truthy (Startup.environ_west
                         !! "AZURE_STORAGE_CONNECTION_STRING") = false)
    by by_computation.
  assert (H3 : has_azure_client (fresh Startup.environ_west) = false)
    by by_computation.
  assert (H : initialize (P:=Startup.bucket_missing) Startup.environ_west
                (fresh Startup.environ_west)
              = (Ok tt, Startup.west_started)) by by_computation.
  repeat (split; [assumption|]).
  destruct (no_azure_request_without_credentials
              (P:=Startup.bucket_missing) _ _ _ _ H1 H2 H3 H)
    as [Hasks Hoff].
  split; [exact Hasks | exact (Hoff eq_refl)].
Defined.

Lemma bucket_created_only_after_404_witness :
  initialize (P:=Startup.bucket_missing) Startup.environ_west
    (fresh Startup.environ_west)
  = (Ok tt, Startup.west_started)
  /\ Asked Startup.west_create ∈ asked Startup.west_started
  /\ (Asked Startup.west_create ∈ asked (fresh Startup.environ_west)
      \/ (("qr-codes-bucket" : string)
          = aws_bucket (manager (fresh Startup.environ_west))
          /\ Some ("eu-west-1" : string)
             = (if decide (aws_region (manager (fresh Startup.environ_west))
                           = "us-east-1")
                then None
                else Some (aws_region (manager (fresh Startup.environ_west))))
          /\ exists e,
               provision (Provisioning:=Startup.bucket_missing)
                 (S3_head_bucket "qr-codes-bucket") = Raise e
               /\ is_ClientError e = true /\ error_code e = "404")).
Proof.
  assert (H : initialize (P:=Startup.bucket_missing) Startup.environ_west
                (fresh Startup.environ_west)
              = (Ok tt, Startup.west_started)) by by_computation.
  assert (Hin : Asked Startup.west_create ∈ asked Startup.west_started)
    by (simpl; repeat constructor).
  split; [exact H|]. split; [exact Hin|].
  exact (bucket_created_only_after_404 (P:=Startup.bucket_missing)
           _ _ _ _ _ _ H Hin).
Defined.

End SetupRuns.

Lemma stored_type_is_served_type_iff_known_witness :
  PyStr.isascii "GIF" = true
  /\ (PyStr.upper "GIF" ∉ ["PNG"; "SVG"; "PDF"] ->
      stored_type "GIF" = "application/octet-stream"
      /\ served_type "GIF" = "image/png").
Proof.
  assert (H : PyStr.isascii "GIF" = true) by reflexivity.
  split; [exact H|].
  exact (proj2 (stored_type_is_served_type_iff_known "GIF" H)).
Defined.

Lemma generated_code_can_be_downloaded_witness :
  Main.generate_qr_code (L:=Reference.lib) (W:=Reference.world)
    demo_request Main.init
  = (Ok demo_response,
     snd (Main.generate_qr_code (L:=Reference.lib) (W:=Reference.world)
            demo_request Main.init))
  /\ exists a,
       QRCodeGenerator.res_id a = "uuid-0"
       /\ Main.download_qr_code "uuid-0"
            (snd (Main.generate_qr_code (L:=Reference.lib)
                    (W:=Reference.world) demo_request Main.init))
          = (Ok (QRCodeGenerator.file_data a, served_type "PNG"),
             snd (Main.generate_qr_code (L:=Reference.lib)
                    (W:=Reference.world) demo_request Main.init))
       /\ Base64.b64decode "UE5HOmhp" = Some (QRCodeGenerator.file_data a)
       /\ Main.background_tasks
            (snd (Main.generate_qr_code (L:=Reference.lib)
                    (W:=Reference.world) demo_request Main.init))
          = [task_for a "PNG"].
Proof.
  assert (H : Main.generate_qr_code (L:=Reference.lib) (W:=Reference.world)
                demo_request Main.init
              = (Ok demo_response,
                 snd (Main.generate_qr_code (L:=Reference.lib)
                        (W:=Reference.world) demo_request Main.init)))
    by by_computation.
  split; [exact H|].
  destruct (generated_code_can_be_downloaded (L:=Reference.lib)
              (W:=Reference.world) _ _ _ _ H)
    as (a & _ & Hid & _ & Hdown & Hprev & Htasks & _).
  exists a. split; [exact Hid|]. split; [exact Hdown|].
  split; [exact Hprev | exact Htasks].
Defined.

Lemma failed_request_leaves_nothing_witness :
  Main.generate_qr_code (L:=Reference.lib) (W:=Reference.world)
    oversized_request Main.init
  = (Raise (HTTPException 500
              "QR code generation failed: Invalid version (was 41, expected 1 to 40)"),
     snd (Main.generate_qr_code (L:=Reference.lib) (W:=Reference.world)
            oversized_request Main.init))
  /\ QRCodeGenerator.cache
       (Main.qr_generator
          (snd (Main.generate_qr_code (L:=Reference.lib)
                  (W:=Reference.world) oversized_request Main.init)))
     = QRCodeGenerator.cache (Main.qr_generator Main.init)
  /\ Main.background_tasks
       (snd (Main.generate_qr_code (L:=Reference.lib) (W:=Reference.world)
               oversized_request Main.init))
     = Main.background_tasks Main.init.
Proof.
  assert (H : Main.generate_qr_code (L:=Reference.lib) (W:=Reference.world)
                oversized_request Main.init
              = (Raise (HTTPException 500
                          "QR code generation failed: Invalid version (was 41, expected 1 to 40)"),
                 snd (Main.generate_qr_code (L:=Reference.lib)
                        (W:=Reference.world) oversized_request Main.init)))
    by by_computation.
  split; [exact H|].
  destruct (failed_request_leaves_nothing (L:=Reference.lib)
              (W:=Reference.world) _ _ _ _ H)
    as (cause & _ & _ & Hcache & Htasks & _).
  split; [exact Hcache | exact Htasks].
Defined.

Lemma delete_from_aws_outcome_witness :
  MultiCloudStorageManager.delete_from_aws (C:=Reference.cloud_s3_denied)
    (Reference.manager true true) "id1" "PNG" Reference.io0
  = (Ok false,
     snd (MultiCloudStorageManager.delete_from_aws
            (C:=Reference.cloud_s3_denied) (Reference.manager true true)
            "id1" "PNG" Reference.io0))
  /\ requests_of
       (trace (snd (MultiCloudStorageManager.delete_from_aws
                      (C:=Reference.cloud_s3_denied)
                      (Reference.manager true true) "id1" "PNG"
                      Reference.io0)))
     = [S3_delete_object "qr-codes-bucket" "qr-codes/id1.png"].
Proof.
  assert (H : MultiCloudStorageManager.delete_from_aws
                (C:=Reference.cloud_s3_denied) (Reference.manager true true)
                "id1" "PNG" Reference.io0
              = (Ok false,
                 snd (MultiCloudStorageManager.delete_from_aws
                        (C:=Reference.cloud_s3_denied)
                        (Reference.manager true true) "id1" "PNG"
                        Reference.io0)))
    by by_computation.
  split; [exact H|].
  exact (proj1 (delete_from_aws_outcome (C:=Reference.cloud_s3_denied)
                  _ _ _ _ _ _ H)).
Defined.

Lemma delete_from_azure_outcome_witness :
  MultiCloudStorageManager.delete_from_azure (C:=Reference.cloud_up)
    (Reference.manager true true) "id1" "PNG" Reference.io0
  = (Ok true,
     snd (MultiCloudStorageManager.delete_from_azure (C:=Reference.cloud_up)
            (Reference.manager true true) "id1" "PNG" Reference.io0))
  /\ requests_of
       (trace (snd (MultiCloudStorageManager.delete_from_azure
                      (C:=Reference.cloud_up) (Reference.manager true true)
                      "id1" "PNG" Reference.io0)))
     = [Blob_delete_blob "qr-codes" "qr-codes/id1.png"].
Proof.
  assert (H : MultiCloudStorageManager.delete_from_azure
                (C:=Reference.cloud_up) (Reference.manager true true)
                "id1" "PNG" Reference.io0
              = (Ok true,
                 snd (MultiCloudStorageManager.delete_from_azure
                        (C:=Reference.cloud_up) (Reference.manager true true)
                        "id1" "PNG" Reference.io0)))
    by by_computation.
  split; [exact H|].
  exact (proj1 (delete_from_azure_outcome (C:=Reference.cloud_up)
                  _ _ _ _ _ _ H)).
Defined.

Lemma aws_upload_key_and_url_witness :
  MultiCloudStorageManager.upload_to_aws (C:=Reference.cloud_up)
    (W:=Reference.world) (Reference.manager true true) "id1" [] "PNG"
    Reference.io0
  = (Ok (Some demo_s3_url),
     snd (MultiCloudStorageManager.upload_to_aws (C:=Reference.cloud_up)
            (W:=Reference.world) (Reference.manager true true) "id1" []
            "PNG" Reference.io0))
  /\ perform (Cloud:=Reference.cloud_up)
       (S3_generate_presigned_url "get_object" "qr-codes-bucket"
          ("qr-codes/" ++ "id1" ++ "." ++ PyStr.lower "PNG") 3600)
     = Ok demo_s3_url.
Proof.
  assert (H : MultiCloudStorageManager.upload_to_aws (C:=Reference.cloud_up)
                (W:=Reference.world) (Reference.manager true true) "id1" []
                "PNG" Reference.io0
              = (Ok (Some demo_s3_url),
                 snd (MultiCloudStorageManager.upload_to_aws
                        (C:=Reference.cloud_up) (W:=Reference.world)
                        (Reference.manager true true) "id1" [] "PNG"
                        Reference.io0)))
    by by_computation.
  split; [exact H|].
  destruct (aws_upload_key_and_url (C:=Reference.cloud_up)
              (W:=Reference.world) _ _ _ _ _ _ _ H) as (_ & Hurl & _).
  exact (proj2 (proj2 (Hurl demo_s3_url eq_refl))).
Defined.


End FurtherRuns.
